(** * Decision-and-utterance governor of the Minecraft agent

    A shallow embedding of three classes of the bot:
    - [SurvivalDirector] (survival_director.js): the greedy progression chain;
    - [SpeechManager] (speech_manager.js): the speech throttle;
    - [Planner] (planner.js): the orchestrator (cooldown gates, social
      rotation, follow admission, decision dispatch, the autonomous step);
    and, around them, the drain of the speech queue ([SpeechDrain]), the
    memory store ([MemoryStore]), the request cooldown of the chat handler
    ([ChatHandler]) and the requests of players ([Requests]).

    Conventions.  [Date.now()] readings are integers (milliseconds) passed
    as an argument [now] to each synchronous method; a method that reads the
    clock several times without suspending in between gets one reading.
    Item counts are integers; health, food, distances, energy and random
    draws are rationals (the floating point rounding of the host is not
    modelled).  Calls into the skill surface, the task layer and the
    reasoning backend are recorded as a trace of [Event]s; what the
    collaborators answer (a skill that throws, the busy flag of the task
    layer, the mute status of the memory store, [Math.random()]) is an
    input of the model. *)

From Stdlib Require Import ZArith QArith Qminmax Lia Lqa Ascii String List Permutation.
From stdpp Require Import gmap strings list.

Local Open Scope string_scope.
Local Open Scope Z_scope.

(** ** Values of the host language *)

(** A configuration entry as the code probes it: absent ([undefined]), a
    value whose [Number(..)] is not finite, or a finite number. *)
Inductive setting (A : Type) : Type :=
| Unset
| NotFinite
| Num (a : A).
Arguments Unset {A}.
Arguments NotFinite {A}.
Arguments Num {A} a.

(** [Number.isFinite(Number(x)) ? Number(x) : d] *)
Definition finiteOr {A} (x : setting A) (d : A) : A :=
  match x with Num a => a | _ => d end.

(** [x || d] on an integer entry: [undefined], [NaN] and [0] are falsy. *)
Definition orZ (x : setting Z) (d : Z) : Z :=
  match x with Num a => if a =? 0 then d else a | _ => d end.

(** [x ?? d]: only [undefined] is replaced. *)
Definition nullish {A} (x : setting A) (d : A) : setting A :=
  match x with Unset => Num d | _ => x end.

(** [x !== false] on a boolean entry ([None] is [undefined]). *)
Definition notFalse (x : option bool) : bool :=
  match x with Some false => false | _ => true end.

Definition Qleb (a b : Q) : bool := Qle_bool a b.
Definition Qltb (a b : Q) : bool := negb (Qle_bool b a).

(** Values that appear in action arguments and task descriptors. *)
Inductive jsval : Type :=
| JUndef
| JStr (s : string)
| JNum (z : Z).

Definition truthy (v : jsval) : bool :=
  match v with
  | JUndef => false
  | JStr s => negb (String.eqb s "")
  | JNum z => negb (z =? 0)
  end.

(** [a || b] *)
Definition jor (a b : jsval) : jsval := if truthy a then a else b.

(** An object literal: keys in insertion order. *)
Definition Args : Type := list (string * jsval).

Fixpoint getArg (args : Args) (k : string) : jsval :=
  match args with
  | [] => JUndef
  | (k', v) :: rest => if String.eqb k' k then v else getArg rest k
  end.

(** [{...args, k: v}]: an existing key keeps its place, a new one is added
    at the end. *)
Fixpoint setArg (args : Args) (k : string) (v : jsval) : Args :=
  match args with
  | [] => [(k, v)]
  | (k', v') :: rest =>
      if String.eqb k' k then (k, v) :: rest else (k', v') :: setArg rest k v
  end.

(** [Array.prototype.sort(cmp)]: a stable sort; [cmp a b > 0] puts [b]
    first. *)
Fixpoint sortInsert {A} (cmp : A -> A -> Q) (x : A) (l : list A) : list A :=
  match l with
  | [] => [x]
  | y :: l' => if Qltb 0 (cmp x y) then y :: sortInsert cmp x l' else x :: y :: l'
  end.

Definition jsSort {A} (cmp : A -> A -> Q) (l : list A) : list A :=
  foldr (sortInsert cmp) [] l.

(** [s.endsWith(suffix)] *)
Definition endsWith (s suffix : string) : bool :=
  let n := String.length s in
  let k := String.length suffix in
  (k <=? n)%nat && String.eqb (substring (n - k) k s) suffix.

(** [s.includes(t)] *)
Fixpoint includes (s t : string) : bool :=
  String.prefix t s ||
  match s with
  | EmptyString => false
  | String _ s' => includes s' t
  end.

(** Library behaviour the embedding does not fix: Unicode case mapping,
    the regular-expression replacement of [normalizeText], trimming and
    locale-aware comparison. *)
Class Host : Type := {
  toLowerCase : string -> string;
  replaceNonWord : string -> string;
  trim : string -> string;
  localeCompare : string -> string -> Z
}.

(** ** Configuration ([config.behavior]) *)

Record Behavior : Type := {
  chatCooldown : setting Z;
  socialRoundInterval : setting Z;
  perPlayerChatCooldown : setting Z;
  socialMaxDistance : setting Q;
  autoChatCooldownMs : setting Z;
  autonomousDecisionCooldownMs : setting Z;
  followGlobalCooldownMs : setting Z;
  followStickMs : setting Z;
  autonomousFollowEnabled : option bool;
  autonomousSurvivalEnabled : option bool;
  autoChatHistoryMs : setting Z;
  autoChatHistorySize : setting Z;
  survivalStepCooldownMs : setting Z;
  survivalActionCooldownMs : setting Z;
  speechMinDelayMs : setting Q;
  speechMaxDelayMs : setting Q;
  speechBusyDelayMs : setting Q;
  speechDirectMinDelayMs : setting Q;
  speechDirectMaxDelayMs : setting Q;
  speechEventMinDelayMs : setting Q;
  speechEventMaxDelayMs : setting Q;
  speechBurstWindowMs : setting Z;
  speechBurstMax : setting Z;
  speechDirectBurstMax : setting Z;
  speechPulseChanceFocused : setting Q;
  speechPulseChanceNeutral : setting Q;
  speechPulseChanceChatty : setting Q;
  speechAutonomousMinIntervalMs : setting Q;
  speechAutonomousMaxIntervalMs : setting Q;
  speechEnergyRecoverPer10s : setting Q;
  speechEnergyNightPenalty : setting Q;
  speechEnergyDecayOnTalk : setting Q;
  speechEnergyDecayOnDirect : setting Q;
  speechEnergyDecayOnEvent : setting Q;
  scanRadiusDrops : setting Z;
  autoPickupDrops : option bool;
  wanderRange : setting Z
}.

(** The [behavior] block of [baseConfig] in config.js. *)
Definition baseBehavior : Behavior := {|
  chatCooldown := Num 5000;
  socialRoundInterval := Num 500000;
  perPlayerChatCooldown := Num 300000;
  socialMaxDistance := Num (32 # 1);
  autoChatCooldownMs := Num 0;
  autonomousDecisionCooldownMs := Num 20000;
  followGlobalCooldownMs := Num 30000;
  followStickMs := Num 90000;
  autonomousFollowEnabled := Some false;
  autonomousSurvivalEnabled := Some true;
  autoChatHistoryMs := Num 600000;
  autoChatHistorySize := Num 20;
  survivalStepCooldownMs := Num 10000;
  survivalActionCooldownMs := Num 15000;
  speechMinDelayMs := Num (600 # 1);
  speechMaxDelayMs := Num (2500 # 1);
  speechBusyDelayMs := Num (6000 # 1);
  speechDirectMinDelayMs := Num (0 # 1);
  speechDirectMaxDelayMs := Num (400 # 1);
  speechEventMinDelayMs := Num (80 # 1);
  speechEventMaxDelayMs := Num (600 # 1);
  speechBurstWindowMs := Num 20000;
  speechBurstMax := Num 3;
  speechDirectBurstMax := Num 6;
  speechPulseChanceFocused := Num (3 # 100);
  speechPulseChanceNeutral := Num (8 # 100);
  speechPulseChanceChatty := Num (18 # 100);
  speechAutonomousMinIntervalMs := Num (240000 # 1);
  speechAutonomousMaxIntervalMs := Num (420000 # 1);
  speechEnergyRecoverPer10s := Num (2 # 1);
  speechEnergyNightPenalty := Num (1 # 1);
  speechEnergyDecayOnTalk := Num (8 # 1);
  speechEnergyDecayOnDirect := Num (5 # 1);
  speechEnergyDecayOnEvent := Num (4 # 1);
  scanRadiusDrops := Num 18;
  autoPickupDrops := Some true;
  wanderRange := Num 28
|}.

(** ** Effects visible outside the three classes *)

(** Task descriptors handed to [taskManager.startTask]. *)
Inductive Task : Type :=
| TMine (target amount : jsval)
| TGatherWood (amount types : jsval)
| TFarm (crops : jsval).

Inductive Event : Type :=
| Call (skill : string) (args : Args)        (* skills[skill](args) *)
| StartTask (t : Task)                       (* taskManager.startTask(t) *)
| AskLLM (reason : string) (socialTarget : option string)
                                             (* llm.generateResponse(..) *)
| BotChat (text : string).                   (* bot.chat(text) *)

(** How an [async] method ends: it returns a value or an awaited skill
    throws. *)
Inductive Outcome (A : Type) : Type :=
| Returned (a : A)
| Threw.
Arguments Returned {A} a.
Arguments Threw {A}.

(** ** SurvivalDirector (survival_director.js) *)

Module SurvivalDirector.

Record Item : Type := {
  item_type : Z;
  item_name : string;
  item_count : Z;
  item_food : Z                     (* item.food; 0 for an item without one *)
}.

(** The part of [bot] the director reads. *)
Record Bot : Type := {
  health : setting Q;
  food : setting Q;
  itemsByName : gmap string Z;     (* bot.registry.itemsByName: name -> id *)
  items : list Item                (* bot.inventory.items() *)
}.

Record t : Type := {
  lastStepAt : Z;
  lastActionAt : Z
}.

Definition init : t := {| lastStepAt := 0; lastActionAt := 0 |}.

Definition shouldStep (cfg : Behavior) (now : Z) (d : t) : bool * t :=
  let cooldownMs := finiteOr (survivalStepCooldownMs cfg) 10000 in
  if now - lastStepAt d <? cooldownMs then (false, d)
  else (true, {| lastStepAt := now; lastActionAt := lastActionAt d |}).

Definition canAct (cfg : Behavior) (now : Z) (d : t) : bool :=
  let cooldownMs := finiteOr (survivalActionCooldownMs cfg) 15000 in
  cooldownMs <=? now - lastActionAt d.

Definition markAct (now : Z) (d : t) : t :=
  {| lastStepAt := lastStepAt d; lastActionAt := now |}.

(** [bot.inventory.count(id)] *)
Definition inventoryCount (bot : Bot) (id : Z) : Z :=
  foldr (fun it acc => if item_type it =? id then item_count it + acc else acc)
        0 (items bot).

Definition countItem (bot : Bot) (name : string) : Z :=
  if String.eqb name "" then 0
  else match itemsByName bot !! name with
       | None => 0
       | Some id => inventoryCount bot id
       end.

Definition hasItem (bot : Bot) (name : string) : bool :=
  0 <? countItem bot name.

Definition countBySuffix (bot : Bot) (suffixes : list string) : Z :=
  fold_left
    (fun total it =>
       if String.eqb (item_name it) "" then total
       else if existsb (fun suffix => endsWith (item_name it) suffix) suffixes
            then total + item_count it
            else total)
    (items bot) 0.

Definition getFoodItem (bot : Bot) : option Item :=
  let foods := filter (fun i => 0 < item_food i) (items bot) in
  head (jsSort (fun a b => inject_Z (item_food b - item_food a)) foods).

(** What [step] reads from the bot after the eating branch. *)
Definition woodCount (bot : Bot) : Z :=
  countBySuffix bot ["_log"; "_wood"; "_stem"; "_hyphae"] + countItem bot "bamboo_block".
Definition plankCount (bot : Bot) : Z :=
  countBySuffix bot ["_planks"; "bamboo_planks"].

(** The item eaten by the first branch of [step], if that branch fires. *)
Definition eatChoice (bot : Bot) : option Item :=
  let health := finiteOr (health bot) (20 # 1) in
  let food := finiteOr (food bot) (20 # 1) in
  if Qleb health (10 # 1) || Qleb food (12 # 1) then getFoodItem bot else None.

(** The priority chain of [step], after the three gates.  The result is
    the single skill call or task start of the branch taken, if any. *)
Definition choose (bot : Bot) : option Event :=
  let food := finiteOr (food bot) (20 # 1) in
  match eatChoice bot with
  | Some foodItem => Some (Call "eat" [("name", JStr (item_name foodItem))])
  | None =>
  let woodCount := woodCount bot in
  let plankCount := plankCount bot in
  let hasCraftingTable := hasItem bot "crafting_table" in
  let hasWoodPickaxe := hasItem bot "wooden_pickaxe" in
  let hasStonePickaxe := hasItem bot "stone_pickaxe" in
  let hasIronPickaxe := hasItem bot "iron_pickaxe" in
  if negb hasCraftingTable && ((0 <? woodCount) || (0 <? plankCount)) then
    Some (Call "craft_item" [("name", JStr "crafting_table"); ("count", JNum 1)])
  else if woodCount + plankCount <? 12 then
    Some (StartTask (TGatherWood (JNum 24) JUndef))
  else if negb hasWoodPickaxe && (3 <=? plankCount) then
    Some (Call "craft_item" [("name", JStr "wooden_pickaxe"); ("count", JNum 1)])
  else
  let cobbleCount := countItem bot "cobblestone" in
  if hasWoodPickaxe && negb hasStonePickaxe && (cobbleCount <? 3) then
    Some (StartTask (TMine (JStr "stone") (JNum 12)))
  else if hasWoodPickaxe && negb hasStonePickaxe && (3 <=? cobbleCount) then
    Some (Call "craft_item" [("name", JStr "stone_pickaxe"); ("count", JNum 1)])
  else
  let rawIron := countItem bot "raw_iron" in
  let ironOre := countItem bot "iron_ore" in
  let ironIngot := countItem bot "iron_ingot" in
  if hasStonePickaxe && negb hasIronPickaxe && (rawIron + ironOre + ironIngot <? 6) then
    Some (StartTask (TMine (JStr "iron_ore") (JNum 6)))
  else if 0 <? rawIron then
    Some (Call "use_furnace" [("input_name", JStr "raw_iron"); ("count", JNum (Z.min rawIron 8))])
  else if negb hasIronPickaxe && (3 <=? ironIngot) then
    Some (Call "craft_item" [("name", JStr "iron_pickaxe"); ("count", JNum 1)])
  else if Qltb food (14 # 1) && (0 <? countBySuffix bot ["_seeds"]) then
    Some (StartTask (TFarm JUndef))
  else None
  end.

(** Whether an event of the chain is an awaited skill call that throws:
    [startTask] does not throw, a skill may ([fails] is the oracle). *)
Definition throws (fails : string -> bool) (e : Event) : bool :=
  match e with
  | Call skill _ => fails skill
  | _ => false
  end.

(** The time an event of the chain takes: a skill call is awaited,
    [startTask] is not. *)
Definition elapsed (latency : Event -> Z) (e : Event) : Z :=
  match e with
  | Call _ _ => latency e
  | _ => 0
  end.

(** [step]: the gates, then the chain; a branch that acts marks the
    action cooldown (after its skill has returned) and returns [true],
    unless the skill threw. *)
Definition step (cfg : Behavior) (fails : string -> bool) (latency : Event -> Z)
    (now : Z) (taskBusy : bool) (bot : Bot) (d : t)
    : Outcome bool * list Event * t :=
  let '(ok, d1) := shouldStep cfg now d in
  if negb ok then (Returned false, [], d1)
  else if negb (canAct cfg now d1) then (Returned false, [], d1)
  else if taskBusy then (Returned false, [], d1)
  else match choose bot with
       | None => (Returned false, [], d1)
       | Some e =>
           if throws fails e then (Threw, [e], d1)
           else (Returned true, [e], markAct (now + elapsed latency e) d1)
       end.

End SurvivalDirector.

(** ** World snapshot *)

(** An entry of [scan.players]. *)
Record Player : Type := {
  name : string;
  hasEntity : bool;
  distance : Q
}.

(** ** SpeechManager (speech_manager.js) *)

Module SpeechManager.

Record HistoryItem : Type := {
  normalized : string;
  timestamp : Z
}.

Record Entry : Type := {
  text : string;
  reason : string;
  player : option string;
  delayMs : Q
}.

(** [draws] counts the calls of [Math.random()] made so far; the n-th
    call returns [random n]. *)
Record t : Type := {
  context : option (list Player);       (* context.players *)
  queue : list Entry;
  socialEnergy : Q;
  lastEnergyUpdateAt : Z;
  lastSpokeAt : Z;
  lastPulseAt : Z;
  nextAutonomousAt : Q;
  messageHistory : list HistoryItem;
  messageTimestamps : list Z;
  lastByPlayer : gmap string Z;
  draws : nat
}.

Definition clamp (value min max : Q) : Q := Qmax min (Qmin max value).

(** The invariant of the data model: the energy is within its bounds. *)
Definition energyOk_at (e : Q) : Prop := (0 # 1 <= e)%Q /\ (e <= 100 # 1)%Q.
Definition energyOk (s : t) : Prop := energyOk_at (socialEnergy s).

Definition isAutonomousReason (reason : string) : bool :=
  String.eqb reason "autonomous" || String.eqb reason "pulse" || String.eqb reason "social".

Definition isDirectOrMention (reason : string) : bool :=
  String.eqb reason "direct" || String.eqb reason "mention".

Definition isEventReason (reason : string) : bool :=
  String.eqb reason "event" || String.eqb reason "danger" || String.eqb reason "gift".

Section WithHost.
Context `{Host}.
Variable random : nat -> Q.
Variable cfg : Behavior.

Definition getAutonomousIntervalMs (rnd : Q) : Q :=
  let minMs := finiteOr (speechAutonomousMinIntervalMs cfg) (240000 # 1) in
  let maxMs := finiteOr (speechAutonomousMaxIntervalMs cfg) (420000 # 1) in
  let safeMin := Qmax (10000 # 1) minMs in
  let safeMax := Qmax safeMin maxMs in
  (safeMin + rnd * (safeMax - safeMin))%Q.

(** The constructor, run at time [now]. *)
Definition init (now : Z) : t := {|
  context := None;
  queue := [];
  socialEnergy := 55 # 1;
  lastEnergyUpdateAt := now;
  lastSpokeAt := 0;
  lastPulseAt := 0;
  nextAutonomousAt := (inject_Z now + getAutonomousIntervalMs (random 0%nat))%Q;
  messageHistory := [];
  messageTimestamps := [];
  lastByPlayer := ∅;
  draws := 1
|}.

(** [isDay] is [bot.time.isDay] ([None] when there is no [bot.time]). *)
Definition recoverEnergy (now : Z) (isDay : option bool) (s : t) : t :=
  let stepMs := 10000 in
  if now - lastEnergyUpdateAt s <? stepMs then s
  else
    let steps := inject_Z ((now - lastEnergyUpdateAt s) / stepMs) in
    let recoverPerStep := finiteOr (speechEnergyRecoverPer10s cfg) (2 # 1) in
    let e1 := clamp (socialEnergy s + steps * recoverPerStep)%Q (0 # 1) (100 # 1) in
    let e2 :=
      match isDay with
      | Some false =>
          let nightPenalty := finiteOr (speechEnergyNightPenalty cfg) (1 # 1) in
          clamp (e1 - steps * nightPenalty)%Q (0 # 1) (100 # 1)
      | _ => e1
      end in
    {| context := context s; queue := queue s; socialEnergy := e2;
       lastEnergyUpdateAt := now; lastSpokeAt := lastSpokeAt s;
       lastPulseAt := lastPulseAt s; nextAutonomousAt := nextAutonomousAt s;
       messageHistory := messageHistory s;
       messageTimestamps := messageTimestamps s;
       lastByPlayer := lastByPlayer s; draws := draws s |}.

Definition updateContext (now : Z) (isDay : option bool)
    (players : option (list Player)) (s : t) : t :=
  recoverEnergy now isDay
    {| context := players; queue := queue s; socialEnergy := socialEnergy s;
       lastEnergyUpdateAt := lastEnergyUpdateAt s; lastSpokeAt := lastSpokeAt s;
       lastPulseAt := lastPulseAt s; nextAutonomousAt := nextAutonomousAt s;
       messageHistory := messageHistory s;
       messageTimestamps := messageTimestamps s;
       lastByPlayer := lastByPlayer s; draws := draws s |}.

Inductive Mode : Type := focused | chatty | neutral.

Definition getMode (s : t) : Mode :=
  if Qleb (socialEnergy s) (30 # 1) then focused
  else if Qleb (70 # 1) (socialEnergy s) then chatty
  else neutral.

Definition getNearbyPlayerCount (s : t) : nat :=
  let players := match context s with Some ps => ps | None => [] end in
  length (filter (fun p => hasEntity p = true) players).

Definition normalizeText (text : string) : string :=
  trim (replaceNonWord (toLowerCase text)).

Definition setHistory (h : list HistoryItem) (s : t) : t :=
  {| context := context s; queue := queue s; socialEnergy := socialEnergy s;
     lastEnergyUpdateAt := lastEnergyUpdateAt s; lastSpokeAt := lastSpokeAt s;
     lastPulseAt := lastPulseAt s; nextAutonomousAt := nextAutonomousAt s;
     messageHistory := h;
     messageTimestamps := messageTimestamps s;
     lastByPlayer := lastByPlayer s; draws := draws s |}.

Definition setTimestamps (ts : list Z) (s : t) : t :=
  {| context := context s; queue := queue s; socialEnergy := socialEnergy s;
     lastEnergyUpdateAt := lastEnergyUpdateAt s; lastSpokeAt := lastSpokeAt s;
     lastPulseAt := lastPulseAt s; nextAutonomousAt := nextAutonomousAt s;
     messageHistory := messageHistory s;
     messageTimestamps := ts;
     lastByPlayer := lastByPlayer s; draws := draws s |}.

Definition isDuplicate (now : Z) (text : string) (s : t) : bool * t :=
  let normalized' := normalizeText text in
  if String.eqb normalized' "" then (true, s)
  else
    let historyMs := orZ (autoChatHistoryMs cfg) 0 in
    if historyMs <=? 0 then (false, s)
    else
      let kept := filter (fun item => now - timestamp item <= historyMs) (messageHistory s) in
      (existsb (fun item => String.eqb (normalized item) normalized') kept,
       setHistory kept s).

Definition recordMessage (now : Z) (text : string) (player : option string)
    (reason : string) (s : t) : t :=
  let normalized' := normalizeText text in
  let history :=
    if String.eqb normalized' "" then messageHistory s
    else
      let pushed := (messageHistory s ++ [{| normalized := normalized'; timestamp := now |}])%list in
      let maxSize := finiteOr (autoChatHistorySize cfg) 20 in
      if maxSize <? Z.of_nat (length pushed)
      then drop (Z.to_nat (Z.of_nat (length pushed) - maxSize)) pushed
      else pushed in
  let burstWindowMs := orZ (speechBurstWindowMs cfg) 20000 in
  let stamps := filter (fun ts => now - ts <= burstWindowMs) (messageTimestamps s ++ [now])%list in
  let byPlayer :=
    match player with
    | Some p => if String.eqb p "" then lastByPlayer s else <[p := now]> (lastByPlayer s)
    | None => lastByPlayer s
    end in
  let '(next, drawn) :=
    if isAutonomousReason reason
    then ((inject_Z now + getAutonomousIntervalMs (random (draws s)))%Q, S (draws s))
    else (nextAutonomousAt s, draws s) in
  let decay :=
    if String.eqb reason "direct" then nullish (speechEnergyDecayOnDirect cfg) (5 # 1)
    else if isEventReason reason then nullish (speechEnergyDecayOnEvent cfg) (4 # 1)
    else nullish (speechEnergyDecayOnTalk cfg) (8 # 1) in
  let energy :=
    match decay with
    | Num d => clamp (socialEnergy s - d)%Q (0 # 1) (100 # 1)
    | _ => socialEnergy s
    end in
  {| context := context s; queue := queue s; socialEnergy := energy;
     lastEnergyUpdateAt := lastEnergyUpdateAt s; lastSpokeAt := now;
     lastPulseAt := lastPulseAt s; nextAutonomousAt := next;
     messageHistory := history;
     messageTimestamps := stamps;
     lastByPlayer := byPlayer; draws := drawn |}.

Definition canBurst (now : Z) (reason : string) (s : t) : bool * t :=
  let burstWindowMs := orZ (speechBurstWindowMs cfg) 20000 in
  let stamps := filter (fun ts => now - ts <= burstWindowMs) (messageTimestamps s) in
  let max :=
    if String.eqb reason "direct"
    then orZ (speechDirectBurstMax cfg) 6
    else orZ (speechBurstMax cfg) 3 in
  (Z.of_nat (length stamps) <? max, setTimestamps stamps s).

(** [Number(x ?? d)] for a chance: [None] is [NaN]. *)
Definition chanceOf (x : setting Q) (d : Q) : option Q :=
  match x with Unset => Some d | NotFinite => None | Num q => Some q end.

Definition drawRandom (s : t) : Q * t :=
  (random (draws s),
   {| context := context s; queue := queue s; socialEnergy := socialEnergy s;
      lastEnergyUpdateAt := lastEnergyUpdateAt s; lastSpokeAt := lastSpokeAt s;
      lastPulseAt := lastPulseAt s; nextAutonomousAt := nextAutonomousAt s;
      messageHistory := messageHistory s;
      messageTimestamps := messageTimestamps s;
      lastByPlayer := lastByPlayer s; draws := S (draws s) |}).

Definition shouldAllow (now : Z) (reason text : string) (player : option string)
    (s : t) : bool * t :=
  if String.eqb text "" then (false, s)
  else
    let '(dup, s1) :=
      if negb (isDirectOrMention reason) then isDuplicate now text s else (false, s) in
    if dup then (false, s1)
    else
      let '(burstOk, s2) :=
        if negb (isDirectOrMention reason) then canBurst now reason s1 else (true, s1) in
      if negb burstOk then (false, s2)
      else if isDirectOrMention reason || isEventReason reason then (true, s2)
      else if isAutonomousReason reason then
        (negb (Qltb (inject_Z now) (nextAutonomousAt s2)), s2)
      else
        let cooldownMs := orZ (autoChatCooldownMs cfg) 0 in
        if (0 <? cooldownMs) && (now - lastSpokeAt s2 <? cooldownMs) then (false, s2)
        else
          let perPlayerCooldown := orZ (perPlayerChatCooldown cfg) 0 in
          let blocked :=
            match player with
            | Some p =>
                if String.eqb p "" then false
                else
                  let last := default 0 (lastByPlayer s2 !! p) in
                  (0 <? perPlayerCooldown) && (now - last <? perPlayerCooldown)
            | None => false
            end in
          if blocked then (false, s2)
          else
            let chance :=
              match getMode s2 with
              | focused => chanceOf (speechPulseChanceFocused cfg) (3 # 100)
              | chatty => chanceOf (speechPulseChanceChatty cfg) (18 # 100)
              | neutral => chanceOf (speechPulseChanceNeutral cfg) (8 # 100)
              end in
            let nearby := getNearbyPlayerCount s2 in
            let chance1 := if (nearby =? 0)%nat then (fun c => c * (4 # 10))%Q <$> chance else chance in
            let chance2 := if (3 <=? nearby)%nat then (fun c => c * (6 # 10))%Q <$> chance1 else chance1 in
            let '(rnd, s3) := drawRandom s2 in
            match chance2 with
            | Some c => (negb (Qltb c rnd), s3)
            | None => (true, s3)
            end.

Definition getDelayMs (reason : string) (isMoving taskBusy : bool) (s : t) : Q * t :=
  let minDelay := finiteOr (speechMinDelayMs cfg) (600 # 1) in
  let maxDelay := finiteOr (speechMaxDelayMs cfg) (2500 # 1) in
  let busyDelay := finiteOr (speechBusyDelayMs cfg) (6000 # 1) in
  let eventMin := finiteOr (speechEventMinDelayMs cfg) (80 # 1) in
  let eventMax := finiteOr (speechEventMaxDelayMs cfg) (600 # 1) in
  let '(rnd, s1) := drawRandom s in
  if isEventReason reason then ((eventMin + rnd * (eventMax - eventMin))%Q, s1)
  else
    let baseMin :=
      if isDirectOrMention reason then finiteOr (speechDirectMinDelayMs cfg) minDelay else minDelay in
    let baseMax :=
      if isDirectOrMention reason then finiteOr (speechDirectMaxDelayMs cfg) maxDelay else maxDelay in
    if isMoving || taskBusy then
      let boosted := Qmax baseMax busyDelay in
      ((baseMin + rnd * (boosted - baseMin))%Q, s1)
    else ((baseMin + rnd * (baseMax - baseMin))%Q, s1).

Definition setQueue (q : list Entry) (s : t) : t :=
  {| context := context s; queue := q; socialEnergy := socialEnergy s;
     lastEnergyUpdateAt := lastEnergyUpdateAt s; lastSpokeAt := lastSpokeAt s;
     lastPulseAt := lastPulseAt s; nextAutonomousAt := nextAutonomousAt s;
     messageHistory := messageHistory s;
     messageTimestamps := messageTimestamps s;
     lastByPlayer := lastByPlayer s; draws := draws s |}.

(** [enqueue(text, {reason, player})] without [options.delayMs], up to
    the call of [processQueue] that ends the method: the admission and the
    queueing.  One turn of the loop that the call starts is [emitNext];
    the method as a whole, with the entry taken out of the queue and sent
    at once when its delay is not positive, is [SpeechDrain.enqueue]. *)
Definition enqueue (now : Z) (text reason : string) (player : option string)
    (isMoving taskBusy : bool) (s : t) : bool * t :=
  let reason' := if String.eqb reason "" then "autonomous" else reason in
  let player' := match player with Some "" => None | _ => player end in
  let '(ok, s1) := shouldAllow now reason' text player' s in
  if negb ok then (false, s1)
  else
    let '(delay, s2) := getDelayMs reason' isMoving taskBusy s1 in
    let entry := {| text := text; reason := reason'; player := player'; delayMs := delay |} in
    if isDirectOrMention reason' || isEventReason reason'
    then (true, setQueue (entry :: queue s2) s2)
    else (true, setQueue (queue s2 ++ [entry])%list s2).

(** The emissions still inside the burst window at [now]. *)
Definition inBurstWindow (now : Z) (s : t) : list Z :=
  filter (fun ts => now - ts <= orZ (speechBurstWindowMs cfg) 20000) (messageTimestamps s).

(** One turn of the loop of [processQueue], run at time [now], after
    the delay of the entry: the entry is sent and recorded. *)
Definition emitNext (now : Z) (s : t) : option string * t :=
  match queue s with
  | [] => (None, s)
  | item :: rest =>
      (Some (text item),
       recordMessage now (text item) (player item) (reason item) (setQueue rest s))
  end.

End WithHost.

End SpeechManager.

(** ** Planner (planner.js) *)

Module Planner.

Inductive Mode : Type := manual | autonomous | survival.

(** The string of [this.mode]. *)
Definition modeName (m : Mode) : string :=
  match m with
  | manual => "manual"
  | autonomous => "autonomous"
  | survival => "survival"
  end.

(** [target] is [JUndef] for [null]. *)
Record FollowState : Type := {
  target : jsval;
  since : Z;
  stickUntil : Z;
  lastAny : Z
}.

Record t : Type := {
  mode : Mode;
  lastLLMAt : Z;
  lastSocialChatAt : Z;
  socialIndex : nat;
  lastSpokeAt : gmap string Z;
  lastAutoChatAt : Z;
  lastAutonomousDecisionAt : Z;
  followState : FollowState;
  lastScanPlayers : list Player
}.

Definition init (defaultMode : Mode) : t := {|
  mode := defaultMode;
  lastLLMAt := 0;
  lastSocialChatAt := 0;
  socialIndex := 0;
  lastSpokeAt := ∅;
  lastAutoChatAt := 0;
  lastAutonomousDecisionAt := 0;
  followState := {| target := JUndef; since := 0; stickUntil := 0; lastAny := 0 |};
  lastScanPlayers := []
|}.

Definition setLastLLMAt (v : Z) (p : t) : t :=
  {| mode := mode p; lastLLMAt := v; lastSocialChatAt := lastSocialChatAt p;
     socialIndex := socialIndex p; lastSpokeAt := lastSpokeAt p;
     lastAutoChatAt := lastAutoChatAt p;
     lastAutonomousDecisionAt := lastAutonomousDecisionAt p;
     followState := followState p; lastScanPlayers := lastScanPlayers p |}.

Definition setFollowState (f : FollowState) (p : t) : t :=
  {| mode := mode p; lastLLMAt := lastLLMAt p; lastSocialChatAt := lastSocialChatAt p;
     socialIndex := socialIndex p; lastSpokeAt := lastSpokeAt p;
     lastAutoChatAt := lastAutoChatAt p;
     lastAutonomousDecisionAt := lastAutonomousDecisionAt p;
     followState := f; lastScanPlayers := lastScanPlayers p |}.

Definition jsval_eqb (a b : jsval) : bool :=
  match a, b with
  | JUndef, JUndef => true
  | JStr s, JStr s' => String.eqb s s'
  | JNum z, JNum z' => z =? z'
  | _, _ => false
  end.

Section WithHost.
Context `{Host}.
Variable cfg : Behavior.

Definition shouldQueryLLM (now : Z) (force : bool) (p : t) : bool * t :=
  let cooldownMs := orZ (chatCooldown cfg) 0 in
  if force then (true, setLastLLMAt now p)
  else if cooldownMs <=? 0 then (true, p)
  else if now - lastLLMAt p <? cooldownMs then (false, p)
  else (true, setLastLLMAt now p).

(** [muted] is the answer of [memory.isMuted] at the time of the call. *)
Definition canAddressPlayer (now : Z) (muted : string -> bool) (name : string)
    (p : t) : bool :=
  if String.eqb name "" then false
  else if muted name then false
  else
    let cooldownMs := orZ (perPlayerChatCooldown cfg) 0 in
    if cooldownMs <=? 0 then true
    else
      let last := default 0 (lastSpokeAt p !! name) in
      cooldownMs <=? now - last.

(** The list [eligible] of [getSocialTarget]. *)
Definition eligiblePlayers (now : Z) (muted : string -> bool) (username : string)
    (players : list Player) (p : t) : list Player :=
  let maxDistance := finiteOr (socialMaxDistance cfg) (32 # 1) in
  let candidates :=
    filter (fun q => hasEntity q = true ∧ Qleb (distance q) maxDistance = true)
      (filter (fun q => name q ≠ "" ∧ name q ≠ username) players) in
  filter (fun q => canAddressPlayer now muted (name q) p = true) candidates.

Definition getSocialTarget (now : Z) (muted : string -> bool) (username : string)
    (players : list Player) (p : t) : option Player :=
  let intervalMs := orZ (socialRoundInterval cfg) 0 in
  if intervalMs <=? 0 then None
  else if now - lastSocialChatAt p <? intervalMs then None
  else
    let eligible := eligiblePlayers now muted username players p in
    if (length eligible =? 0)%nat then None
    else
      let ordered :=
        jsSort (fun a b => inject_Z (localeCompare (name a) (name b))) eligible in
      let idx := (socialIndex p mod length ordered)%nat in
      ordered !! idx.

Definition markSocialSpoke (now : Z) (p : t) : t :=
  {| mode := mode p; lastLLMAt := lastLLMAt p; lastSocialChatAt := now;
     socialIndex := socialIndex p + 1; lastSpokeAt := lastSpokeAt p;
     lastAutoChatAt := lastAutoChatAt p;
     lastAutonomousDecisionAt := lastAutonomousDecisionAt p;
     followState := followState p; lastScanPlayers := lastScanPlayers p |}.

Definition markPlayerSpoke (now : Z) (name : string) (p : t) : t :=
  if String.eqb name "" then p
  else
    {| mode := mode p; lastLLMAt := lastLLMAt p; lastSocialChatAt := lastSocialChatAt p;
       socialIndex := socialIndex p; lastSpokeAt := <[name := now]> (lastSpokeAt p);
       lastAutoChatAt := lastAutoChatAt p;
       lastAutonomousDecisionAt := lastAutonomousDecisionAt p;
       followState := followState p; lastScanPlayers := lastScanPlayers p |}.

Definition shouldAutonomousDecision (now : Z) (p : t) : bool * t :=
  let cooldownMs := orZ (autonomousDecisionCooldownMs cfg) 0 in
  if cooldownMs <=? 0 then (true, p)
  else if now - lastAutonomousDecisionAt p <? cooldownMs then (false, p)
  else
    (true,
     {| mode := mode p; lastLLMAt := lastLLMAt p; lastSocialChatAt := lastSocialChatAt p;
        socialIndex := socialIndex p; lastSpokeAt := lastSpokeAt p;
        lastAutoChatAt := lastAutoChatAt p;
        lastAutonomousDecisionAt := now;
        followState := followState p; lastScanPlayers := lastScanPlayers p |}).

Definition updateLastScanPlayers (players : list Player) (p : t) : t :=
  {| mode := mode p; lastLLMAt := lastLLMAt p; lastSocialChatAt := lastSocialChatAt p;
     socialIndex := socialIndex p; lastSpokeAt := lastSpokeAt p;
     lastAutoChatAt := lastAutoChatAt p;
     lastAutonomousDecisionAt := lastAutonomousDecisionAt p;
     followState := followState p; lastScanPlayers := players |}.

Definition isTargetVisible (name' : jsval) (p : t) : bool :=
  if negb (truthy name') then false
  else existsb (fun q => jsval_eqb (JStr (name q)) name' && hasEntity q)
         (lastScanPlayers p).

(** [String(v).toLowerCase() !== 'player']; the rendering of a number
    is never ['player']. *)
Definition notPlaceholder (v : jsval) : bool :=
  match v with
  | JStr s => negb (String.eqb (toLowerCase s) "player")
  | _ => true
  end.

Definition resolveFollowTarget (muted : string -> bool) (args : Args) (p : t) : jsval :=
  let targetName :=
    jor (jor (jor (jor (getArg args "targetName") (getArg args "entity_name"))
                  (getArg args "entity")) (getArg args "name")) (getArg args "player") in
  if truthy targetName && notPlaceholder targetName then targetName
  else
    let visible :=
      filter (fun q => hasEntity q = true ∧ muted (name q) = false) (lastScanPlayers p) in
    match jsSort (fun a b => (distance a - distance b)%Q) visible with
    | [] => JUndef
    | first :: _ => if String.eqb (name first) "" then JUndef else JStr (name first)
    end.

Definition canFollowTarget (now : Z) (isMoving : bool) (name' : jsval) (p : t) : bool :=
  let globalCooldown := finiteOr (followGlobalCooldownMs cfg) 30000 in
  if (0 <? globalCooldown) && (now - lastAny (followState p) <? globalCooldown) then false
  else if truthy (target (followState p)) && truthy name'
          && negb (jsval_eqb (target (followState p)) name')
          && isTargetVisible (target (followState p)) p
          && (now <? stickUntil (followState p)) then false
  else if isMoving && truthy (target (followState p)) && truthy name'
          && negb (jsval_eqb name' (target (followState p))) then false
  else true.

Definition markFollow (now : Z) (name' : jsval) (p : t) : t :=
  let stickMs := finiteOr (followStickMs cfg) 60000 in
  let f := followState p in
  if truthy name' then
    setFollowState
      {| target := name'; since := now; stickUntil := now + stickMs; lastAny := now |} p
  else
    setFollowState
      {| target := target f; since := since f; stickUntil := stickUntil f; lastAny := now |} p.

End WithHost.

End Planner.

(** ** The autonomous step and the dispatch of a decision *)

Module Step.

(** The answers of the collaborators during one step: the skill surface
    ([fails], [hasSkill], how long an awaited call takes), the path
    finder, the task layer, the memory store, the world clock and the
    scan of the tick. *)
Record Env : Type := {
  fails : string -> bool;
  hasSkill : string -> bool;
  latency : Event -> Z;
  moving : Z -> bool;               (* bot.pathfinder.isMoving() at a time *)
  busy : Z -> bool;                 (* taskManager.isBusy() at a time *)
  muted : Z -> string -> bool;      (* memory.isMuted(name) at a time *)
  isDay : Z -> option bool;         (* bot.time.isDay at a time *)
  username : string;                (* bot.username *)
  toNumber : string -> setting Z;   (* Number(s) on a string *)
  bot : SurvivalDirector.Bot;
  scanPlayers : list Player;        (* perception.scan().players *)
  hasDrops : bool                   (* scan.nearbyDrops is a non-empty array *)
}.

Record World : Type := {
  planner : Planner.t;
  speech : option SpeechManager.t;   (* [None]: no speechManager attached *)
  director : SurvivalDirector.t;
  clock : Z;                         (* the next reading of Date.now() *)
  trace : list Event
}.

Record Action : Type := {
  action_name : string;
  action_args : Args
}.

(** A decision as [sanitizeDecision] of the backend client returns it:
    [chat] is a string or [null] ([None]), every action has a name and an
    argument object. *)
Record Decision : Type := {
  thought : option string;
  chat : option string;
  actions : list Action
}.

Record Options : Type := {
  opt_reason : string;
  opt_player : option string
}.

(** A computation over the world that returns or throws. *)
Definition M (A : Type) : Type := World -> Outcome A * World.

Definition ret {A} (a : A) : M A := fun w => (Returned a, w).

Definition bind {A B} (m : M A) (k : A -> M B) : M B :=
  fun w =>
    match m w with
    | (Returned a, w') => k a w'
    | (Threw, w') => (Threw, w')
    end.

Notation "'do' x <- m ; k" := (bind m (fun x => k))
  (at level 10, x name, m at level 100, k at level 200).
Notation "m ;;; k" := (bind m (fun _ => k))
  (at level 100, k at level 200, right associativity).

Definition getWorld : M World := fun w => (Returned w, w).

Definition withPlanner (p : Planner.t) (w : World) : World :=
  {| planner := p; speech := speech w; director := director w;
     clock := clock w; trace := trace w |}.

Definition withSpeech (s : option SpeechManager.t) (w : World) : World :=
  {| planner := planner w; speech := s; director := director w;
     clock := clock w; trace := trace w |}.

Definition setPlanner (p : Planner.t) : M unit :=
  fun w => (Returned tt, withPlanner p w).

Definition setSpeech (s : option SpeechManager.t) : M unit :=
  fun w => (Returned tt, withSpeech s w).

(** A call that is not awaited: it is recorded. *)
Definition emit (e : Event) : M unit :=
  fun w => (Returned tt,
            {| planner := planner w; speech := speech w; director := director w;
               clock := clock w; trace := (trace w ++ [e])%list |}).

(** The three fields of a social turn. *)
Definition socialFields (p : Planner.t) : nat * Z * gmap string Z :=
  (Planner.socialIndex p, Planner.lastSocialChatAt p, Planner.lastSpokeAt p).

(** A computation that leaves the three fields as they are, whether it
    returns or throws. *)
Definition keepsSocial {A} (m : M A) : Prop :=
  forall w, socialFields (planner (snd (m w))) = socialFields (planner w).

(** [decision.chat = null] *)
Definition withoutChat (d : Decision) : Decision :=
  {| thought := thought d; chat := None; actions := actions d |}.

Section WithEnv.
Context `{Host}.
Variable random : nat -> Q.
Variable cfg : Behavior.
Variable env : Env.

(** An awaited call: it is recorded, the clock moves on, and a skill
    that fails throws. *)
Definition await (e : Event) : M unit :=
  fun w =>
    let w' := {| planner := planner w; speech := speech w; director := director w;
                 clock := clock w + latency env e;
                 trace := (trace w ++ [e])%list |} in
    match e with
    | Call skill _ => if fails env skill then (Threw, w') else (Returned tt, w')
    | _ => (Returned tt, w')
    end.

(** [this.speechManager.enqueue(text, {reason, player})], or
    [this.bot.chat(text)] when no speech manager is attached; the
    result is [sent] ([true] for the bare chat). *)
Definition say (text reason : string) (player : option string) : M bool :=
  do w <- getWorld;
  match speech w with
  | Some s =>
      let '(sent, s') :=
        SpeechManager.enqueue random cfg (clock w) text reason player
          (moving env (clock w)) (busy env (clock w)) s in
      setSpeech (Some s') ;;; ret sent
  | None => emit (BotChat text) ;;; ret true
  end.

(** [Number.isFinite(Number(v)) ? Number(v) : d]; what a string
    converts to is the host's answer. *)
Definition numberOr (v : jsval) (d : Z) : Z :=
  match v with
  | JNum z => z
  | JStr text => finiteOr (toNumber env text) d
  | JUndef => d
  end.

(** The text sent when a skill throws. *)
Definition apology (skill : string) : string :=
  "сек, не могу сделать " ++ skill ++ ", чет сломалось".

(** The body of the loop over [decision.actions]. *)
Definition dispatch (options : Options) (action : Action) : M unit :=
  let name' := action_name action in
  let args := action_args action in
  if String.eqb name' "" then ret tt
  else if String.eqb name' "start_mining_task" then
    let target := jor (jor (getArg args "name") (getArg args "target"))
                      (getArg args "target_block") in
    if negb (truthy target) then ret tt
    else emit (StartTask (TMine target (jor (getArg args "count") (JNum 10))))
  else if String.eqb name' "start_gather_wood" || String.eqb name' "start_wood_task" then
    let amount := numberOr (getArg args "count") 32 in
    let types := jor (jor (getArg args "types") (getArg args "wood_types"))
                     (getArg args "woods") in
    emit (StartTask (TGatherWood (JNum amount) types))
  else if String.eqb name' "start_farm_task" || String.eqb name' "start_farming_task" then
    emit (StartTask (TFarm (jor (getArg args "crops") (getArg args "crop_types"))))
  else if String.eqb name' "follow" then
    let reason := if String.eqb (opt_reason options) "" then "autonomous"
                  else opt_reason options in
    let allowAutoFollow := notFalse (autonomousFollowEnabled cfg) in
    if negb (SpeechManager.isDirectOrMention reason) && negb allowAutoFollow then ret tt
    else
      do w <- getWorld;
      let targetName :=
        Planner.resolveFollowTarget (muted env (clock w)) args (planner w) in
      if negb (truthy targetName) then ret tt
      else if negb (Planner.canFollowTarget cfg (clock w) (moving env (clock w))
                      targetName (planner w)) then ret tt
      else
        await (Call "follow" (setArg args "player" targetName)) ;;;
        do w' <- getWorld;
        setPlanner (Planner.markFollow cfg (clock w') targetName (planner w'))
  else if hasSkill env name' then
    (* try { await skills[name](args) } catch { apologise } *)
    fun w =>
      match await (Call name' args) w with
      | (Returned _, w') => (Returned tt, w')
      | (Threw, w') =>
          let reason := if String.eqb (opt_reason options) "" then "event"
                        else opt_reason options in
          (say (apology name') reason (opt_player options) ;;; ret tt) w'
      end
  else ret tt.

Fixpoint dispatchAll (options : Options) (acts : list Action) : M unit :=
  match acts with
  | [] => ret tt
  | a :: rest => dispatch options a ;;; dispatchAll options rest
  end.

(** [executeDecision]: the result is [chatText]. *)
Definition executeDecision (decision : Decision) (options : Options)
    : M (option string) :=
  do chatText <-
    match chat decision with
    | Some chatText =>
        let reason := if String.eqb (opt_reason options) "" then "autonomous"
                      else opt_reason options in
        do sent <- say chatText reason (opt_player options);
        ret (if sent then Some chatText else None)
    | None => ret None
    end;
  dispatchAll options (actions decision) ;;;
  ret chatText.

Definition pickupDrops (isMoving : bool) : M unit :=
  do w <- getWorld;
  if notFalse (autoPickupDrops cfg) && hasDrops env && negb isMoving
     && negb (busy env (clock w))
  then await (Call "pickup_item" [("radius", JNum (orZ (scanRadiusDrops cfg) 18))])
  else ret tt.

(** [survivalDirector.step(..)] inside the step. *)
Definition survivalStep : M bool :=
  fun w =>
    let '(out, evs, d') :=
      SurvivalDirector.step cfg (fails env) (latency env) (clock w)
        (busy env (clock w)) (bot env) (director w) in
    let w' := {| planner := planner w; speech := speech w; director := d';
                 clock := clock w + foldr (fun e acc => SurvivalDirector.elapsed (latency env) e + acc) 0 evs;
                 trace := (trace w ++ evs)%list |} in
    (out, w').

(** The rest of [autonomousStep] once the backend has answered with a
    decision (from [if (soloMode)] to the end of the method). *)
Definition onDecision (socialTarget : option Player) (soloMode isMoving : bool)
    (decision0 : Decision) : M unit :=
  let decision1 :=
    if soloMode then withoutChat decision0 else decision0 in
  let '(decision2, usedSocial) :=
    match socialTarget, chat decision1 with
    | Some tgt, Some chatText =>
        if String.eqb chatText "" then (decision1, false)
        else
          let targetName := name tgt in
          (if negb (includes (toLowerCase chatText) (toLowerCase targetName))
           then {| thought := thought decision1;
                   chat := Some (targetName ++ ", " ++ chatText);
                   actions := actions decision1 |}
           else decision1, true)
    | _, _ => (decision1, false)
    end in
  do chatText <-
    executeDecision decision2
      {| opt_reason := "autonomous"; opt_player := name <$> socialTarget |};
  do w3 <- getWorld;
  (match socialTarget, chatText with
   | Some tgt, Some sentText =>
       if usedSocial && negb (String.eqb sentText "") then
         setPlanner
           (Planner.markPlayerSpoke (clock w3) (name tgt)
              (Planner.markSocialSpoke (clock w3) (planner w3)))
       else ret tt
   | _, _ => ret tt
   end) ;;;
  pickupDrops isMoving.

(** [scan.players] filtered to the social distance. *)
Definition nearbyPlayers : list Player :=
  let maxDistance := finiteOr (socialMaxDistance cfg) (32 # 1) in
  filter (fun q => hasEntity q = true ∧ Qleb (distance q) maxDistance = true)
         (scanPlayers env).

Definition isSurvival (p : Planner.t) : bool :=
  match Planner.mode p with Planner.survival => true | _ => false end.

(** [autonomousStep]; [reply] is what [llm.generateResponse] returns if
    it is asked. *)
Definition autonomousStep (reply : option Decision) : M unit :=
  do w0 <- getWorld;
  let isMoving := moving env (clock w0) in
  let hasNearbyPlayers := (0 <? length nearbyPlayers)%nat in
  setPlanner (Planner.updateLastScanPlayers nearbyPlayers (planner w0)) ;;;
  setSpeech (SpeechManager.updateContext cfg (clock w0) (isDay env (clock w0))
               (Some nearbyPlayers) <$> speech w0) ;;;
  let soloMode := negb hasNearbyPlayers in
  let survivalEnabled := notFalse (autonomousSurvivalEnabled cfg) in
  let shouldRunSurvival := isSurvival (planner w0) || (soloMode && survivalEnabled) in
  do acted <- (if shouldRunSurvival then survivalStep else ret false);
  if acted && (soloMode || isSurvival (planner w0)) then ret tt
  else
    do w1 <- getWorld;
    let '(query, p1) := Planner.shouldQueryLLM cfg (clock w1) false (planner w1) in
    setPlanner p1 ;;;
    if negb query then
      if soloMode then
        pickupDrops isMoving ;;;
        do w2 <- getWorld;
        if negb isMoving && negb (busy env (clock w2))
        then await (Call "wander" [("range", JNum (finiteOr (wanderRange cfg) 24))])
        else ret tt
      else ret tt
    else
      let '(decide', p2) := Planner.shouldAutonomousDecision cfg (clock w1) p1 in
      setPlanner p2 ;;;
      if negb decide' then ret tt
      else
        let socialTarget :=
          if soloMode then None
          else Planner.getSocialTarget cfg (clock w1) (muted env (clock w1))
                 (username env) nearbyPlayers p2 in
        await (AskLLM (Planner.modeName (Planner.mode p2)) (name <$> socialTarget)) ;;;
        match reply with
        | None => ret tt
        | Some decision => onDecision socialTarget soloMode isMoving decision
        end.

End WithEnv.

End Step.

(** ** A host for ASCII text *)

(** The instance used for the concrete inputs.  It agrees with the host
    on ASCII text and on lower-case ASCII names: [compareZ] orders by
    character code and [squeeze] keeps the ASCII letters and digits
    only. *)

Module AsciiHost.

Definition lowerChar (c : ascii) : ascii :=
  let n := nat_of_ascii c in
  if ((65 <=? n) && (n <=? 90))%nat then ascii_of_nat (n + 32) else c.

Fixpoint lower (s : string) : string :=
  match s with
  | EmptyString => EmptyString
  | String c s' => String (lowerChar c) (lower s')
  end.

Definition isWordChar (c : ascii) : bool :=
  let n := nat_of_ascii c in
  (((48 <=? n) && (n <=? 57)) || ((65 <=? n) && (n <=? 90))
   || ((97 <=? n) && (n <=? 122)))%nat.

(** Every run of characters outside [a-z0-9] (ignoring case) becomes one
    space. *)
Fixpoint squeeze (inRun : bool) (s : string) : string :=
  match s with
  | EmptyString => EmptyString
  | String c s' =>
      if isWordChar c then String c (squeeze false s')
      else if inRun then squeeze true s'
      else String " " (squeeze true s')
  end.

Fixpoint trimLeft (s : string) : string :=
  match s with
  | String " " s' => trimLeft s'
  | _ => s
  end.

Fixpoint revString (s acc : string) : string :=
  match s with
  | EmptyString => acc
  | String c s' => revString s' (String c acc)
  end.

Definition trimBoth (s : string) : string :=
  revString (trimLeft (revString (trimLeft s) EmptyString)) EmptyString.

Definition compareZ (a b : string) : Z :=
  match String.compare a b with
  | Lt => -1
  | Eq => 0
  | Gt => 1
  end.

Fixpoint digitsValue (s : string) (acc : Z) : option Z :=
  match s with
  | EmptyString => Some acc
  | String c s' =>
      let n := Z.of_nat (nat_of_ascii c) in
      if (48 <=? n) && (n <=? 57) then digitsValue s' (10 * acc + (n - 48)) else None
  end.

(** [Number(s)] on the empty string and on decimal integers with an
    optional sign, surrounded by spaces or not; every other text is taken
    as not a number. *)
Definition number (s : string) : setting Z :=
  match trimBoth s with
  | EmptyString => Num 0
  | String "-" (String c d) =>
      match digitsValue (String c d) 0 with Some z => Num (- z) | None => NotFinite end
  | String "+" (String c d) =>
      match digitsValue (String c d) 0 with Some z => Num z | None => NotFinite end
  | d => match digitsValue d 0 with Some z => Num z | None => NotFinite end
  end.

Definition host : Host := {|
  toLowerCase := lower;
  replaceNonWord := squeeze false;
  trim := trimBoth;
  localeCompare := compareZ
|}.

End AsciiHost.

(** ** Sequences of calls *)

Module Runs.

(** The calls made on a speech manager from outside. *)
Inductive SpeechOp : Type :=
| OpUpdateContext (now : Z) (isDay : option bool) (players : option (list Player))
| OpEnqueue (now : Z) (text reason : string) (player : option string)
    (isMoving taskBusy : bool)
| OpEmit (now : Z)
| OpRecord (now : Z) (text : string) (player : option string) (reason : string).

Definition applyOp `{Host} (random : nat -> Q) (cfg : Behavior)
    (s : SpeechManager.t) (op : SpeechOp) : SpeechManager.t :=
  match op with
  | OpUpdateContext now isDay players =>
      SpeechManager.updateContext cfg now isDay players s
  | OpEnqueue now text reason player isMoving taskBusy =>
      snd (SpeechManager.enqueue random cfg now text reason player isMoving taskBusy s)
  | OpEmit now => snd (SpeechManager.emitNext random cfg now s)
  | OpRecord now text player reason =>
      SpeechManager.recordMessage random cfg now text player reason s
  end.

Definition runSpeech `{Host} (random : nat -> Q) (cfg : Behavior)
    (ops : list SpeechOp) (s : SpeechManager.t) : SpeechManager.t :=
  fold_left (applyOp random cfg) ops s.

(** One social turn of the autonomous step: the target is selected at
    [turn_now] and, the utterance being accepted, the turn is marked at
    [turn_mark]. *)
Record Turn : Type := {
  turn_now : Z;
  turn_mark : Z;
  turn_muted : string -> bool;
  turn_players : list Player
}.

Section Social.
Context `{Host}.
Variable cfg : Behavior.
Variable username : string.

Definition socialTurn (turn : Turn) (p : Planner.t) : option (Player * Planner.t) :=
  match Planner.getSocialTarget cfg (turn_now turn) (turn_muted turn) username
          (turn_players turn) p with
  | Some tgt =>
      Some (tgt,
            Planner.markPlayerSpoke (turn_mark turn) (name tgt)
              (Planner.markSocialSpoke (turn_mark turn) p))
  | None => None
  end.

(** Consecutive successful turns, with the targets addressed. *)
Fixpoint rotations (turns : list Turn) (p : Planner.t)
    : option (list Player * Planner.t) :=
  match turns with
  | [] => Some ([], p)
  | turn :: rest =>
      match socialTurn turn p with
      | Some (tgt, p1) =>
          match rotations rest p1 with
          | Some (tgts, p2) => Some (tgt :: tgts, p2)
          | None => None
          end
      | None => None
      end
  end.

(** The eligible list is [E] at every turn of the run. *)
Fixpoint eligibleFixed (E : list Player) (turns : list Turn) (p : Planner.t) : Prop :=
  match turns with
  | [] => True
  | turn :: rest =>
      Planner.eligiblePlayers cfg (turn_now turn) (turn_muted turn) username
        (turn_players turn) p = E
      /\ match socialTurn turn p with
         | Some (_, p1) => eligibleFixed E rest p1
         | None => True
         end
  end.

End Social.

End Runs.

(** ** Concrete inputs *)

Module Examples.

Import SurvivalDirector.

Definition registry : gmap string Z :=
  list_to_map
    [("crafting_table", 1); ("oak_planks", 2); ("wooden_pickaxe", 3);
     ("stone_pickaxe", 4); ("iron_pickaxe", 5); ("raw_iron", 6);
     ("cobblestone", 7); ("oak_log", 8); ("iron_ingot", 9); ("iron_ore", 10);
     ("bamboo_block", 11); ("bread", 12)].

Definition stack (n : string) (id c : Z) : Item :=
  {| item_type := id; item_name := n; item_count := c; item_food := 0 |}.

Definition loaf : Item :=
  {| item_type := 12; item_name := "bread"; item_count := 1; item_food := 5 |}.

(** A bot with health [h], full food and the given inventory. *)
Definition holding (h : Q) (its : list Item) : Bot :=
  {| health := Num h; food := Num (20 # 1); itemsByName := registry; items := its |}.

Definition craft (n : string) : Event :=
  Call "craft_item" [("name", JStr n); ("count", JNum 1)].

(** [step] at time 20000 on a fresh director, nothing failing. *)
Definition firstStep (b : Bot) : Outcome bool * list Event * SurvivalDirector.t :=
  step baseBehavior (fun _ => false) (fun _ => 0) 20000 false b init.

Definition quiet : nat -> Q := fun _ => 0 # 1.

(** A speech manager that has emitted at [stamps] and recorded [hist]. *)
Definition spoken (stamps : list Z) (hist : list SpeechManager.HistoryItem)
    : SpeechManager.t :=
  {| SpeechManager.context := None; SpeechManager.queue := [];
     SpeechManager.socialEnergy := 55 # 1; SpeechManager.lastEnergyUpdateAt := 0;
     SpeechManager.lastSpokeAt := 0; SpeechManager.lastPulseAt := 0;
     SpeechManager.nextAutonomousAt := 0 # 1;
     SpeechManager.messageHistory := hist; SpeechManager.messageTimestamps := stamps;
     SpeechManager.lastByPlayer := ∅; SpeechManager.draws := 0 |}.

Definition near (n : string) : Player :=
  {| name := n; hasEntity := true; distance := 4 # 1 |}.

(** A social turn at time [t], marked three seconds later. *)
Definition round (t : Z) : Runs.Turn :=
  {| Runs.turn_now := t; Runs.turn_mark := t + 3000; Runs.turn_muted := fun _ => false;
     Runs.turn_players := [near "carol"; near "alice"; near "bot"; near "bob"] |}.

(** Collaborators that never fail, with the given players in sight. *)
Definition calm (players : list Player) : Step.Env :=
  {| Step.fails := fun _ => false; Step.hasSkill := fun _ => true;
     Step.latency := fun _ => 50; Step.moving := fun _ => false;
     Step.busy := fun _ => false; Step.muted := fun _ _ => false;
     Step.isDay := fun _ => Some true; Step.username := "bot";
     Step.toNumber := AsciiHost.number;
     Step.bot := holding (20 # 1) []; Step.scanPlayers := players;
     Step.hasDrops := false |}.

(** The world at time [now] with a fresh planner in autonomous mode. *)
Definition world (now : Z) (s : SpeechManager.t) : Step.World :=
  {| Step.planner := Planner.init Planner.autonomous; Step.speech := Some s;
     Step.director := SurvivalDirector.init; Step.clock := now; Step.trace := [] |}.

Definition greeting : Step.Decision :=
  {| Step.thought := None; Step.chat := Some "hello";
     Step.actions := [{| Step.action_name := "wander"; Step.action_args := [] |}] |}.

(** The base configuration with the query cooldown switched off. *)
Definition noQueryCooldown : Behavior := {|
  chatCooldown := Num 0;
  socialRoundInterval := socialRoundInterval baseBehavior;
  perPlayerChatCooldown := perPlayerChatCooldown baseBehavior;
  socialMaxDistance := socialMaxDistance baseBehavior;
  autoChatCooldownMs := autoChatCooldownMs baseBehavior;
  autonomousDecisionCooldownMs := autonomousDecisionCooldownMs baseBehavior;
  followGlobalCooldownMs := followGlobalCooldownMs baseBehavior;
  followStickMs := followStickMs baseBehavior;
  autonomousFollowEnabled := autonomousFollowEnabled baseBehavior;
  autonomousSurvivalEnabled := autonomousSurvivalEnabled baseBehavior;
  autoChatHistoryMs := autoChatHistoryMs baseBehavior;
  autoChatHistorySize := autoChatHistorySize baseBehavior;
  survivalStepCooldownMs := survivalStepCooldownMs baseBehavior;
  survivalActionCooldownMs := survivalActionCooldownMs baseBehavior;
  speechMinDelayMs := speechMinDelayMs baseBehavior;
  speechMaxDelayMs := speechMaxDelayMs baseBehavior;
  speechBusyDelayMs := speechBusyDelayMs baseBehavior;
  speechDirectMinDelayMs := speechDirectMinDelayMs baseBehavior;
  speechDirectMaxDelayMs := speechDirectMaxDelayMs baseBehavior;
  speechEventMinDelayMs := speechEventMinDelayMs baseBehavior;
  speechEventMaxDelayMs := speechEventMaxDelayMs baseBehavior;
  speechBurstWindowMs := speechBurstWindowMs baseBehavior;
  speechBurstMax := speechBurstMax baseBehavior;
  speechDirectBurstMax := speechDirectBurstMax baseBehavior;
  speechPulseChanceFocused := speechPulseChanceFocused baseBehavior;
  speechPulseChanceNeutral := speechPulseChanceNeutral baseBehavior;
  speechPulseChanceChatty := speechPulseChanceChatty baseBehavior;
  speechAutonomousMinIntervalMs := speechAutonomousMinIntervalMs baseBehavior;
  speechAutonomousMaxIntervalMs := speechAutonomousMaxIntervalMs baseBehavior;
  speechEnergyRecoverPer10s := speechEnergyRecoverPer10s baseBehavior;
  speechEnergyNightPenalty := speechEnergyNightPenalty baseBehavior;
  speechEnergyDecayOnTalk := speechEnergyDecayOnTalk baseBehavior;
  speechEnergyDecayOnDirect := speechEnergyDecayOnDirect baseBehavior;
  speechEnergyDecayOnEvent := speechEnergyDecayOnEvent baseBehavior;
  scanRadiusDrops := scanRadiusDrops baseBehavior;
  autoPickupDrops := autoPickupDrops baseBehavior;
  wanderRange := wanderRange baseBehavior
|}.

End Examples.

(** ** Shapes of traces and actions *)

Module Shapes.

(** A call of the follow skill. *)
Definition isFollowCall (e : Event) : bool :=
  match e with
  | Call skill _ => String.eqb skill "follow"
  | _ => false
  end.

Definition noFollow (tr : list Event) : Prop :=
  Forall (fun e => isFollowCall e = false) tr.

(** A computation that never adds a call of the follow skill. *)
Definition keepsNoFollow {A} (m : Step.M A) : Prop :=
  forall w, noFollow (Step.trace w) -> noFollow (Step.trace (snd (m w))).

(** An action that [executeDecision] hands to the skill surface as it is:
    neither a task start nor a follow, and naming an existing skill. *)
Definition plainSkill (env : Step.Env) (a : Step.Action) : bool :=
  let n := Step.action_name a in
  negb (String.eqb n "")
  && negb (String.eqb n "start_mining_task")
  && negb (String.eqb n "start_gather_wood" || String.eqb n "start_wood_task")
  && negb (String.eqb n "start_farm_task" || String.eqb n "start_farming_task")
  && negb (String.eqb n "follow")
  && Step.hasSkill env n.

Definition callOf (a : Step.Action) : Event :=
  Call (Step.action_name a) (Step.action_args a).

(** The reading of the clock in a call on the speech manager, and whether
    the call can record an emission. *)
Definition opNow (op : Runs.SpeechOp) : Z :=
  match op with
  | Runs.OpUpdateContext now _ _ => now
  | Runs.OpEnqueue now _ _ _ _ _ => now
  | Runs.OpEmit now => now
  | Runs.OpRecord now _ _ _ => now
  end.

Definition records (op : Runs.SpeechOp) : bool :=
  match op with
  | Runs.OpEmit _ | Runs.OpRecord _ _ _ _ => true
  | _ => false
  end.

(** The number of calls of a sequence that can record an emission. *)
Definition recordings (ops : list Runs.SpeechOp) : nat :=
  length (filter (fun op => records op = true) ops).

End Shapes.

(** ** Further entries of [config.behavior] *)

(** The entries read by the pulse gate, the chat handler and the memory
    store. *)
Record BehaviorRest : Type := {
  speechPulseIntervalMs : setting Z;
  globalChatCooldown : setting Z;
  etiquetteMuteMinutes : setting Z;
  maxFactsPerPlayer : setting Z;
  topicTtlMs : setting Z;
  maxTopicsPerPlayer : setting Z
}.

(** Their values in [baseConfig] of config.js. *)
Definition baseRest : BehaviorRest := {|
  speechPulseIntervalMs := Num 60000;
  globalChatCooldown := Num 0;
  etiquetteMuteMinutes := Num 10;
  maxFactsPerPlayer := Num 50;
  topicTtlMs := Num 1800000;
  maxTopicsPerPlayer := Num 10
|}.

(** What the store needs from the host beyond [Host]:
    [s.replace(/\s+/g, ' ')] and [s.length]. *)
Class TextHost : Type := {
  collapseWhitespace : string -> string;
  codeUnits : string -> nat
}.

(** ** The pulse gate of the speech manager (speech_manager.js) *)

Module SpeechPulse.

Import SpeechManager.

Definition setLastPulseAt (now : Z) (s : t) : t :=
  {| context := context s; queue := queue s; socialEnergy := socialEnergy s;
     lastEnergyUpdateAt := lastEnergyUpdateAt s; lastSpokeAt := lastSpokeAt s;
     lastPulseAt := now; nextAutonomousAt := nextAutonomousAt s;
     messageHistory := messageHistory s;
     messageTimestamps := messageTimestamps s;
     lastByPlayer := lastByPlayer s; draws := draws s |}.

Definition shouldPulse (rest : BehaviorRest) (now : Z) (s : t) : bool * t :=
  if Qltb (inject_Z now) (nextAutonomousAt s) then (false, s)
  else
    let intervalMs := orZ (speechPulseIntervalMs rest) 60000 in
    if now - lastPulseAt s <? intervalMs then (false, s)
    else (true, setLastPulseAt now s).

End SpeechPulse.

(** ** The drain of the speech queue (speech_manager.js) *)

(** [enqueue] as a whole: the admission and queueing of
    [SpeechManager.enqueue], followed by the call of [processQueue]. *)
Module SpeechDrain.

Import SpeechManager.

(** The throttle with the loop of [processQueue]: [processing] is the flag
    of that name, [sleeping] the entry that the loop has shifted out of the
    queue and waits to send. *)
Record t : Type := {
  core : SpeechManager.t;
  processing : bool;
  sleeping : option Entry
}.

(** Between two stretches of the loop, an idle throttle has nothing
    queued and nothing waiting, and a busy one has an entry waiting. *)
Definition settled (d : t) : Prop :=
  if processing d then sleeping d <> None
  else queue (core d) = [] /\ sleeping d = None.

Section WithHost.
Context `{Host}.
Variable random : nat -> Q.
Variable cfg : Behavior.

Definition init (now : Z) : t :=
  {| core := SpeechManager.init random cfg now; processing := false; sleeping := None |}.

(** The loop of [processQueue] over the queue [items], at time [now], up
    to the first entry with a positive delay, which is shifted out and
    waited for; the entries before it are sent and recorded at once.  The
    result is the texts sent and the state the stretch ends in.  The
    readings of the clock within one stretch are taken as one. *)
Fixpoint drain (now : Z) (items : list Entry) (c : SpeechManager.t)
    : list string * t :=
  match items with
  | [] => ([], {| core := setQueue [] c; processing := false; sleeping := None |})
  | item :: rest =>
      if Qltb (0 # 1) (delayMs item)
      then ([], {| core := setQueue rest c; processing := true; sleeping := Some item |})
      else
        let c1 :=
          recordMessage random cfg now (text item) (player item) (reason item)
            (setQueue rest c) in
        let '(out, d) := drain now rest c1 in
        (text item :: out, d)
  end.

Definition processQueue (now : Z) (d : t) : list string * t :=
  if processing d then ([], d)
  else drain now (queue (core d)) (core d).

(** [enqueue(text, {reason, player})]: the result, the texts sent before
    it returns, and the state. *)
Definition enqueue (now : Z) (text reason : string) (player : option string)
    (isMoving taskBusy : bool) (d : t) : bool * list string * t :=
  let '(ok, c1) :=
    SpeechManager.enqueue random cfg now text reason player isMoving taskBusy (core d) in
  let d1 := {| core := c1; processing := processing d; sleeping := sleeping d |} in
  if negb ok then (false, [], d1)
  else let '(out, d2) := processQueue now d1 in (true, out, d2).

(** The sleep of the waiting entry ends at time [now]: the entry is sent
    and recorded, and the loop goes on. *)
Definition wake (now : Z) (d : t) : list string * t :=
  match sleeping d with
  | None => ([], d)
  | Some item =>
      let c1 :=
        recordMessage random cfg now (text item) (player item) (reason item) (core d) in
      let '(out, d1) := drain now (queue c1) c1 in
      (text item :: out, d1)
  end.

End WithHost.

End SpeechDrain.

(** ** MemoryStore (memory_store.js) *)

Module MemoryStore.

Record Topic : Type := {
  topic_text : string;
  topic_normalized : string;
  topic_timestamp : Z
}.

Record Interaction : Type := {
  interaction_timestamp : Z;
  interaction_type : string;
  interaction_content : string
}.

Record ChatLine : Type := {
  chat_timestamp : Z;
  chat_username : string;
  chat_message : string
}.

(** The part of a player's entry that the functions below read or write;
    [trust] is a number, as [getPlayer] and [adjustTrust] leave it. *)
Record PlayerMemory : Type := {
  facts : list string;
  interactions : list Interaction;
  trust : Q;
  muteUntil : option Z;              (* [None] is [null] *)
  topics : list Topic
}.

(** [data.players] and [data.world.chat]. *)
Record t : Type := {
  players : gmap string PlayerMemory;
  chat : list ChatLine
}.

Definition empty : t := {| players := ∅; chat := [] |}.

Definition freshPlayer : PlayerMemory :=
  {| facts := []; interactions := []; trust := 0 # 1; muteUntil := None; topics := [] |}.

Definition setPlayer (username : string) (p : PlayerMemory) (m : t) : t :=
  {| players := <[username := p]> (players m); chat := chat m |}.

Definition withFacts (f : list string) (p : PlayerMemory) : PlayerMemory :=
  {| facts := f; interactions := interactions p; trust := trust p;
     muteUntil := muteUntil p; topics := topics p |}.

Definition withInteractions (i : list Interaction) (p : PlayerMemory) : PlayerMemory :=
  {| facts := facts p; interactions := i; trust := trust p;
     muteUntil := muteUntil p; topics := topics p |}.

Definition withTrust (x : Q) (p : PlayerMemory) : PlayerMemory :=
  {| facts := facts p; interactions := interactions p; trust := x;
     muteUntil := muteUntil p; topics := topics p |}.

Definition withMuteUntil (u : option Z) (p : PlayerMemory) : PlayerMemory :=
  {| facts := facts p; interactions := interactions p; trust := trust p;
     muteUntil := u; topics := topics p |}.

Definition withTopics (ts : list Topic) (p : PlayerMemory) : PlayerMemory :=
  {| facts := facts p; interactions := interactions p; trust := trust p;
     muteUntil := muteUntil p; topics := ts |}.

(** The names that the plain object [data.players] inherits a member for
    (the property names of [Object.prototype]).  For such a name a lookup
    in the object finds the inherited member and not an entry; the store is
    modelled for the other names. *)
Definition prototypeKeys : list string :=
  ["constructor"; "__proto__"; "hasOwnProperty"; "isPrototypeOf";
   "propertyIsEnumerable"; "toString"; "toLocaleString"; "valueOf";
   "__defineGetter__"; "__defineSetter__"; "__lookupGetter__"; "__lookupSetter__"].

Definition ownName (username : string) : bool :=
  negb (existsb (String.eqb username) prototypeKeys).

(** [getPlayer], for a name that is not inherited: an unknown player gets
    a fresh entry, which is stored. *)
Definition getPlayer (username : string) (m : t) : PlayerMemory * t :=
  match players m !! username with
  | Some p => (p, m)
  | None => (freshPlayer, setPlayer username freshPlayer m)
  end.

Definition adjustTrust (username : string) (delta : setting Q) (m : t) : Q * t :=
  let '(p, m1) := getPlayer username m in
  let next := match delta with Num d => (trust p + d)%Q | _ => trust p end in
  let trust' := Qmax (-10 # 1) (Qmin (10 # 1) next) in
  (trust', setPlayer username (withTrust trust' p) m1).

Definition getTrust (username : string) (m : t) : Q * t :=
  let '(p, m1) := getPlayer username m in (trust p, m1).

(** [if (l.length > limit) l.splice(0, l.length - limit)] *)
Definition keepLast {A} (limit : Z) (l : list A) : list A :=
  if limit <? Z.of_nat (length l)
  then drop (Z.to_nat (Z.of_nat (length l) - limit)) l
  else l.

(** [l.slice(-limit)] *)
Definition sliceLast {A} (limit : Z) (l : list A) : list A :=
  if 0 <? limit then drop (Z.to_nat (Z.of_nat (length l) - limit)) l
  else drop (Z.to_nat (- limit)) l.

(** [l.indexOf(x)] *)
Fixpoint indexOf (x : string) (l : list string) : option nat :=
  match l with
  | [] => None
  | y :: rest => if String.eqb y x then Some 0%nat else S <$> indexOf x rest
  end.

Definition setMuted (now : Z) (username : string) (durationMs : Z) (m : t) : t :=
  let '(p, m1) := getPlayer username m in
  setPlayer username (withMuteUntil (Some (now + durationMs)) p) m1.

Definition isMuted (now : Z) (username : string) (m : t) : bool * t :=
  let '(p, m1) := getPlayer username m in
  match muteUntil p with
  | None => (false, m1)
  | Some until =>
      if until =? 0 then (false, m1)
      else if until <=? now
           then (false, setPlayer username (withMuteUntil None p) m1)
           else (true, m1)
  end.

Definition logGlobalChat (now : Z) (username content : string) (m : t) : t :=
  if String.eqb content "" then m
  else
    let line := {| chat_timestamp := now; chat_username := username;
                   chat_message := content |} in
    {| players := players m; chat := keepLast 80 (chat m ++ [line])%list |}.

(** [logInteraction]; the two readings of the clock are taken as one. *)
Definition logInteraction (now : Z) (username type content : string) (m : t) : t :=
  let '(p, m1) := getPlayer username m in
  let pushed :=
    (interactions p ++ [{| interaction_timestamp := now; interaction_type := type;
                           interaction_content := content |}])%list in
  let kept := if (50 <? length pushed)%nat then tail pushed else pushed in
  logGlobalChat now username content
    (setPlayer username (withInteractions kept p) m1).

Definition removeFact (username fact : string) (m : t) : bool * t :=
  let '(p, m1) := getPlayer username m in
  match indexOf fact (facts p) with
  | Some idx => (true, setPlayer username (withFacts (delete idx (facts p)) p) m1)
  | None => (false, m1)
  end.

Section WithHost.
Context `{Host} `{TextHost}.
Variable rest : BehaviorRest.

Definition normalizeFact (fact : string) : string :=
  collapseWhitespace (toLowerCase (trim fact)).

Definition addFact (username fact : string) (m : t) : bool * t :=
  let '(p, m1) := getPlayer username m in
  let clean := trim fact in
  if String.eqb clean "" then (false, m1)
  else
    let normalized := normalizeFact clean in
    let existingNormalized := normalizeFact <$> facts p in
    if existsb (String.eqb normalized) existingNormalized then (false, m1)
    else
      let maxFacts := orZ (maxFactsPerPlayer rest) 50 in
      (true,
       setPlayer username (withFacts (keepLast maxFacts (facts p ++ [clean])%list) p) m1).

(** The topics not older than the time to live. *)
Definition liveTopics (now : Z) (ts : list Topic) : list Topic :=
  let ttlMs := finiteOr (topicTtlMs rest) 1800000 in
  filter (fun item => now - topic_timestamp item <= ttlMs) ts.

Definition addTopic (now : Z) (username topic : string) (m : t) : bool * t :=
  let '(p, m1) := getPlayer username m in
  let clean := trim topic in
  if String.eqb clean "" then (false, m1)
  else
    let normalized := normalizeFact clean in
    if (codeUnits normalized <? 5)%nat then (false, m1)
    else
      let live := liveTopics now (topics p) in
      if existsb (fun item => String.eqb (topic_normalized item) normalized) live
      then (false, setPlayer username (withTopics live p) m1)
      else
        let pushed :=
          (live ++ [{| topic_text := clean; topic_normalized := normalized;
                       topic_timestamp := now |}])%list in
        let limit := finiteOr (maxTopicsPerPlayer rest) 10 in
        (true, setPlayer username (withTopics (keepLast limit pushed) p) m1).

Definition getTopics (now : Z) (username : string) (limit : Z) (m : t)
    : list string * t :=
  let '(p, m1) := getPlayer username m in
  let live := liveTopics now (topics p) in
  (topic_text <$> sliceLast limit live, setPlayer username (withTopics live p) m1).

(** The calls made on the store from outside. *)
Inductive MemOp : Type :=
| OpAdjustTrust (username : string) (delta : setting Q)
| OpGetTrust (username : string)
| OpAddFact (username fact : string)
| OpRemoveFact (username fact : string)
| OpAddTopic (now : Z) (username topic : string)
| OpGetTopics (now : Z) (username : string) (limit : Z)
| OpLogInteraction (now : Z) (username type content : string)
| OpLogGlobalChat (now : Z) (username content : string)
| OpSetMuted (now : Z) (username : string) (durationMs : Z)
| OpIsMuted (now : Z) (username : string).

Definition applyMemOp (m : t) (op : MemOp) : t :=
  match op with
  | OpAdjustTrust username delta => snd (adjustTrust username delta m)
  | OpGetTrust username => snd (getTrust username m)
  | OpAddFact username fact => snd (addFact username fact m)
  | OpRemoveFact username fact => snd (removeFact username fact m)
  | OpAddTopic now username topic => snd (addTopic now username topic m)
  | OpGetTopics now username limit => snd (getTopics now username limit m)
  | OpLogInteraction now username type content =>
      logInteraction now username type content m
  | OpLogGlobalChat now username content => logGlobalChat now username content m
  | OpSetMuted now username durationMs => setMuted now username durationMs m
  | OpIsMuted now username => snd (isMuted now username m)
  end.

Definition runMemory (ops : list MemOp) (m : t) : t := fold_left applyMemOp ops m.

(** The player a call is about. *)
Definition opName (op : MemOp) : string :=
  match op with
  | OpAdjustTrust username _ => username
  | OpGetTrust username => username
  | OpAddFact username _ => username
  | OpRemoveFact username _ => username
  | OpAddTopic _ username _ => username
  | OpGetTopics _ username _ => username
  | OpLogInteraction _ username _ _ => username
  | OpLogGlobalChat _ username _ => username
  | OpSetMuted _ username _ => username
  | OpIsMuted _ username => username
  end.

(** The bounds that every entry of the store keeps. *)
Definition playerOk (p : PlayerMemory) : Prop :=
  (-10 # 1 <= trust p)%Q /\ (trust p <= 10 # 1)%Q
  /\ Z.of_nat (length (facts p)) <= Z.max 0 (orZ (maxFactsPerPlayer rest) 50)
  /\ NoDup (normalizeFact <$> facts p)
  /\ Z.of_nat (length (topics p)) <= Z.max 0 (finiteOr (maxTopicsPerPlayer rest) 10)
  /\ NoDup (topic_normalized <$> topics p)
  /\ (length (interactions p) <= 50)%nat.

Definition storeOk (m : t) : Prop :=
  (forall username p, players m !! username = Some p -> playerOk p)
  /\ (length (chat m) <= 80)%nat.

End WithHost.

End MemoryStore.

(** ** The request cooldown of the chat handler (chat.js) *)

Module ChatHandler.

Record t : Type := {
  lastUserRequestAt : gmap string Z;
  lastGlobalRequestAt : Z
}.

Definition init : t := {| lastUserRequestAt := ∅; lastGlobalRequestAt := 0 |}.

Definition isOnCooldown (cfg : Behavior) (rest : BehaviorRest) (now : Z)
    (username : string) (h : t) : bool :=
  let cooldownMs := orZ (chatCooldown cfg) 0 in
  let globalCooldownMs := orZ (globalChatCooldown rest) 0 in
  if cooldownMs <=? 0 then false
  else if (0 <? globalCooldownMs) && (now - lastGlobalRequestAt h <? globalCooldownMs)
  then true
  else
    let lastUserAt := default 0 (lastUserRequestAt h !! username) in
    now - lastUserAt <? cooldownMs.

Definition markRequest (now : Z) (username : string) (h : t) : t :=
  {| lastUserRequestAt := <[username := now]> (lastUserRequestAt h);
     lastGlobalRequestAt := now |}.

(** Requests marked one after the other, each with its time and player. *)
Definition markRequests (marks : list (Z * string)) (h : t) : t :=
  fold_left (fun h0 mark => markRequest (fst mark) (snd mark) h0) marks h.

(** The gate of the chat listener for a message that neither addresses nor
    mentions the bot, outside manual mode: the result tells whether the
    message is handed to [processUserRequest]. *)
Definition passiveGate (cfg : Behavior) (rest : BehaviorRest) (now : Z)
    (username : string) (h : t) (m : MemoryStore.t) : bool * t * MemoryStore.t :=
  let '(mutedNow, m1) := MemoryStore.isMuted now username m in
  if mutedNow then (false, h, m1)
  else if isOnCooldown cfg rest now username h then (false, h, m1)
  else (true, markRequest now username h, m1).

(** What the listener does to the store on a request to be quiet. *)
Definition muteRequest (rest : BehaviorRest) (now : Z) (username : string)
    (m : MemoryStore.t) : MemoryStore.t :=
  let minutes := orZ (etiquetteMuteMinutes rest) 10 in
  MemoryStore.setMuted now username (minutes * 60000) m.

End ChatHandler.

(** ** Mood (planner.js and observer.js) *)

Module Mood.

Inductive t : Type := irritated | good | neutral.

(** [Planner.getMoodContext] *)
Definition getMoodContext (bot : SurvivalDirector.Bot) : t * Q * Q :=
  let health := finiteOr (SurvivalDirector.health bot) (20 # 1) in
  let food := finiteOr (SurvivalDirector.food bot) (20 # 1) in
  let mood := neutral in
  let mood :=
    if Qleb health (8 # 1) || Qleb food (8 # 1) then irritated
    else if Qleb (16 # 1) health && Qleb (16 # 1) food then good
    else mood in
  (mood, health, food).

(** [Observer.getMoodLabel] *)
Definition getMoodLabel (bot : SurvivalDirector.Bot) : t :=
  let health := finiteOr (SurvivalDirector.health bot) (20 # 1) in
  let food := finiteOr (SurvivalDirector.food bot) (20 # 1) in
  if Qleb health (8 # 1) || Qleb food (8 # 1) then irritated
  else if Qleb (16 # 1) health && Qleb (16 # 1) food then good
  else neutral.

End Mood.

(** ** A request of a player (Planner.processUserRequest) *)

Module Requests.

Import Step.



Section WithEnv.
Context `{Host}.
Variable random : nat -> Q.
Variable cfg : Behavior.
Variable env : Env.


End WithEnv.

End Requests.

(** ** More concrete inputs *)

Module AsciiText.

(** Every run of spaces becomes one space. *)
Fixpoint collapseSpaces (inRun : bool) (s : string) : string :=
  match s with
  | EmptyString => EmptyString
  | String c s' =>
      if Ascii.eqb c " " then
        if inRun then collapseSpaces true s' else String " " (collapseSpaces true s')
      else String c (collapseSpaces false s')
  end.

Definition host : TextHost := {|
  collapseWhitespace := collapseSpaces false;
  codeUnits := String.length
|}.

End AsciiText.

Module MoreExamples.

(** The base entries with a global request cooldown of three seconds. *)
Definition globalRest : BehaviorRest := {|
  speechPulseIntervalMs := speechPulseIntervalMs baseRest;
  globalChatCooldown := Num 3000;
  etiquetteMuteMinutes := etiquetteMuteMinutes baseRest;
  maxFactsPerPlayer := maxFactsPerPlayer baseRest;
  topicTtlMs := topicTtlMs baseRest;
  maxTopicsPerPlayer := maxTopicsPerPlayer baseRest
|}.

(** A decision that only asks to follow a player. *)
Definition followMe : Step.Decision :=
  {| Step.thought := None; Step.chat := None;
     Step.actions := [{| Step.action_name := "follow";
                         Step.action_args := [("player", JStr "alice")] |}] |}.

(** Collaborators among which the skill [dig] throws. *)
Definition flaky : Step.Env :=
  {| Step.fails := fun skill => String.eqb skill "dig"; Step.hasSkill := fun _ => true;
     Step.latency := fun _ => 50; Step.moving := fun _ => false;
     Step.busy := fun _ => false; Step.muted := fun _ _ => false;
     Step.isDay := fun _ => Some true; Step.username := "bot";
     Step.toNumber := AsciiHost.number;
     Step.bot := Examples.holding (20 # 1) []; Step.scanPlayers := [];
     Step.hasDrops := false |}.

Definition digThenJump : list Step.Action :=
  [{| Step.action_name := "dig"; Step.action_args := [] |};
   {| Step.action_name := "jump"; Step.action_args := [("count", JNum 2)] |}].

(** The world at time 100000 in which the director has stepped five
    seconds ago and the planner has not asked for long. *)
Definition resting : Step.World :=
  {| Step.planner := Planner.init Planner.autonomous;
     Step.speech := Some (Examples.spoken [] []);
     Step.director := {| SurvivalDirector.lastStepAt := 95000;
                         SurvivalDirector.lastActionAt := 95000 |};
     Step.clock := 100000; Step.trace := [] |}.

(** An ambient entry that waits a second before it is sent. *)
Definition waiting (t : string) : SpeechManager.Entry :=
  {| SpeechManager.text := t; SpeechManager.reason := "autonomous";
     SpeechManager.player := None; SpeechManager.delayMs := 1000 # 1 |}.

(** A throttle with one entry in flight and one waiting, and an idle
    one. *)
Definition inFlight : SpeechDrain.t :=
  {| SpeechDrain.core := SpeechManager.setQueue [waiting "third"] (Examples.spoken [] []);
     SpeechDrain.processing := true;
     SpeechDrain.sleeping := Some (waiting "first") |}.

Definition idle : SpeechDrain.t :=
  {| SpeechDrain.core := Examples.spoken [] []; SpeechDrain.processing := false;
     SpeechDrain.sleeping := None |}.

(** A player in sight at the given distance. *)
Definition seenAt (n : string) (d : Q) : Player :=
  {| name := n; hasEntity := true; distance := d |}.

(** A planner whose last scan saw dave nine blocks away and carol four. *)
Definition scanned : Planner.t :=
  Planner.updateLastScanPlayers [seenAt "dave" (9 # 1); seenAt "carol" (4 # 1)]
    (Planner.init Planner.autonomous).

(** A stack of bread as the inventory holds it: no food value on the
    item. *)
Definition bread : SurvivalDirector.Item := Examples.stack "bread" 12 3.



End MoreExamples.

(** * Properties *)

(** ** The progression chain *)

Module DirectorFacts.

Import SurvivalDirector Examples.

Ltac bools :=
  repeat match goal with
  | H : _ && _ = true |- _ => apply andb_true_iff in H; destruct H
  | H : _ && _ = false |- _ => apply andb_false_iff in H
  | H : _ || _ = true |- _ => apply orb_true_iff in H
  | H : _ || _ = false |- _ => apply orb_false_iff in H; destruct H
  | H : negb _ = true |- _ => apply negb_true_iff in H
  | H : negb _ = false |- _ => apply negb_false_iff in H
  | H : (_ <? _) = true |- _ => apply Z.ltb_lt in H
  | H : (_ <? _) = false |- _ => apply Z.ltb_ge in H
  | H : (_ <=? _) = true |- _ => apply Z.leb_le in H
  | H : (_ <=? _) = false |- _ => apply Z.leb_gt in H
  end.

Ltac bools_split :=
  bools;
  repeat match goal with
  | H : _ \/ _ |- _ => destruct H; bools
  end.

(** With the two cooldowns elapsed and no foreground task, the events of
    [step] are the branch taken by [choose]. *)
Lemma step_gates_open cfg fails lat now bot d :
  finiteOr (survivalStepCooldownMs cfg) 10000 <= now - lastStepAt d ->
  finiteOr (survivalActionCooldownMs cfg) 15000 <= now - lastActionAt d ->
  snd (fst (step cfg fails lat now false bot d))
  = match choose bot with Some e => [e] | None => [] end.
Proof.
  intros Hs Ha. unfold step, shouldStep, canAct.
  destruct (now - lastStepAt d <? _) eqn:E1; [apply Z.ltb_lt in E1; lia|].
  cbn [negb lastActionAt].
  destruct (_ <=? now - lastActionAt d) eqn:E2; [|apply Z.leb_gt in E2; lia].
  cbn [negb]. destruct (choose bot) as [e|]; [|reflexivity].
  destruct (throws fails e); reflexivity.
Qed.

(** The chain once the eating branch is out of the way, on the counts
    and flags it reads. *)
Lemma choose_no_eat bot :
  eatChoice bot = None ->
  choose bot =
  (if negb (hasItem bot "crafting_table")
      && ((0 <? woodCount bot) || (0 <? plankCount bot)) then
     Some (craft "crafting_table")
   else if woodCount bot + plankCount bot <? 12 then
     Some (StartTask (TGatherWood (JNum 24) JUndef))
   else if negb (hasItem bot "wooden_pickaxe") && (3 <=? plankCount bot) then
     Some (craft "wooden_pickaxe")
   else if hasItem bot "wooden_pickaxe" && negb (hasItem bot "stone_pickaxe")
           && (countItem bot "cobblestone" <? 3) then
     Some (StartTask (TMine (JStr "stone") (JNum 12)))
   else if hasItem bot "wooden_pickaxe" && negb (hasItem bot "stone_pickaxe")
           && (3 <=? countItem bot "cobblestone") then
     Some (craft "stone_pickaxe")
   else if hasItem bot "stone_pickaxe" && negb (hasItem bot "iron_pickaxe")
           && (countItem bot "raw_iron" + countItem bot "iron_ore"
               + countItem bot "iron_ingot" <? 6) then
     Some (StartTask (TMine (JStr "iron_ore") (JNum 6)))
   else if 0 <? countItem bot "raw_iron" then
     Some (Call "use_furnace"
             [("input_name", JStr "raw_iron");
              ("count", JNum (Z.min (countItem bot "raw_iron") 8))])
   else if negb (hasItem bot "iron_pickaxe") && (3 <=? countItem bot "iron_ingot") then
     Some (craft "iron_pickaxe")
   else if Qltb (finiteOr (food bot) (20 # 1)) (14 # 1)
           && (0 <? countBySuffix bot ["_seeds"]) then
     Some (StartTask (TFarm JUndef))
   else None).
Proof. intros E. unfold choose. rewrite E. reflexivity. Qed.

(** C1 (as amended).  With both cooldowns elapsed, no foreground task and
    the eating branch not firing, [step] takes the one action the chain
    fixes for the snapshot: no wood, no planks and no crafting table starts
    gather_wood(24); no wood, six planks and no table crafts the table;
    with the table held, three planks, at least nine wood and no wooden
    pickaxe it crafts the wooden pickaxe; with the table held, at least
    twelve wood-equivalents, the wooden pickaxe, no stone pickaxe and two
    cobblestone it starts mine(stone, 12).  Any other invocation on the
    same snapshot with its cooldowns elapsed takes the same action. *)
Theorem C1_progression_step cfg fails lat now bot d :
  finiteOr (survivalStepCooldownMs cfg) 10000 <= now - lastStepAt d ->
  finiteOr (survivalActionCooldownMs cfg) 15000 <= now - lastActionAt d ->
  eatChoice bot = None ->
  let acts := snd (fst (step cfg fails lat now false bot d)) in
  (woodCount bot = 0 -> plankCount bot = 0 -> hasItem bot "crafting_table" = false ->
   acts = [StartTask (TGatherWood (JNum 24) JUndef)])
  /\ (woodCount bot = 0 -> plankCount bot = 6 -> hasItem bot "crafting_table" = false ->
      acts = [craft "crafting_table"])
  /\ (hasItem bot "crafting_table" = true -> plankCount bot = 3 -> 9 <= woodCount bot ->
      hasItem bot "wooden_pickaxe" = false ->
      acts = [craft "wooden_pickaxe"])
  /\ (hasItem bot "crafting_table" = true -> 12 <= woodCount bot + plankCount bot ->
      hasItem bot "wooden_pickaxe" = true -> hasItem bot "stone_pickaxe" = false ->
      countItem bot "cobblestone" = 2 ->
      acts = [StartTask (TMine (JStr "stone") (JNum 12))])
  /\ (forall now' d',
        finiteOr (survivalStepCooldownMs cfg) 10000 <= now' - lastStepAt d' ->
        finiteOr (survivalActionCooldownMs cfg) 15000 <= now' - lastActionAt d' ->
        snd (fst (step cfg fails lat now' false bot d')) = acts).
Proof.
  intros Hs Ha He acts. subst acts.
  rewrite (step_gates_open _ _ _ _ _ _ Hs Ha), (choose_no_eat _ He).
  refine (conj _ (conj _ (conj _ (conj _ _)))).
  - intros Hw Hp Ht. rewrite Ht, Hw, Hp. reflexivity.
  - intros Hw Hp Ht. rewrite Ht, Hw, Hp. reflexivity.
  - intros Ht Hp Hw Hk. rewrite Ht, Hk, Hp. cbn [negb andb].
    destruct (woodCount bot + 3 <? 12) eqn:E; [apply Z.ltb_lt in E; lia|].
    reflexivity.
  - intros Ht Hw Hk Hst Hc. rewrite Ht, Hk, Hst, Hc. cbn [negb andb].
    destruct (_ <? 12) eqn:E; [apply Z.ltb_lt in E; lia|].
    reflexivity.
  - intros now' d' Hs' Ha'.
    rewrite (step_gates_open _ _ _ _ _ _ Hs' Ha'), (choose_no_eat _ He). reflexivity.
Qed.

Lemma C1_progression_step_witness :
  snd (fst (firstStep (holding (20 # 1) []))) = [StartTask (TGatherWood (JNum 24) JUndef)]
  /\ snd (fst (firstStep (holding (20 # 1) [stack "oak_planks" 2 6])))
     = [craft "crafting_table"]
  /\ snd (fst (firstStep (holding (20 # 1)
                 [stack "crafting_table" 1 1; stack "oak_planks" 2 3; stack "oak_log" 8 9])))
     = [craft "wooden_pickaxe"]
  /\ snd (fst (firstStep (holding (20 # 1)
                 [stack "crafting_table" 1 1; stack "oak_planks" 2 12;
                  stack "wooden_pickaxe" 3 1; stack "cobblestone" 7 2])))
     = [StartTask (TMine (JStr "stone") (JNum 12))].
Proof.
  assert (Hs : finiteOr (survivalStepCooldownMs baseBehavior) 10000 <= 20000 - lastStepAt init)
    by (vm_compute; discriminate).
  assert (Ha : finiteOr (survivalActionCooldownMs baseBehavior) 15000
               <= 20000 - lastActionAt init)
    by (vm_compute; discriminate).
  unfold firstStep. refine (conj _ (conj _ (conj _ _))).
  - destruct (C1_progression_step baseBehavior (fun _ => false) (fun _ => 0) 20000
                (holding (20 # 1) []) init Hs Ha eq_refl) as (A & _).
    apply A; reflexivity.
  - destruct (C1_progression_step baseBehavior (fun _ => false) (fun _ => 0) 20000
                (holding (20 # 1) [stack "oak_planks" 2 6]) init Hs Ha eq_refl)
      as (_ & A & _).
    apply A; reflexivity.
  - destruct (C1_progression_step baseBehavior (fun _ => false) (fun _ => 0) 20000
                (holding (20 # 1) [stack "crafting_table" 1 1; stack "oak_planks" 2 3;
                                   stack "oak_log" 8 9]) init Hs Ha eq_refl)
      as (_ & _ & A & _).
    apply A; first [reflexivity | vm_compute; discriminate].
  - destruct (C1_progression_step baseBehavior (fun _ => false) (fun _ => 0) 20000
                (holding (20 # 1) [stack "crafting_table" 1 1; stack "oak_planks" 2 12;
                                   stack "wooden_pickaxe" 3 1; stack "cobblestone" 7 2])
                init Hs Ha eq_refl) as (_ & _ & _ & A & _).
    apply A; first [reflexivity | vm_compute; discriminate].
Defined.

(** C1 as stated fails: with the table and three planks but no wood, and
    with the wooden pickaxe and two cobblestone but nothing else, the step
    gathers wood; with low health and bread in hand it eats. *)
Lemma C1_counterexample :
  let b3 := holding (20 # 1) [stack "crafting_table" 1 1; stack "oak_planks" 2 3] in
  let b4 := holding (20 # 1) [stack "wooden_pickaxe" 3 1; stack "cobblestone" 7 2] in
  let b1 := holding (6 # 1) [loaf] in
  (hasItem b3 "crafting_table" = true /\ plankCount b3 = 3
   /\ hasItem b3 "wooden_pickaxe" = false
   /\ snd (fst (firstStep b3)) = [StartTask (TGatherWood (JNum 24) JUndef)]
   /\ snd (fst (firstStep b3)) <> [craft "wooden_pickaxe"])
  /\ (hasItem b4 "wooden_pickaxe" = true /\ hasItem b4 "stone_pickaxe" = false
      /\ countItem b4 "cobblestone" = 2
      /\ snd (fst (firstStep b4)) = [StartTask (TGatherWood (JNum 24) JUndef)]
      /\ snd (fst (firstStep b4)) <> [StartTask (TMine (JStr "stone") (JNum 12))])
  /\ (woodCount b1 = 0 /\ plankCount b1 = 0 /\ hasItem b1 "crafting_table" = false
      /\ snd (fst (firstStep b1)) = [Call "eat" [("name", JStr "bread")]]
      /\ snd (fst (firstStep b1)) <> [StartTask (TGatherWood (JNum 24) JUndef)]).
Proof. vm_compute. repeat split; discriminate. Qed.

(** C8 (as amended).  With both cooldowns elapsed and no foreground task,
    [step] smelts the held raw iron (at most eight) exactly when no earlier
    branch fires and raw iron is held; the smelting branch does not test
    the pickaxes, so a snapshot that holds the iron pickaxe is smelted as
    well. *)
Theorem C8_smelting cfg fails lat now bot d :
  finiteOr (survivalStepCooldownMs cfg) 10000 <= now - lastStepAt d ->
  finiteOr (survivalActionCooldownMs cfg) 15000 <= now - lastActionAt d ->
  let acts := snd (fst (step cfg fails lat now false bot d)) in
  let smelt :=
    [Call "use_furnace"
       [("input_name", JStr "raw_iron");
        ("count", JNum (Z.min (countItem bot "raw_iron") 8))]] in
  (acts = smelt <->
   eatChoice bot = None
   /\ hasItem bot "crafting_table" = true
   /\ 12 <= woodCount bot + plankCount bot
   /\ (hasItem bot "wooden_pickaxe" = true \/ plankCount bot < 3)
   /\ (hasItem bot "wooden_pickaxe" = false \/ hasItem bot "stone_pickaxe" = true)
   /\ ~ (hasItem bot "stone_pickaxe" = true /\ hasItem bot "iron_pickaxe" = false
         /\ countItem bot "raw_iron" + countItem bot "iron_ore"
            + countItem bot "iron_ingot" < 6)
   /\ 0 < countItem bot "raw_iron")
  /\ (hasItem bot "iron_pickaxe" = true ->
      eatChoice bot = None ->
      hasItem bot "crafting_table" = true ->
      12 <= woodCount bot + plankCount bot ->
      hasItem bot "wooden_pickaxe" = true ->
      hasItem bot "stone_pickaxe" = true ->
      0 < countItem bot "raw_iron" ->
      acts = smelt).
Proof.
  intros Hs Ha acts smelt. subst acts smelt.
  rewrite (step_gates_open _ _ _ _ _ _ Hs Ha).
  assert (main :
    (match choose bot with Some e => [e] | None => [] end
     = [Call "use_furnace"
         [("input_name", JStr "raw_iron");
          ("count", JNum (Z.min (countItem bot "raw_iron") 8))]]) <->
    eatChoice bot = None
    /\ hasItem bot "crafting_table" = true
    /\ 12 <= woodCount bot + plankCount bot
    /\ (hasItem bot "wooden_pickaxe" = true \/ plankCount bot < 3)
    /\ (hasItem bot "wooden_pickaxe" = false \/ hasItem bot "stone_pickaxe" = true)
    /\ ~ (hasItem bot "stone_pickaxe" = true /\ hasItem bot "iron_pickaxe" = false
          /\ countItem bot "raw_iron" + countItem bot "iron_ore"
             + countItem bot "iron_ingot" < 6)
    /\ 0 < countItem bot "raw_iron").
  { destruct (eatChoice bot) as [it|] eqn:He.
    - unfold choose. rewrite He. split; [discriminate|intros [? _]; discriminate].
    - rewrite (choose_no_eat _ He). unfold craft. split.
      + intros Heq.
        repeat match type of Heq with
        | context [if ?c then _ else _] => destruct c eqn:?; try discriminate Heq
        end.
        bools_split; intuition (congruence || lia).
      + intros (_ & G1 & G2 & G3 & G4 & G5 & G6).
        repeat match goal with
        | |- context [if ?c then _ else _] =>
            destruct c eqn:?; [try (exfalso; bools_split; intuition (congruence || lia))|]
        end; try reflexivity; exfalso; bools_split; intuition (congruence || lia). }
  split; [exact main|].
  intros Hi He Ht Hw Hk Hst Hr. apply main.
  repeat split; auto. intros (_ & Hc & _). congruence.
Qed.

Lemma C8_smelting_witness :
  let b := holding (20 # 1)
             [stack "crafting_table" 1 1; stack "oak_planks" 2 12;
              stack "wooden_pickaxe" 3 1; stack "stone_pickaxe" 4 1;
              stack "iron_pickaxe" 5 1; stack "raw_iron" 6 2] in
  hasItem b "iron_pickaxe" = true
  /\ snd (fst (firstStep b))
     = [Call "use_furnace" [("input_name", JStr "raw_iron"); ("count", JNum 2)]].
Proof.
  intros b. split; [reflexivity|]. unfold firstStep.
  destruct (C8_smelting baseBehavior (fun _ => false) (fun _ => 0) 20000 b init) as (_ & A);
    [vm_compute; discriminate | vm_compute; discriminate |].
  apply A; first [reflexivity | vm_compute; reflexivity | vm_compute; discriminate].
Defined.

(** C8 as stated fails: the iron pickaxe is held and the step smelts. *)
Lemma C8_counterexample :
  let b := holding (20 # 1)
             [stack "crafting_table" 1 1; stack "oak_planks" 2 12;
              stack "wooden_pickaxe" 3 1; stack "stone_pickaxe" 4 1;
              stack "iron_pickaxe" 5 1; stack "raw_iron" 6 2] in
  hasItem b "iron_pickaxe" = true
  /\ ~ (hasItem b "stone_pickaxe" = true /\ hasItem b "iron_pickaxe" = false)
  /\ firstStep b
     = (Returned true,
        [Call "use_furnace" [("input_name", JStr "raw_iron"); ("count", JNum 2)]],
        {| lastStepAt := 20000; lastActionAt := 20000 |}).
Proof. vm_compute. repeat split. intros [_ E]. discriminate E. Qed.

End DirectorFacts.

(** ** The speech throttle *)

Module SpeechFacts.

Import SpeechManager Examples.

Section Throttle.
Context `{Host}.
Variable random : nat -> Q.
Variable cfg : Behavior.

Lemma clamp_bounds (v : Q) : energyOk_at (clamp v (0 # 1) (100 # 1)).
Proof.
  unfold energyOk_at, clamp. split.
  - apply Q.le_max_l.
  - apply Q.max_lub; [discriminate | apply Q.le_min_l].
Qed.

Lemma recoverEnergy_ok now isDay s :
  energyOk s -> energyOk (recoverEnergy cfg now isDay s).
Proof.
  intros Hs. unfold recoverEnergy.
  destruct (now - lastEnergyUpdateAt s <? 10000); [exact Hs|].
  unfold energyOk. cbn [socialEnergy].
  destruct isDay as [[|]|]; apply clamp_bounds.
Qed.

Lemma recordMessage_ok now text player reason s :
  energyOk s -> energyOk (recordMessage random cfg now text player reason s).
Proof.
  intros Hs. unfold recordMessage.
  destruct (isAutonomousReason reason); cbv zeta; unfold energyOk; cbn [socialEnergy];
    match goal with
    | |- context [match ?d with Num _ => _ | _ => _ end] => destruct d
    end;
    solve [exact Hs | apply clamp_bounds].
Qed.

Lemma isDuplicate_energy now text s :
  socialEnergy (snd (isDuplicate cfg now text s)) = socialEnergy s.
Proof.
  unfold isDuplicate. destruct (String.eqb _ ""); [reflexivity|].
  destruct (_ <=? 0); reflexivity.
Qed.

Lemma shouldAllow_energy now reason text player s :
  socialEnergy (snd (shouldAllow random cfg now reason text player s)) = socialEnergy s.
Proof.
  unfold shouldAllow. destruct (String.eqb text ""); [reflexivity|].
  destruct (negb (isDirectOrMention reason)) eqn:Ed.
  - pose proof (isDuplicate_energy now text s) as Hd.
    destruct (isDuplicate cfg now text s) as [dup s1]. cbn [snd] in Hd.
    destruct dup; [exact Hd|].
    unfold canBurst. cbv zeta.
    destruct (_ <? _); cbn [negb]; [|exact Hd].
    destruct (isDirectOrMention reason || isEventReason reason); [exact Hd|].
    destruct (isAutonomousReason reason); [exact Hd|].
    cbn [lastSpokeAt setTimestamps].
    destruct (_ && _); [exact Hd|].
    match goal with |- context [if ?b then (false, _) else _] => destruct b end;
      [exact Hd|].
    unfold drawRandom.
    match goal with
    | |- context [match ?c with Some _ => _ | None => _ end] => destruct c
    end; exact Hd.
  - cbn [negb]. destruct (isDirectOrMention reason || isEventReason reason); [reflexivity|].
    destruct (isAutonomousReason reason); [reflexivity|].
    destruct (_ && _); [reflexivity|].
    match goal with |- context [if ?b then (false, _) else _] => destruct b end;
      [reflexivity|].
    unfold drawRandom.
    match goal with
    | |- context [match ?c with Some _ => _ | None => _ end] => destruct c
    end; reflexivity.
Qed.

Lemma enqueue_energy now text reason player isMoving taskBusy s :
  socialEnergy (snd (enqueue random cfg now text reason player isMoving taskBusy s))
  = socialEnergy s.
Proof.
  unfold enqueue.
  match goal with
  | |- context [shouldAllow random cfg now ?r text ?p s] =>
      pose proof (shouldAllow_energy now r text p s) as Ha;
      destruct (shouldAllow random cfg now r text p s) as [ok s1]
  end.
  cbn [snd] in Ha. destruct ok; cbn [negb]; [|exact Ha].
  unfold getDelayMs, drawRandom. cbv zeta.
  repeat match goal with |- context [if ?b then _ else _] => destruct b end; exact Ha.
Qed.

Lemma applyOp_ok s op : energyOk s -> energyOk (Runs.applyOp random cfg s op).
Proof.
  intros Hs.
  destruct op as [now isDay players|now text reason player mv tb|now
                 |now text player reason];
    cbn [Runs.applyOp].
  - unfold updateContext. apply recoverEnergy_ok. exact Hs.
  - unfold energyOk. rewrite enqueue_energy. exact Hs.
  - unfold emitNext. destruct (queue s) as [|item rest]; [exact Hs|].
    cbn [snd]. apply recordMessage_ok. exact Hs.
  - apply recordMessage_ok. exact Hs.
Qed.

Lemma runSpeech_ok ops :
  forall s, energyOk s -> energyOk (Runs.runSpeech random cfg ops s).
Proof.
  induction ops as [|op ops IH]; intros s Hs; [exact Hs|].
  unfold Runs.runSpeech. cbn [fold_left]. apply IH, applyOp_ok, Hs.
Qed.

(** C5.  From the state the constructor builds, after any sequence of
    context refreshes (energy recovery), enqueue attempts, emissions
    from the queue and recorded messages, at any times, by day or
    night, for any configured amounts and any reasons, the social
    energy is at least 0 and at most 100. *)
Theorem C5_energy_bounds (now0 : Z) (ops : list Runs.SpeechOp) :
  (0 # 1 <= socialEnergy (Runs.runSpeech random cfg ops (init random cfg now0)))%Q
  /\ (socialEnergy (Runs.runSpeech random cfg ops (init random cfg now0)) <= 100 # 1)%Q.
Proof. apply runSpeech_ok. split; discriminate. Qed.

Lemma isDuplicate_hit now text s item :
  0 < orZ (autoChatHistoryMs cfg) 0 ->
  item ∈ messageHistory s ->
  now - timestamp item <= orZ (autoChatHistoryMs cfg) 0 ->
  normalized item = normalizeText text ->
  fst (isDuplicate cfg now text s) = true.
Proof.
  intros Hpos Hin Hage Hnorm. unfold isDuplicate.
  destruct (String.eqb (normalizeText text) ""); [reflexivity|].
  destruct (_ <=? 0) eqn:E; [apply Z.leb_le in E; lia|].
  cbn [fst]. apply existsb_exists. exists item. split.
  - apply list_elem_of_In, list_elem_of_filter. split; assumption.
  - rewrite Hnorm. apply String.eqb_refl.
Qed.

(** A direct or mention utterance with some text is admitted at once:
    neither the duplicate history nor the burst window is consulted. *)
Lemma shouldAllow_priority now reason text player s :
  isDirectOrMention reason = true -> text <> "" ->
  shouldAllow random cfg now reason text player s = (true, s).
Proof.
  intros Hd Ht. unfold shouldAllow.
  destruct (String.eqb_spec text ""); [contradiction|].
  rewrite Hd. reflexivity.
Qed.

(** C6.  With a duplicate-history window configured, a candidate whose
    normalized text equals that of an entry of the history no older
    than the window is rejected for every reason other than direct and
    mention; for direct and mention the check is skipped: the candidate
    is admitted and the history is not even pruned. *)
Theorem C6_duplicate_rejected now reason text player s :
  (forall item,
     0 < orZ (autoChatHistoryMs cfg) 0 ->
     item ∈ messageHistory s ->
     now - timestamp item <= orZ (autoChatHistoryMs cfg) 0 ->
     normalized item = normalizeText text ->
     isDirectOrMention reason = false ->
     fst (shouldAllow random cfg now reason text player s) = false)
  /\ (isDirectOrMention reason = true -> text <> "" ->
      shouldAllow random cfg now reason text player s = (true, s)).
Proof.
  split; [|apply shouldAllow_priority].
  intros item Hpos Hin Hage Hnorm Hd. unfold shouldAllow.
  destruct (String.eqb text ""); [reflexivity|].
  rewrite Hd. cbn [negb].
  pose proof (isDuplicate_hit now text s item Hpos Hin Hage Hnorm) as Hdup.
  destruct (isDuplicate cfg now text s) as [dup s1]. cbn [fst] in Hdup.
  rewrite Hdup. reflexivity.
Qed.

(** C2 (as amended).  Once the emissions inside the burst window number
    at least the ambient maximum, [shouldAllow] rejects every candidate
    whose reason is not direct or mention.  [canBurst] keeps a separate
    maximum for the reason direct, but [shouldAllow] does not consult it:
    a direct or mention candidate with some text is admitted whatever
    the window holds. *)
Theorem C2_burst_limit now reason text player s :
  (isDirectOrMention reason = false ->
   orZ (speechBurstMax cfg) 3 <= Z.of_nat (length (inBurstWindow cfg now s)) ->
   fst (shouldAllow random cfg now reason text player s) = false)
  /\ (isDirectOrMention reason = true -> text <> "" ->
      shouldAllow random cfg now reason text player s = (true, s))
  /\ fst (canBurst cfg now "direct" s)
     = (Z.of_nat (length (inBurstWindow cfg now s)) <? orZ (speechDirectBurstMax cfg) 6).
Proof.
  split; [|split; [apply shouldAllow_priority | reflexivity]].
  intros Hd Hfull. unfold shouldAllow.
  destruct (String.eqb text ""); [reflexivity|].
  rewrite Hd. cbn [negb].
  assert (Hstamps : messageTimestamps (snd (isDuplicate cfg now text s))
                    = messageTimestamps s).
  { unfold isDuplicate. destruct (String.eqb _ ""); [reflexivity|].
    destruct (_ <=? 0); reflexivity. }
  destruct (isDuplicate cfg now text s) as [dup s1]. cbn [snd] in Hstamps.
  destruct dup; [reflexivity|].
  unfold canBurst. rewrite Hstamps.
  assert (Hr : String.eqb reason "direct" = false).
  { unfold isDirectOrMention in Hd. apply orb_false_iff in Hd. apply Hd. }
  rewrite Hr. fold (inBurstWindow cfg now s).
  destruct (_ <? _) eqn:E; [apply Z.ltb_lt in E; lia|]. reflexivity.
Qed.

End Throttle.

Lemma C6_duplicate_rejected_witness :
  let s := spoken [1000] [{| normalized := "hello there"; timestamp := 1000 |}] in
  fst (shouldAllow (H := AsciiHost.host) quiet baseBehavior 2000 "event"
         "Hello, there!" None s) = false
  /\ shouldAllow (H := AsciiHost.host) quiet baseBehavior 2000 "direct"
       "Hello, there!" None s = (true, s).
Proof.
  intros s. split.
  - apply (proj1 (C6_duplicate_rejected (H := AsciiHost.host) quiet baseBehavior 2000
                    "event" "Hello, there!" None s)
             {| normalized := "hello there"; timestamp := 1000 |});
      first [ reflexivity | vm_compute; reflexivity | vm_compute; discriminate
            | apply list_elem_of_here ].
  - apply (proj2 (C6_duplicate_rejected (H := AsciiHost.host) quiet baseBehavior 2000
                    "direct" "Hello, there!" None s)); [reflexivity | discriminate].
Defined.

Lemma C2_burst_limit_witness :
  let s := spoken [1000; 2000; 3000] [] in
  fst (shouldAllow (H := AsciiHost.host) quiet baseBehavior 4000 "event"
         "creeper behind you" None s) = false
  /\ shouldAllow (H := AsciiHost.host) quiet baseBehavior 4000 "mention" "yes?" None s
     = (true, s).
Proof.
  intros s. split.
  - apply (proj1 (C2_burst_limit (H := AsciiHost.host) quiet baseBehavior 4000 "event"
                    "creeper behind you" None s));
      first [ reflexivity | vm_compute; discriminate ].
  - apply (proj1 (proj2 (C2_burst_limit (H := AsciiHost.host) quiet baseBehavior 4000
                           "mention" "yes?" None s))); [reflexivity | discriminate].
Defined.

(** C2 as stated fails: eight emissions are inside the window, more than
    the direct maximum of six, and a direct and a mention candidate are
    admitted all the same. *)
Lemma C2_counterexample :
  let s := spoken [1000; 1001; 1002; 1003; 1004; 1005; 1006; 1007] [] in
  orZ (speechDirectBurstMax baseBehavior) 6
  <= Z.of_nat (length (inBurstWindow baseBehavior 2000 s))
  /\ fst (canBurst baseBehavior 2000 "direct" s) = false
  /\ fst (shouldAllow (H := AsciiHost.host) quiet baseBehavior 2000 "direct" "hi" None s)
     = true
  /\ fst (shouldAllow (H := AsciiHost.host) quiet baseBehavior 2000 "mention" "hi" None s)
     = true.
Proof. vm_compute. repeat split. discriminate. Qed.

End SpeechFacts.

(** ** Follow admission *)

Module PlannerFacts.

Import Planner Examples.

Lemma jsval_eqb_eq a b : jsval_eqb a b = true <-> a = b.
Proof.
  destruct a, b; cbn [jsval_eqb]; split; intros E; try discriminate; try reflexivity.
  - apply String.eqb_eq in E. congruence.
  - injection E as ->. apply String.eqb_refl.
  - apply Z.eqb_eq in E. congruence.
  - injection E as ->. apply Z.eqb_refl.
Qed.

Lemma jsval_eqb_neq a b : a <> b -> jsval_eqb a b = false.
Proof.
  intros N. destruct (jsval_eqb a b) eqn:E; [|reflexivity].
  apply jsval_eqb_eq in E. contradiction.
Qed.

Section Follow.
Variable cfg : Behavior.

Lemma markFollow_state now0 T p0 :
  truthy T = true ->
  followState (markFollow cfg now0 T p0)
  = {| target := T; since := now0;
       stickUntil := now0 + finiteOr (followStickMs cfg) 60000; lastAny := now0 |}.
Proof. intros Ht. unfold markFollow. rewrite Ht. reflexivity. Qed.

(** C3 (as amended).  After [markFollow] has made [T] the follow target
    at time [now0], a request for another target is refused as long as
    [T] is visible and the stick window is open; a request for [T]
    itself is admitted exactly when the global follow cooldown, counted
    from [now0], does not block it. *)
Theorem C3_follow_stickiness now0 now isMoving T other p0 p :
  truthy T = true ->
  followState p = followState (markFollow cfg now0 T p0) ->
  (truthy other = true -> other <> T ->
   isTargetVisible T p = true ->
   now < now0 + finiteOr (followStickMs cfg) 60000 ->
   canFollowTarget cfg now isMoving other p = false)
  /\ canFollowTarget cfg now isMoving T p
     = negb ((0 <? finiteOr (followGlobalCooldownMs cfg) 30000)
             && (now - now0 <? finiteOr (followGlobalCooldownMs cfg) 30000)).
Proof.
  intros Ht Hf. rewrite (markFollow_state _ _ _ Ht) in Hf.
  unfold canFollowTarget. rewrite Hf. cbn [target stickUntil lastAny].
  split.
  - intros Ho Hne Hvis Hstick.
    destruct (_ && (now - now0 <? _)); [reflexivity|].
    rewrite Ht, Ho, Hvis, (jsval_eqb_neq T other) by congruence.
    destruct (Z.ltb_spec now (now0 + finiteOr (followStickMs cfg) 60000));
      [reflexivity|lia].
  - destruct (_ && (now - now0 <? _)); [reflexivity|].
    rewrite (proj2 (jsval_eqb_eq T T) eq_refl), Ht. cbn [negb andb].
    rewrite !andb_false_r. reflexivity.
Qed.

End Follow.

Lemma C3_follow_stickiness_witness :
  let p := updateLastScanPlayers [near "alice"; near "bob"]
             (markFollow baseBehavior 100000 (JStr "alice") (init manual)) in
  canFollowTarget baseBehavior 140000 false (JStr "bob") p = false
  /\ canFollowTarget baseBehavior 140000 false (JStr "alice") p = true.
Proof.
  intros p.
  destruct (C3_follow_stickiness baseBehavior 100000 140000 false
              (JStr "alice") (JStr "bob") (init manual) p eq_refl eq_refl) as [A B].
  split.
  - apply A; first [reflexivity | discriminate].
  - rewrite B. reflexivity.
Defined.

(** C3 as stated fails: one millisecond after the admission the same
    target is refused, by the global follow cooldown. *)
Lemma C3_counterexample :
  let p := markFollow baseBehavior 100000 (JStr "alice") (init manual) in
  target (followState p) = JStr "alice"
  /\ canFollowTarget baseBehavior 100001 false (JStr "alice") p = false.
Proof. vm_compute. split; reflexivity. Qed.

End PlannerFacts.

(** ** The social rotation *)

Module RotationFacts.

Import Planner Runs Examples.

Lemma sortInsert_perm {A} (cmp : A -> A -> Q) x l : sortInsert cmp x l ≡ₚ x :: l.
Proof.
  induction l as [|y l IH]; cbn [sortInsert]; [reflexivity|].
  destruct (Qltb 0 (cmp x y)); [|reflexivity].
  rewrite IH. apply Permutation_swap.
Qed.

Lemma jsSort_perm {A} (cmp : A -> A -> Q) l : jsSort cmp l ≡ₚ l.
Proof.
  induction l as [|x l IH]; [reflexivity|].
  unfold jsSort in *. cbn [foldr]. rewrite sortInsert_perm, IH. reflexivity.
Qed.

Lemma mod_rotate (c i n : nat) :
  (i < n)%nat ->
  ((c + i) mod n
   = if (c mod n + i <? n)%nat then c mod n + i else c mod n + i - n)%nat.
Proof.
  intros Hi. assert (Hn : n <> 0%nat) by lia.
  pose proof (Nat.mod_upper_bound c n Hn) as Hk.
  rewrite <- Nat.Div0.add_mod_idemp_l.
  destruct (Nat.ltb_spec (c mod n + i) n) as [Hlt|Hge].
  - apply Nat.mod_small. exact Hlt.
  - assert (E : (c mod n + i = (c mod n + i - n) + 1 * n)%nat) by lia.
    rewrite E at 1. rewrite Nat.Div0.mod_add. apply Nat.mod_small. lia.
Qed.

(** Reading a list round the clock from position [c] gives its rotation. *)
Lemma rotation_lookup {A} (l targets : list A) (c : nat) :
  length targets = length l ->
  (forall i, (i < length l)%nat -> targets !! i = l !! ((c + i) mod length l)%nat) ->
  targets = (drop (c mod length l) l ++ take (c mod length l) l)%list.
Proof.
  intros Hlen Hget. apply list_eq. intros i.
  set (n := length l) in *. set (k := (c mod n)%nat).
  destruct (Nat.lt_ge_cases i n) as [Hi|Hi].
  - assert (Hk : (k < n)%nat) by (apply Nat.mod_upper_bound; lia).
    rewrite (Hget i Hi), (mod_rotate c i n Hi). fold k.
    destruct (Nat.ltb_spec (k + i) n) as [Hlt|Hge].
    + rewrite lookup_app_l by (rewrite length_drop; fold n; lia).
      rewrite lookup_drop. reflexivity.
    + rewrite lookup_app_r by (rewrite length_drop; fold n; lia).
      rewrite length_drop. fold n.
      rewrite lookup_take_lt by lia. f_equal. lia.
  - rewrite (proj2 (lookup_ge_None targets i)) by lia.
    symmetry. apply lookup_ge_None.
    rewrite length_app, length_drop, length_take. fold n. lia.
Qed.

Section Rotation.
Context `{Host}.
Variable cfg : Behavior.
Variable username : string.

Lemma markPlayerSpoke_index now n p :
  socialIndex (markPlayerSpoke now n p) = socialIndex p.
Proof. unfold markPlayerSpoke. destruct (String.eqb n ""); reflexivity. Qed.

Lemma socialTurn_inv turn p tgt p1 E :
  socialTurn cfg username turn p = Some (tgt, p1) ->
  eligiblePlayers cfg (turn_now turn) (turn_muted turn) username (turn_players turn) p
  = E ->
  jsSort (fun a b => inject_Z (localeCompare (name a) (name b))) E
    !! (socialIndex p mod length E)%nat = Some tgt
  /\ socialIndex p1 = S (socialIndex p).
Proof.
  unfold socialTurn, getSocialTarget. intros Hturn HE. rewrite HE in Hturn.
  destruct (_ <=? 0); [discriminate|].
  destruct (_ <? _); [discriminate|].
  destruct (length E =? 0)%nat; [discriminate|].
  rewrite (Permutation_length (jsSort_perm _ E)) in Hturn.
  destruct (_ !! _) as [t|] eqn:Hl; [|discriminate].
  injection Hturn as -> <-. split; [reflexivity|].
  rewrite markPlayerSpoke_index. cbn [markSocialSpoke socialIndex]. lia.
Qed.

Lemma rotations_lookup E : forall turns p targets p',
  rotations cfg username turns p = Some (targets, p') ->
  eligibleFixed cfg username E turns p ->
  length targets = length turns
  /\ socialIndex p' = (socialIndex p + length turns)%nat
  /\ forall i, (i < length turns)%nat ->
       targets !! i
       = jsSort (fun a b => inject_Z (localeCompare (name a) (name b))) E
           !! ((socialIndex p + i) mod length E)%nat.
Proof.
  induction turns as [|turn rest IH]; intros p targets p' Hrun Hfix.
  - injection Hrun as <- <-. cbn [length]. repeat split; [lia|]. intros i Hi. lia.
  - cbn [rotations] in Hrun. cbn [eligibleFixed] in Hfix. destruct Hfix as [HE Hrest].
    destruct (socialTurn cfg username turn p) as [[tgt p1]|] eqn:Hturn; [|discriminate].
    destruct (rotations cfg username rest p1) as [[tgts p2]|] eqn:Hr; [|discriminate].
    injection Hrun as <- <-.
    destruct (socialTurn_inv _ _ _ _ _ Hturn HE) as [Hsel Hidx].
    destruct (IH _ _ _ Hr Hrest) as (Hlen & Hfin & Hget).
    cbn [length]. repeat split; [lia | lia |].
    intros [|i] Hi.
    + rewrite Nat.add_0_r. cbn [lookup list_lookup]. symmetry. exact Hsel.
    + cbn [lookup list_lookup]. fold (@lookup nat Player _ _ i tgts).
      rewrite Hget by lia. rewrite Hidx. f_equal. f_equal. lia.
Qed.

(** C4.  Over as many consecutive successful social turns as there are
    eligible players, the eligible list being the same at every turn,
    the targets addressed are the eligible players sorted by name, read
    from the cursor onwards and wrapping round: each player once, none
    twice; the cursor has advanced by one per turn. *)
Theorem C4_round_robin E turns p targets p' :
  length turns = length E ->
  eligibleFixed cfg username E turns p ->
  rotations cfg username turns p = Some (targets, p') ->
  let ordered := jsSort (fun a b => inject_Z (localeCompare (name a) (name b))) E in
  let k := (socialIndex p mod length E)%nat in
  targets = (drop k ordered ++ take k ordered)%list
  /\ targets ≡ₚ E
  /\ socialIndex p' = (socialIndex p + length E)%nat.
Proof.
  intros Hn Hfix Hrun ordered k.
  destruct (rotations_lookup E turns p targets p' Hrun Hfix) as (Hlen & Hfin & Hget).
  assert (Hord : length ordered = length E) by apply Permutation_length, jsSort_perm.
  assert (Hrot : targets = (drop k ordered ++ take k ordered)%list).
  { subst k. rewrite <- Hord. apply rotation_lookup.
    - congruence.
    - intros i Hi. rewrite Hord. apply Hget. lia. }
  split; [exact Hrot|]. split; [|congruence].
  rewrite Hrot, Permutation_app_comm, take_drop. apply jsSort_perm.
Qed.

End Rotation.

Lemma C4_round_robin_witness :
  rotations (H := AsciiHost.host) baseBehavior "bot"
    [round 600000; round 1200000; round 1800000] (init autonomous)
  = Some ([near "alice"; near "bob"; near "carol"],
          markPlayerSpoke 1803000 "carol"
            (markSocialSpoke 1803000
               (markPlayerSpoke 1203000 "bob"
                  (markSocialSpoke 1203000
                     (markPlayerSpoke 603000 "alice"
                        (markSocialSpoke 603000 (init autonomous)))))))
  /\ [near "alice"; near "bob"; near "carol"] ≡ₚ [near "carol"; near "alice"; near "bob"].
Proof.
  assert (Hrun : rotations (H := AsciiHost.host) baseBehavior "bot"
    [round 600000; round 1200000; round 1800000] (init autonomous)
  = Some ([near "alice"; near "bob"; near "carol"],
          markPlayerSpoke 1803000 "carol"
            (markSocialSpoke 1803000
               (markPlayerSpoke 1203000 "bob"
                  (markSocialSpoke 1203000
                     (markPlayerSpoke 603000 "alice"
                        (markSocialSpoke 603000 (init autonomous))))))))
    by (vm_compute; reflexivity).
  assert (Hfix : eligibleFixed (H := AsciiHost.host) baseBehavior "bot"
                   [near "carol"; near "alice"; near "bob"]
                   [round 600000; round 1200000; round 1800000] (init autonomous))
    by (vm_compute; repeat split).
  split; [exact Hrun|].
  exact (proj1 (proj2 (C4_round_robin (H := AsciiHost.host) baseBehavior "bot"
                         [near "carol"; near "alice"; near "bob"]
                         [round 600000; round 1200000; round 1800000] (init autonomous)
                         _ _ eq_refl Hfix Hrun))).
Defined.

End RotationFacts.

(** ** The autonomous step *)

Module StepFacts.

Import Step Examples.

Lemma bind_keeps {A B} (m : M A) (k : A -> M B) :
  keepsSocial m -> (forall a, keepsSocial (k a)) -> keepsSocial (bind m k).
Proof.
  intros Hm Hk w. unfold bind. specialize (Hm w).
  destruct (m w) as [[a|] w1]; cbn [snd] in *; [|exact Hm].
  rewrite (Hk a w1). exact Hm.
Qed.

Lemma bind_returned {A B} (m : M A) (k : A -> M B) w a w' :
  m w = (Returned a, w') -> bind m k w = k a w'.
Proof. intros E. unfold bind. rewrite E. reflexivity. Qed.

Lemma ret_keeps {A} (a : A) : keepsSocial (ret a).
Proof. intros w. reflexivity. Qed.

Lemma getWorld_keeps : keepsSocial getWorld.
Proof. intros w. reflexivity. Qed.

Lemma getWorld_bind_keeps {B} (k : World -> M B) :
  (forall w, socialFields (planner (snd (k w w))) = socialFields (planner w)) ->
  keepsSocial (bind getWorld k).
Proof. intros Hk w. apply Hk. Qed.

Lemma emit_keeps e : keepsSocial (emit e).
Proof. intros w. reflexivity. Qed.

Lemma setSpeech_keeps s : keepsSocial (setSpeech s).
Proof. intros w. reflexivity. Qed.

Section WithEnv.
Context `{Host}.
Variable random : nat -> Q.
Variable cfg : Behavior.
Variable env : Env.

Lemma await_keeps e : keepsSocial (await env e).
Proof.
  intros w. unfold await. destruct e as [skill args| | |]; try reflexivity.
  destruct (fails env skill); reflexivity.
Qed.

Lemma say_keeps text reason player : keepsSocial (say random cfg env text reason player).
Proof.
  intros w. unfold say, bind, getWorld.
  destruct (speech w) as [s|]; [|reflexivity].
  destruct (SpeechManager.enqueue _ _ _ _ _ _ _ _ s); reflexivity.
Qed.

Lemma markFollow_keeps now n p :
  socialFields (Planner.markFollow cfg now n p) = socialFields p.
Proof. unfold Planner.markFollow. destruct (truthy n); reflexivity. Qed.

Lemma dispatch_keeps options action : keepsSocial (dispatch random cfg env options action).
Proof.
  unfold dispatch.
  repeat match goal with
  | |- keepsSocial (if ?b then _ else _) => destruct b
  | |- keepsSocial (ret _) => apply ret_keeps
  | |- keepsSocial (emit _) => apply emit_keeps
  end.
  - apply bind_keeps; [apply getWorld_keeps|]. intros w.
    repeat match goal with
    | |- keepsSocial (if ?b then _ else _) => destruct b
    | |- keepsSocial (ret _) => apply ret_keeps
    end.
    apply bind_keeps; [apply await_keeps|]. intros _.
    apply getWorld_bind_keeps. intros w'. cbn [setPlanner snd planner].
    apply markFollow_keeps.
  - intros w. unfold await.
    destruct (fails env (action_name action)); [|reflexivity].
    match goal with |- context [bind ?m ?k ?w'] =>
      exact (bind_keeps m k (say_keeps _ _ _) (fun _ => ret_keeps tt) w')
    end.
Qed.

Lemma dispatchAll_keeps options acts : keepsSocial (dispatchAll random cfg env options acts).
Proof.
  induction acts as [|a rest IH]; cbn [dispatchAll]; [apply ret_keeps|].
  apply bind_keeps; [apply dispatch_keeps | intros _; exact IH].
Qed.

Lemma pickupDrops_keeps isMoving : keepsSocial (pickupDrops cfg env isMoving).
Proof.
  unfold pickupDrops. apply bind_keeps; [apply getWorld_keeps|]. intros w.
  destruct (_ && _); [apply await_keeps | apply ret_keeps].
Qed.

(** The text [onDecision] hands to the throttle for target [tgt]. *)
Lemma addressed_nonempty (n c : string) : c <> "" -> n ++ ", " ++ c <> "".
Proof. intros _. destruct n; discriminate. Qed.

(** [executeDecision] on a decision with chat text, a throttle attached. *)
Lemma executeDecision_chat d reason player text w s :
  chat d = Some text -> speech w = Some s -> reason <> "" ->
  executeDecision random cfg env d {| opt_reason := reason; opt_player := player |} w
  = let r := SpeechManager.enqueue random cfg (clock w) text reason player
               (moving env (clock w)) (busy env (clock w)) s in
    match dispatchAll random cfg env {| opt_reason := reason; opt_player := player |}
            (actions d) (withSpeech (Some (snd r)) w) with
    | (Returned _, w2) => (Returned (if fst r then Some text else None), w2)
    | (Threw, w2) => (Threw, w2)
    end.
Proof.
  intros Hc Hs Hr. unfold executeDecision. rewrite Hc. cbn [opt_reason opt_player].
  destruct (String.eqb_spec reason ""); [contradiction|].
  unfold say, bind, getWorld, setSpeech, ret. rewrite Hs.
  destruct (SpeechManager.enqueue random cfg (clock w) text reason player
              (moving env (clock w)) (busy env (clock w)) s) as [sent s'].
  cbn [fst snd]. fold (withSpeech (Some s') w).
  destruct (dispatchAll _ _ _ _ _ (withSpeech (Some s') w)) as [[[]|] w2]; reflexivity.
Qed.

(** [onDecision] with a social target and a chat text, a throttle
    attached: the utterance is offered, the actions are dispatched,
    and the turn is marked if the utterance was accepted. *)
Lemma onDecision_social tgt isMoving decision c w s :
  speech w = Some s ->
  chat decision = Some c ->
  c <> "" ->
  let text :=
    if negb (includes (toLowerCase c) (toLowerCase (name tgt)))
    then name tgt ++ ", " ++ c else c in
  let e := SpeechManager.enqueue random cfg (clock w) text "autonomous" (Some (name tgt))
             (moving env (clock w)) (busy env (clock w)) s in
  onDecision random cfg env (Some tgt) false isMoving decision w
  = match dispatchAll random cfg env
            {| opt_reason := "autonomous"; opt_player := Some (name tgt) |}
            (actions decision) (withSpeech (Some (snd e)) w) with
    | (Returned _, w2) =>
        if fst e
        then pickupDrops cfg env isMoving
               (withPlanner
                  (Planner.markPlayerSpoke (clock w2) (name tgt)
                     (Planner.markSocialSpoke (clock w2) (planner w2))) w2)
        else pickupDrops cfg env isMoving w2
    | (Threw, w2) => (Threw, w2)
    end.
Proof.
  intros Hs Hc Hne text e.
  assert (Htext : text <> "").
  { subst text. destruct (negb _); [apply addressed_nonempty|]; exact Hne. }
  set (d2 := if negb (includes (toLowerCase c) (toLowerCase (name tgt)))
             then {| thought := thought decision; chat := Some (name tgt ++ ", " ++ c);
                     actions := actions decision |}
             else decision).
  assert (Hc2 : chat d2 = Some text).
  { subst d2 text. destruct (negb _); [reflexivity|exact Hc]. }
  assert (Ha2 : actions d2 = actions decision).
  { subst d2. destruct (negb _); reflexivity. }
  transitivity (
    bind (executeDecision random cfg env d2
            {| opt_reason := "autonomous"; opt_player := Some (name tgt) |})
      (fun chatText =>
         bind getWorld (fun w3 =>
           bind (match chatText with
                 | Some sentText =>
                     if true && negb (String.eqb sentText "") then
                       setPlanner (Planner.markPlayerSpoke (clock w3) (name tgt)
                                     (Planner.markSocialSpoke (clock w3) (planner w3)))
                     else ret tt
                 | None => ret tt
                 end)
                (fun _ => pickupDrops cfg env isMoving))) w).
  { subst d2. unfold onDecision. rewrite Hc.
    destruct (String.eqb_spec c ""); [contradiction|]. reflexivity. }
  unfold bind at 1.
  rewrite (executeDecision_chat d2 "autonomous" (Some (name tgt)) text w s Hc2 Hs)
    by discriminate.
  cbv zeta. fold e. rewrite Ha2.
  destruct (dispatchAll random cfg env _ (actions decision) (withSpeech (Some (snd e)) w))
    as [[[]|] w2]; [|reflexivity].
  destruct (fst e); [|reflexivity].
  destruct (String.eqb_spec text ""); [contradiction|]. reflexivity.
Qed.

(** C7.  In the autonomous step, with a throttle attached, a social
    target selected and a decision that carries chat text: if the
    throttle rejects the utterance, the rotation cursor, the round
    timestamp and the per-player record are as before the dispatch; if
    it accepts and the dispatch returns, the cursor has advanced by one
    and the round timestamp and the record of the target hold the time
    of marking. *)
Theorem C7_social_turn tgt isMoving decision c w s :
  speech w = Some s ->
  chat decision = Some c ->
  c <> "" ->
  let text :=
    if negb (includes (toLowerCase c) (toLowerCase (name tgt)))
    then name tgt ++ ", " ++ c else c in
  let accepted :=
    fst (SpeechManager.enqueue random cfg (clock w) text "autonomous" (Some (name tgt))
           (moving env (clock w)) (busy env (clock w)) s) in
  let r := onDecision random cfg env (Some tgt) false isMoving decision w in
  (accepted = false ->
   Planner.socialIndex (planner (snd r)) = Planner.socialIndex (planner w)
   /\ Planner.lastSocialChatAt (planner (snd r)) = Planner.lastSocialChatAt (planner w)
   /\ Planner.lastSpokeAt (planner (snd r)) = Planner.lastSpokeAt (planner w))
  /\ (accepted = true -> fst r = Returned tt ->
      Planner.socialIndex (planner (snd r)) = S (Planner.socialIndex (planner w))
      /\ exists t,
           Planner.lastSocialChatAt (planner (snd r)) = t
           /\ Planner.lastSpokeAt (planner (snd r))
              = if String.eqb (name tgt) "" then Planner.lastSpokeAt (planner w)
                else <[name tgt := t]> (Planner.lastSpokeAt (planner w))).
Proof.
  intros Hs Hc Hne text accepted r.
  pose proof (onDecision_social tgt isMoving decision c w s Hs Hc Hne) as Hr.
  cbv zeta in Hr. fold text in Hr. fold r in Hr. clearbody r.
  set (e := SpeechManager.enqueue random cfg (clock w) text "autonomous" (Some (name tgt))
              (moving env (clock w)) (busy env (clock w)) s) in *.
  pose proof (dispatchAll_keeps
                {| opt_reason := "autonomous"; opt_player := Some (name tgt) |}
                (actions decision) (withSpeech (Some (snd e)) w)) as Hkeep.
  change (planner (withSpeech (Some (snd e)) w)) with (planner w) in Hkeep.
  destruct (dispatchAll random cfg env _ (actions decision) (withSpeech (Some (snd e)) w))
    as [[[]|] w2]; cbn [snd] in Hkeep; injection Hkeep as K1 K2 K3.
  - subst accepted. destruct (fst e).
    + split; [discriminate|]. intros _ _.
      pose proof (pickupDrops_keeps isMoving
                    (withPlanner
                       (Planner.markPlayerSpoke (clock w2) (name tgt)
                          (Planner.markSocialSpoke (clock w2) (planner w2))) w2)) as Hp.
      rewrite <- Hr in Hp. injection Hp as P1 P2 P3.
      rewrite P1, P2, P3. cbn [withPlanner planner].
      unfold Planner.markPlayerSpoke.
      destruct (String.eqb (name tgt) "");
        cbn [Planner.markSocialSpoke Planner.socialIndex Planner.lastSocialChatAt
             Planner.lastSpokeAt];
        rewrite ?K1, ?K3; (split; [lia | eexists; split; reflexivity]).
    + split; [|discriminate]. intros _.
      pose proof (pickupDrops_keeps isMoving w2) as Hp.
      rewrite <- Hr in Hp. injection Hp as P1 P2 P3.
      rewrite P1, P2, P3. auto.
  - subst r. cbn [fst snd].
    split; [intros _; auto | intros _ E; discriminate E].
Qed.

(** In solo mode the chat of the decision plays no part. *)
Lemma onDecision_solo st isMoving d w :
  onDecision random cfg env st true isMoving d w
  = bind (dispatchAll random cfg env
            {| opt_reason := "autonomous"; opt_player := name <$> st |} (actions d))
         (fun _ => pickupDrops cfg env isMoving) w.
Proof.
  unfold onDecision. cbn [withoutChat chat].
  assert (E : (match st with
               | Some _ => (withoutChat d, false)
               | None => (withoutChat d, false)
               end) = (withoutChat d, false)) by (destruct st; reflexivity).
  unfold withoutChat in *. rewrite E. unfold executeDecision. cbn [chat actions].
  unfold bind, ret, getWorld.
  destruct (dispatchAll _ _ _ _ _ w) as [[[]|] w2]; [|reflexivity].
  destruct st; reflexivity.
Qed.

Lemma step_idle now taskBusy b d :
  fst (fst (SurvivalDirector.step cfg (fails env) (latency env) now taskBusy b d))
  = Returned false ->
  snd (fst (SurvivalDirector.step cfg (fails env) (latency env) now taskBusy b d)) = [].
Proof.
  unfold SurvivalDirector.step.
  destruct (SurvivalDirector.shouldStep cfg now d) as [ok d1].
  destruct (negb ok); [reflexivity|].
  destruct (negb _); [reflexivity|].
  destruct taskBusy; [reflexivity|].
  destruct (SurvivalDirector.choose b) as [e|]; [|reflexivity].
  destruct (SurvivalDirector.throws _ e); cbn [fst snd]; discriminate.
Qed.

(** C10 (as amended).  [shouldQueryLLM] sets its timestamp to the
    current time when it is forced, and when it returns true with a
    positive cooldown configured; with the cooldown switched off it
    returns true and leaves the timestamp alone.  In an autonomous step
    in which the survival director does not act, the query gate passes
    on a positive cooldown and the decision gate blocks, the step
    returns with the query timestamp set to the current time, the
    decision timestamp untouched and no call recorded: the backend is
    not asked. *)
Theorem C10_query_cooldown_consumed reply now p w :
  Planner.shouldQueryLLM cfg now true p = (true, Planner.setLastLLMAt now p)
  /\ (0 < orZ (chatCooldown cfg) 0 ->
      fst (Planner.shouldQueryLLM cfg now false p) = true ->
      snd (Planner.shouldQueryLLM cfg now false p) = Planner.setLastLLMAt now p)
  /\ (orZ (chatCooldown cfg) 0 <= 0 ->
      Planner.shouldQueryLLM cfg now false p = (true, p))
  /\ ((isSurvival (planner w)
       || (negb (0 <? length (nearbyPlayers cfg env))%nat
           && notFalse (autonomousSurvivalEnabled cfg)) = true ->
       fst (fst (SurvivalDirector.step cfg (fails env) (latency env) (clock w)
                   (busy env (clock w)) (bot env) (director w))) = Returned false) ->
      0 < orZ (chatCooldown cfg) 0 ->
      orZ (chatCooldown cfg) 0 <= clock w - Planner.lastLLMAt (planner w) ->
      0 < orZ (autonomousDecisionCooldownMs cfg) 0 ->
      clock w - Planner.lastAutonomousDecisionAt (planner w)
        < orZ (autonomousDecisionCooldownMs cfg) 0 ->
      let r := autonomousStep random cfg env reply w in
      fst r = Returned tt
      /\ Planner.lastLLMAt (planner (snd r)) = clock w
      /\ Planner.lastAutonomousDecisionAt (planner (snd r))
         = Planner.lastAutonomousDecisionAt (planner w)
      /\ trace (snd r) = trace w).
Proof.
  split; [reflexivity|]. split; [|split].
  - unfold Planner.shouldQueryLLM. intros Hpos.
    destruct (Z.leb_spec (orZ (chatCooldown cfg) 0) 0); [lia|].
    destruct (_ <? _); [discriminate|reflexivity].
  - unfold Planner.shouldQueryLLM. intros Hoff.
    destruct (Z.leb_spec (orZ (chatCooldown cfg) 0) 0); [reflexivity|lia].
  - intros Hidle Hq Hqe Hd Hdb r. subst r.
    unfold autonomousStep.
    set (solo := negb (0 <? length (nearbyPlayers cfg env))%nat) in *.
    rewrite (bind_returned getWorld _ w w w eq_refl). cbv beta.
    rewrite (bind_returned (setPlanner _) _ w tt _ eq_refl).
    rewrite (bind_returned (setSpeech _) _ _ tt _ eq_refl).
    set (w1 := withSpeech _ (withPlanner _ w)).
    assert (Hacted : exists w2,
      (if isSurvival (planner w) || (solo && notFalse (autonomousSurvivalEnabled cfg))
       then survivalStep cfg env else ret false) w1 = (Returned false, w2)
      /\ planner w2 = planner w1 /\ clock w2 = clock w /\ trace w2 = trace w).
    { destruct (isSurvival (planner w) || (solo && notFalse (autonomousSurvivalEnabled cfg)));
        [|exists w1; repeat split].
      specialize (Hidle eq_refl). pose proof (step_idle _ _ _ _ Hidle) as Hev.
      unfold survivalStep. change (clock w1) with (clock w).
      change (director w1) with (director w).
      destruct (SurvivalDirector.step cfg (fails env) (latency env) (clock w)
                  (busy env (clock w)) (bot env) (director w)) as [[out evs] d'].
      cbn [fst snd] in *. subst out evs. eexists. split; [reflexivity|].
      cbn [planner clock trace foldr]. rewrite app_nil_r, Z.add_0_r. repeat split. }
    destruct Hacted as ([p2 s2 d2 c2 t2] & Hrun & Hp & Hc & Ht).
    cbn [planner clock trace] in Hp, Hc, Ht. subst p2 c2 t2.
    rewrite (bind_returned _ _ _ _ _ Hrun). cbn [andb].
    rewrite (bind_returned getWorld _ _ _ _ eq_refl). cbv beta.
    subst w1. cbn [planner clock withSpeech withPlanner].
    unfold Planner.shouldQueryLLM, Planner.shouldAutonomousDecision. cbn.
    repeat match goal with
    | |- context [?a <=? ?b] => destruct (Z.leb_spec a b); cbn in *; try lia
    | |- context [?a <? ?b] => destruct (Z.ltb_spec a b); cbn in *; try lia
    end.
    cbn. repeat split.
Qed.
End WithEnv.

Lemma C7_social_turn_witness :
  let full := world 100000 (spoken [99000; 99500; 99900] []) in
  let free := world 100000 (spoken [] []) in
  let run w :=
    onDecision (H := AsciiHost.host) quiet baseBehavior (calm [near "alice"])
      (Some (near "alice")) false false greeting w in
  (Planner.socialIndex (planner (snd (run full))) = 0%nat
   /\ Planner.lastSocialChatAt (planner (snd (run full))) = 0
   /\ Planner.lastSpokeAt (planner (snd (run full))) = ∅)
  /\ Planner.socialIndex (planner (snd (run free))) = 1%nat.
Proof.
  intros full free run. split.
  - apply (proj1 (C7_social_turn (H := AsciiHost.host) quiet baseBehavior
                    (calm [near "alice"]) (near "alice") false greeting "hello" full
                    (spoken [99000; 99500; 99900] []) eq_refl eq_refl
                    ltac:(discriminate)));
      vm_compute; reflexivity.
  - apply (proj2 (C7_social_turn (H := AsciiHost.host) quiet baseBehavior
                    (calm [near "alice"]) (near "alice") false greeting "hello" free
                    (spoken [] []) eq_refl eq_refl ltac:(discriminate)));
      vm_compute; reflexivity.
Defined.

Lemma C10_query_cooldown_consumed_witness :
  let r := autonomousStep (H := AsciiHost.host) quiet baseBehavior (calm [near "alice"])
             (Some greeting) (world 10000 (spoken [] [])) in
  fst r = Returned tt
  /\ Planner.lastLLMAt (planner (snd r)) = 10000
  /\ Planner.lastAutonomousDecisionAt (planner (snd r)) = 0
  /\ trace (snd r) = [].
Proof.
  apply (proj2 (proj2 (proj2
           (C10_query_cooldown_consumed (H := AsciiHost.host) quiet baseBehavior
              (calm [near "alice"]) (Some greeting) 10000
              (Planner.init Planner.autonomous) (world 10000 (spoken [] []))))));
    first [ discriminate | vm_compute; reflexivity | vm_compute; discriminate ].
Defined.

(** C10 as stated fails: with the query cooldown switched off the gate
    returns true and the timestamp is not the current time. *)
Lemma C10_counterexample :
  fst (Planner.shouldQueryLLM noQueryCooldown 10000 false (Planner.init Planner.autonomous))
  = true
  /\ Planner.lastLLMAt
       (snd (Planner.shouldQueryLLM noQueryCooldown 10000 false
               (Planner.init Planner.autonomous))) = 0
  /\ Planner.lastLLMAt
       (snd (Planner.shouldQueryLLM noQueryCooldown 10000 false
               (Planner.init Planner.autonomous))) <> 10000.
Proof. vm_compute. repeat split. discriminate. Qed.

End StepFacts.

Module SortFacts.

(** The head of a sorted list is least for the key the comparison
    function orders by. *)
Lemma sortInsert_head {A} (cmp : A -> A -> Q) (key : A -> Q) :
  (forall x y, Qltb 0 (cmp x y) = true <-> (key y < key x)%Q) ->
  forall x l h,
    (forall y, y ∈ l -> forall h0, head l = Some h0 -> (key h0 <= key y)%Q) ->
    head (sortInsert cmp x l) = Some h ->
    (key h <= key x)%Q /\ (forall y, y ∈ l -> (key h <= key y)%Q).
Proof.
  intros Hcmp x l h Hmin Hh. destruct l as [|y l]; cbn [sortInsert] in Hh.
  - injection Hh as <-. split; [apply Qle_refl|]. intros y Hy. inversion Hy.
  - destruct (Qltb 0 (cmp x y)) eqn:E; cbn [head] in Hh; injection Hh as <-.
    + apply Hcmp in E. split; [apply Qlt_le_weak, E|].
      intros z Hz. apply (Hmin z Hz y eq_refl).
    + assert (Hxy : (key x <= key y)%Q).
      { apply Qnot_lt_le. intros Hlt. apply Hcmp in Hlt. congruence. }
      split; [apply Qle_refl|]. intros z Hz.
      apply Qle_trans with (key y); [exact Hxy|]. apply (Hmin z Hz y eq_refl).
Qed.

Lemma sortInsert_elem {A} (cmp : A -> A -> Q) x l y :
  y ∈ sortInsert cmp x l <-> y = x \/ y ∈ l.
Proof.
  induction l as [|z l IH]; cbn [sortInsert].
  - rewrite list_elem_of_singleton. split; [auto|]. intros [?|H]; [auto|inversion H].
  - destruct (Qltb 0 (cmp x z)).
    + rewrite !elem_of_cons, IH. tauto.
    + rewrite !elem_of_cons. tauto.
Qed.

Lemma jsSort_elem {A} (cmp : A -> A -> Q) l y : y ∈ jsSort cmp l <-> y ∈ l.
Proof.
  induction l as [|x l IH]; [reflexivity|].
  unfold jsSort in *. cbn [foldr]. rewrite sortInsert_elem, elem_of_cons, IH. reflexivity.
Qed.

Lemma jsSort_head_min {A} (cmp : A -> A -> Q) (key : A -> Q) :
  (forall x y, Qltb 0 (cmp x y) = true <-> (key y < key x)%Q) ->
  forall l h, head (jsSort cmp l) = Some h ->
    h ∈ l /\ forall y, y ∈ l -> (key h <= key y)%Q.
Proof.
  intros Hcmp l. induction l as [|x l IH]; intros h Hh; [discriminate|].
  split.
  { apply (jsSort_elem cmp). destruct (jsSort cmp (x :: l)); [discriminate|].
    injection Hh as <-. left. }
  unfold jsSort in *. cbn [foldr] in Hh.
  destruct (sortInsert_head cmp key Hcmp x (foldr (sortInsert cmp) [] l) h) as [H1 H2].
  - intros y Hy h0 Hh0. apply (IH h0 Hh0). apply (jsSort_elem cmp). exact Hy.
  - exact Hh.
  - intros y Hy. apply elem_of_cons in Hy as [->|Hy]; [exact H1|].
    apply H2. apply (jsSort_elem cmp). exact Hy.
Qed.

Lemma jsSort_nil {A} (cmp : A -> A -> Q) l : jsSort cmp l = [] <-> l = [].
Proof.
  split; [|intros ->; reflexivity].
  intros E. destruct l as [|x l]; [reflexivity|].
  assert (Hx : x ∈ jsSort cmp (x :: l)) by (apply jsSort_elem; left).
  rewrite E in Hx. inversion Hx.
Qed.

End SortFacts.

Module DirectorMore.

Import SurvivalDirector Examples SortFacts.

(** X1.  [step] takes at most one action per call.  It returns true exactly
    when the branch taken ran to its end, and only then is the action
    cooldown marked (at the time the skill returned); when it returns false
    nothing was called, and when the skill throws the cooldown stays
    unmarked. *)
Theorem X1_step_single_action cfg fails lat now taskBusy bot d :
  match step cfg fails lat now taskBusy bot d with
  | (Returned true, evs, d') =>
      exists e, evs = [e] /\ choose bot = Some e /\ throws fails e = false
                /\ lastActionAt d' = now + elapsed lat e
  | (Returned false, evs, d') => evs = [] /\ lastActionAt d' = lastActionAt d
  | (Threw, evs, d') =>
      exists e, evs = [e] /\ choose bot = Some e /\ throws fails e = true
                /\ lastActionAt d' = lastActionAt d
  end.
Proof.
  unfold step, shouldStep.
  destruct (now - lastStepAt d <? _); cbn [negb]; [split; reflexivity|].
  destruct (negb (canAct cfg now _)); [split; reflexivity|].
  destruct taskBusy; [split; reflexivity|].
  destruct (choose bot) as [e|]; [|split; reflexivity].
  destruct (throws fails e) eqn:E; exists e; repeat split; assumption.
Qed.

(** X2.  Once a call has acted, with event [e], every call made before the
    action cooldown has passed since the end of [e] does nothing, whatever
    the inventory has become. *)
Theorem X2_step_rate_limit cfg fails lat now taskBusy bot d e d1 :
  step cfg fails lat now taskBusy bot d = (Returned true, [e], d1) ->
  forall fails' lat' now' taskBusy' bot',
    now' < now + elapsed lat e + finiteOr (survivalActionCooldownMs cfg) 15000 ->
    fst (step cfg fails' lat' now' taskBusy' bot' d1) = (Returned false, []).
Proof.
  intros Hrun fails' lat' now' taskBusy' bot' Hsoon.
  assert (Hmark : lastActionAt d1 = now + elapsed lat e).
  { unfold step, shouldStep in Hrun.
    destruct (now - lastStepAt d <? _); cbn [negb] in Hrun; [discriminate|].
    destruct (negb (canAct cfg now _)); [discriminate|].
    destruct taskBusy; [discriminate|].
    destruct (choose bot) as [e0|]; [|discriminate].
    destruct (throws fails e0); [discriminate|].
    injection Hrun as <- <-. reflexivity. }
  unfold step, shouldStep, canAct.
  destruct (now' - lastStepAt d1 <? _); cbn [negb]; [reflexivity|].
  cbn [lastActionAt].
  destruct (Z.leb_spec (finiteOr (survivalActionCooldownMs cfg) 15000)
              (now' - lastActionAt d1)); [lia|].
  reflexivity.
Qed.

Lemma food_cmp (x y : Item) :
  Qltb 0 (inject_Z (item_food y - item_food x)) = true
  <-> (inject_Z (- item_food y) < inject_Z (- item_food x))%Q.
Proof.
  unfold Qltb. rewrite negb_true_iff, <- not_true_iff_false, Qle_bool_iff.
  rewrite <- Zlt_Qlt. change (0 # 1) with (inject_Z 0). rewrite <- Zle_Qle. lia.
Qed.

Lemma getFoodItem_none bot :
  getFoodItem bot = None <-> forall it, it ∈ items bot -> item_food it <= 0.
Proof.
  unfold getFoodItem. split.
  - intros Hnone it Hin.
    destruct (Z.lt_ge_cases 0 (item_food it)) as [Hpos|]; [|lia].
    assert (Hf : it ∈ filter (fun i => 0 < item_food i) (items bot))
      by (apply list_elem_of_filter; auto).
    apply (jsSort_elem (fun a b => inject_Z (item_food b - item_food a))) in Hf.
    destruct (jsSort _ _); [inversion Hf|discriminate].
  - intros Hall.
    destruct (jsSort _ _) as [|h t] eqn:E; [reflexivity|].
    assert (Hh : h ∈ filter (fun i => 0 < item_food i) (items bot)).
    { apply (jsSort_elem (fun a b => inject_Z (item_food b - item_food a))).
      rewrite E. left. }
    apply list_elem_of_filter in Hh as [Hpos Hin]. specialize (Hall h Hin). lia.
Qed.

Lemma getFoodItem_some bot best :
  getFoodItem bot = Some best ->
  best ∈ items bot /\ 0 < item_food best
  /\ forall it, it ∈ items bot -> item_food it <= item_food best.
Proof.
  unfold getFoodItem. intros Hbest.
  destruct (jsSort_head_min (fun a b => inject_Z (item_food b - item_food a))
              (fun a => inject_Z (- item_food a)) food_cmp _ _ Hbest) as [Hin Hmin].
  apply list_elem_of_filter in Hin as [Hpos Hin].
  split; [exact Hin|]. split; [exact Hpos|].
  intros it Hit. destruct (Z.lt_ge_cases 0 (item_food it)) as [Hp|]; [|lia].
  assert (Hf : it ∈ filter (fun i => 0 < item_food i) (items bot))
    by (apply list_elem_of_filter; auto).
  specialize (Hmin it Hf). rewrite <- Zle_Qle in Hmin. lia.
Qed.

(** X3.  [getFoodItem] finds nothing exactly when no held item has a
    positive food value; what it finds is a held item with a positive food
    value that no held item exceeds. *)
Theorem X3_getFoodItem_best bot :
  (getFoodItem bot = None <-> forall it, it ∈ items bot -> item_food it <= 0)
  /\ (forall best, getFoodItem bot = Some best ->
        best ∈ items bot /\ 0 < item_food best
        /\ forall it, it ∈ items bot -> item_food it <= item_food best).
Proof. split; [apply getFoodItem_none|apply getFoodItem_some]. Qed.

Lemma choose_eats bot args :
  choose bot = Some (Call "eat" args) -> eatChoice bot <> None.
Proof.
  unfold choose. destruct (eatChoice bot); [discriminate|].
  cbv zeta.
  repeat match goal with
  | |- context [if ?c then _ else _] => destruct c; [discriminate|]
  end.
  discriminate.
Qed.

(** X4.  Eating is driven by the food value of the held items alone.  When
    no held item carries a positive food value (as when the items carry no
    such value at all, whatever their names), [step] never calls the eat
    skill, however low health and food are: the eating branch finds
    nothing and the progression chain goes on. *)
Theorem X4_no_food_value_no_eating cfg fails lat now taskBusy bot d :
  (forall it, it ∈ items bot -> item_food it <= 0) ->
  eatChoice bot = None
  /\ forall args,
       Call "eat" args ∉ snd (fst (step cfg fails lat now taskBusy bot d)).
Proof.
  intros Hnone.
  assert (He : eatChoice bot = None).
  { unfold eatChoice. rewrite (proj2 (getFoodItem_none bot) Hnone).
    destruct (_ || _); reflexivity. }
  split; [exact He|]. intros args Hin.
  assert (Hc : forall e, e ∈ snd (fst (step cfg fails lat now taskBusy bot d)) ->
                         choose bot = Some e).
  { intros e. unfold step, shouldStep.
    destruct (now - lastStepAt d <? _); cbn [negb fst snd]; [intros Hx; inversion Hx|].
    destruct (negb (canAct cfg now _)); [intros Hx; inversion Hx|].
    destruct taskBusy; [intros Hx; inversion Hx|].
    destruct (choose bot) as [e0|]; [|intros Hx; inversion Hx].
    destruct (throws fails e0); cbn [fst snd]; intros Hx;
      apply list_elem_of_singleton in Hx; congruence. }
  apply (choose_eats bot args (Hc _ Hin)). exact He.
Qed.

Lemma X2_step_rate_limit_witness :
  fst (step baseBehavior (fun _ => false) (fun _ => 0) 30000 false
         (holding (20 # 1) [stack "oak_planks" 2 6])
         (snd (firstStep (holding (20 # 1) []))))
  = (Returned false, []).
Proof.
  apply (X2_step_rate_limit baseBehavior (fun _ => false) (fun _ => 0) 20000 false
           (holding (20 # 1) []) init (StartTask (TGatherWood (JNum 24) JUndef))
           (snd (firstStep (holding (20 # 1) []))));
    [vm_compute; reflexivity | vm_compute; reflexivity].
Defined.

Lemma X3_getFoodItem_best_witness :
  getFoodItem (holding (20 # 1) [stack "oak_log" 8 4]) = None
  /\ 0 < item_food loaf.
Proof.
  pose proof (X3_getFoodItem_best (holding (20 # 1) [stack "oak_log" 8 4])) as [A _].
  pose proof (X3_getFoodItem_best (holding (6 # 1) [stack "oak_log" 8 4; loaf])) as [_ B].
  split.
  - apply (proj2 A). intros it Hin. cbn in Hin.
    apply list_elem_of_singleton in Hin. subst it. cbn. lia.
  - apply (B loaf). vm_compute. reflexivity.
Defined.

Lemma X4_no_food_value_no_eating_witness :
  eatChoice (holding (6 # 1) [MoreExamples.bread]) = None
  /\ Call "eat" [("name", JStr "bread")]
     ∉ snd (fst (firstStep (holding (6 # 1) [MoreExamples.bread]))).
Proof.
  assert (Hnone : forall it, it ∈ items (holding (6 # 1) [MoreExamples.bread]) ->
                             item_food it <= 0).
  { intros it Hin. cbn in Hin. apply list_elem_of_singleton in Hin. subst it. cbn. lia. }
  destruct (X4_no_food_value_no_eating baseBehavior (fun _ => false) (fun _ => 0) 20000
              false (holding (6 # 1) [MoreExamples.bread]) init Hnone) as [A B].
  split; [exact A|apply B].
Defined.

End DirectorMore.

Module SpeechMore.

Import SpeechManager Examples Shapes.

Lemma lerp_bounds (lo hi r : Q) :
  (lo <= hi -> 0 <= r -> r <= 1 ->
   lo <= lo + r * (hi - lo) /\ lo + r * (hi - lo) <= hi)%Q.
Proof. intros. split; nra. Qed.

Section Throttle.
Context `{Host}.
Variable random : nat -> Q.
Variable cfg : Behavior.

(** What admission may change: the pruned history and burst window, and
    the count of random draws. *)
Lemma shouldAllow_frame now reason text player s :
  let s' := snd (shouldAllow random cfg now reason text player s) in
  socialEnergy s' = socialEnergy s /\ lastSpokeAt s' = lastSpokeAt s
  /\ lastByPlayer s' = lastByPlayer s /\ nextAutonomousAt s' = nextAutonomousAt s
  /\ queue s' = queue s.
Proof.
  unfold shouldAllow, isDuplicate, canBurst, drawRandom.
  repeat match goal with
  | |- context [if ?b then _ else _] => destruct b
  | |- context [match ?c with Some _ => _ | None => _ end] => destruct c
  | |- context [match ?c with focused => _ | _ => _ end] => destruct c
  end; cbn; repeat split.
Qed.

Lemma getDelayMs_frame reason isMoving taskBusy s :
  let s' := snd (getDelayMs random cfg reason isMoving taskBusy s) in
  socialEnergy s' = socialEnergy s /\ lastSpokeAt s' = lastSpokeAt s
  /\ lastByPlayer s' = lastByPlayer s /\ nextAutonomousAt s' = nextAutonomousAt s
  /\ queue s' = queue s.
Proof.
  unfold getDelayMs, drawRandom.
  repeat match goal with
  | |- context [if ?b then _ else _] => destruct b
  end; cbn; repeat split.
Qed.

Lemma enqueue_outcome now text reason player isMoving taskBusy s :
  let r := enqueue random cfg now text reason player isMoving taskBusy s in
  let reason' := if String.eqb reason "" then "autonomous" else reason in
  (socialEnergy (snd r) = socialEnergy s /\ lastSpokeAt (snd r) = lastSpokeAt s
   /\ lastByPlayer (snd r) = lastByPlayer s
   /\ nextAutonomousAt (snd r) = nextAutonomousAt s)
  /\ (fst r = false -> queue (snd r) = queue s)
  /\ (fst r = true ->
      exists entry,
        SpeechManager.text entry = text /\ SpeechManager.reason entry = reason'
        /\ queue (snd r)
           = if isDirectOrMention reason' || isEventReason reason'
             then entry :: queue s else (queue s ++ [entry])%list).
Proof.
  unfold enqueue.
  set (reason' := if String.eqb reason "" then "autonomous" else reason).
  set (player' := match player with Some "" => None | _ => player end).
  pose proof (shouldAllow_frame now reason' text player' s) as Ha.
  destruct (shouldAllow random cfg now reason' text player' s) as [ok s1].
  cbn [snd] in Ha. destruct Ha as (A1 & A2 & A3 & A4 & A5).
  destruct ok; cbn [negb].
  - pose proof (getDelayMs_frame reason' isMoving taskBusy s1) as Hd.
    destruct (getDelayMs random cfg reason' isMoving taskBusy s1) as [delay s2].
    cbn [snd] in Hd. destruct Hd as (D1 & D2 & D3 & D4 & D5).
    destruct (isDirectOrMention reason' || isEventReason reason');
      cbn [fst snd setQueue socialEnergy lastSpokeAt lastByPlayer nextAutonomousAt queue];
      (split; [repeat split; congruence|]);
      (split; [discriminate|]); intros _;
      exists {| SpeechManager.text := text; SpeechManager.reason := reason';
                SpeechManager.player := player'; delayMs := delay |};
      (split; [reflexivity|]); (split; [reflexivity|]); congruence.
  - cbn [fst snd]. split; [repeat split; assumption|].
    split; [intros _; exact A5 | discriminate].
Qed.

(** X7.  An emission is recorded: the entry at the head of the queue
    leaves it, the time of the last emission is the current time, the
    player of the entry (if any) is stamped with it and no other player
    is, and every emission time kept is inside the burst window. *)
Theorem X7_emission_recorded now item rest s :
  queue s = item :: rest ->
  let s' := snd (emitNext random cfg now s) in
  fst (emitNext random cfg now s) = Some (SpeechManager.text item)
  /\ queue s' = rest
  /\ lastSpokeAt s' = now
  /\ (forall p, SpeechManager.player item = Some p -> p <> "" ->
        lastByPlayer s' !! p = Some now)
  /\ (forall q, SpeechManager.player item <> Some q ->
        lastByPlayer s' !! q = lastByPlayer s !! q)
  /\ (forall ts, ts ∈ messageTimestamps s' ->
        now - ts <= orZ (speechBurstWindowMs cfg) 20000).
Proof.
  intros Hq. unfold emitNext. rewrite Hq. cbn [fst snd].
  unfold recordMessage.
  destruct (isAutonomousReason (SpeechManager.reason item));
    cbn [queue lastSpokeAt lastByPlayer messageTimestamps setQueue];
    (split; [reflexivity|]); (split; [reflexivity|]); (split; [reflexivity|]);
    (split; [|split]).
  all: try (intros p Hp Hne; rewrite Hp;
            destruct (String.eqb_spec p ""); [contradiction|];
            apply lookup_insert_eq).
  all: try (intros q Hneq; destruct (SpeechManager.player item) as [p|]; [|reflexivity];
            destruct (String.eqb p ""); [reflexivity|];
            apply lookup_insert_ne; congruence).
  all: intros ts Hts; apply list_elem_of_filter in Hts; apply Hts.
Qed.

Lemma interval_low (rnd : Q) :
  (0 <= rnd)%Q ->
  (Qmax (10000 # 1) (finiteOr (speechAutonomousMinIntervalMs cfg) (240000 # 1))
   <= getAutonomousIntervalMs cfg rnd)%Q.
Proof.
  intros Hr. unfold getAutonomousIntervalMs.
  set (lo := Qmax (10000 # 1) _). set (hi := Qmax lo _).
  assert (Hlh : (lo <= hi)%Q) by apply Q.le_max_l.
  nra.
Qed.

(** X8.  The interval to the next autonomous utterance is never shorter
    than ten seconds, however the two bounds are configured: for a draw
    between 0 and 1 it lies between the lower bound raised to 10000 ms and
    the upper bound raised to that lower bound. *)
Theorem X8_autonomous_interval_bounds (rnd : Q) :
  (0 <= rnd)%Q -> (rnd <= 1)%Q ->
  let lo := Qmax (10000 # 1) (finiteOr (speechAutonomousMinIntervalMs cfg) (240000 # 1)) in
  let hi := Qmax lo (finiteOr (speechAutonomousMaxIntervalMs cfg) (420000 # 1)) in
  (10000 # 1 <= getAutonomousIntervalMs cfg rnd)%Q
  /\ (lo <= getAutonomousIntervalMs cfg rnd)%Q
  /\ (getAutonomousIntervalMs cfg rnd <= hi)%Q.
Proof.
  intros H0 H1 lo hi. unfold getAutonomousIntervalMs. fold lo. fold hi.
  assert (Hlh : (lo <= hi)%Q) by apply Q.le_max_l.
  assert (H10 : (10000 # 1 <= lo)%Q) by apply Q.le_max_l.
  destruct (lerp_bounds lo hi rnd Hlh H0 H1) as [A B].
  split; [apply Qle_trans with lo; assumption|]. split; assumption.
Qed.

(** X9.  After an utterance with an autonomous-class reason has been
    emitted at time [now], every candidate with an autonomous-class reason
    is rejected until the configured minimum interval (at least ten
    seconds) has passed. *)
Theorem X9_autonomous_pacing now text player reason s now' reason' text' player' :
  (forall n, 0 <= random n)%Q ->
  isAutonomousReason reason = true ->
  isAutonomousReason reason' = true ->
  (inject_Z now'
   < inject_Z now
     + Qmax (10000 # 1) (finiteOr (speechAutonomousMinIntervalMs cfg) (240000 # 1)))%Q ->
  fst (shouldAllow random cfg now' reason' text' player'
         (recordMessage random cfg now text player reason s)) = false.
Proof.
  intros Hrnd Hr Hr' Hsoon.
  set (s1 := recordMessage random cfg now text player reason s).
  assert (Hnext : (inject_Z now' < nextAutonomousAt s1)%Q).
  { subst s1. unfold recordMessage. rewrite Hr. cbn [nextAutonomousAt].
    pose proof (interval_low (random (draws s)) (Hrnd _)) as Hl.
    set (lo := Qmax _ _) in *. set (iv := getAutonomousIntervalMs _ _) in *.
    apply Qlt_le_trans with (inject_Z now + lo)%Q; [exact Hsoon|].
    apply Qplus_le_r. exact Hl. }
  clearbody s1. unfold shouldAllow.
  destruct (String.eqb text' ""); [reflexivity|].
  assert (Hnd : isDirectOrMention reason' = false).
  { unfold isAutonomousReason in Hr'. unfold isDirectOrMention.
    repeat (apply orb_true_iff in Hr' as [Hr'|Hr']);
      apply String.eqb_eq in Hr'; subst reason'; reflexivity. }
  assert (Hne : isEventReason reason' = false).
  { unfold isAutonomousReason in Hr'. unfold isEventReason.
    repeat (apply orb_true_iff in Hr' as [Hr'|Hr']);
      apply String.eqb_eq in Hr'; subst reason'; reflexivity. }
  rewrite Hnd. cbn [negb].
  assert (Hd : nextAutonomousAt (snd (isDuplicate cfg now' text' s1)) = nextAutonomousAt s1).
  { unfold isDuplicate. repeat match goal with
    | |- context [if ?b then _ else _] => destruct b end; reflexivity. }
  destruct (isDuplicate cfg now' text' s1) as [dup s2]. cbn [snd] in Hd.
  destruct dup; [reflexivity|].
  unfold canBurst. cbv zeta.
  destruct (_ <? _); cbn [negb]; [|reflexivity].
  rewrite Hne, Hr'. cbn [orb fst nextAutonomousAt setTimestamps].
  rewrite Hd. unfold Qltb.
  destruct (Qle_bool (nextAutonomousAt s1) (inject_Z now')) eqn:E; [|reflexivity].
  apply Qle_bool_iff in E. exfalso. apply (Qlt_not_le _ _ Hnext E).
Qed.

(** The bound the history is cut to. *)
Lemma shouldAllow_history_le now reason text player s :
  (length (messageHistory (snd (shouldAllow random cfg now reason text player s)))
   <= length (messageHistory s))%nat.
Proof.
  unfold shouldAllow, isDuplicate, canBurst, drawRandom.
  repeat match goal with
  | |- context [if ?b then _ else _] => destruct b
  | |- context [match ?c with Some _ => _ | None => _ end] => destruct c
  | |- context [match ?c with focused => _ | _ => _ end] => destruct c
  end; cbn; first [apply length_filter | lia].
Qed.

Lemma enqueue_history_le now text reason player isMoving taskBusy s :
  (length (messageHistory (snd (enqueue random cfg now text reason player isMoving taskBusy s)))
   <= length (messageHistory s))%nat.
Proof.
  unfold enqueue.
  match goal with
  | |- context [shouldAllow random cfg now ?r text ?p s] =>
      pose proof (shouldAllow_history_le now r text p s) as Ha;
      destruct (shouldAllow random cfg now r text p s) as [ok s1]
  end.
  cbn [snd] in Ha. destruct ok; cbn [negb]; [|exact Ha].
  unfold getDelayMs, drawRandom. cbv zeta.
  repeat match goal with |- context [if ?b then _ else _] => destruct b end; exact Ha.
Qed.

Lemma recordMessage_history_cap now text player reason s :
  Z.of_nat (length (messageHistory s)) <= Z.max 0 (finiteOr (autoChatHistorySize cfg) 20) ->
  Z.of_nat (length (messageHistory (recordMessage random cfg now text player reason s)))
  <= Z.max 0 (finiteOr (autoChatHistorySize cfg) 20).
Proof.
  intros Hs. unfold recordMessage.
  destruct (isAutonomousReason reason); cbv zeta; cbn [messageHistory];
    (destruct (String.eqb (normalizeText text) ""); [exact Hs|]);
    match goal with |- context [if ?b then _ else _] => destruct b eqn:E end;
    rewrite ?length_drop, ?length_app in *; cbn [length] in *;
    try apply Z.ltb_lt in E; try apply Z.ltb_ge in E; lia.
Qed.

Lemma runSpeech_history_cap ops : forall s,
  Z.of_nat (length (messageHistory s)) <= Z.max 0 (finiteOr (autoChatHistorySize cfg) 20) ->
  Z.of_nat (length (messageHistory (Runs.runSpeech random cfg ops s)))
  <= Z.max 0 (finiteOr (autoChatHistorySize cfg) 20).
Proof.
  induction ops as [|op ops IH]; intros s Hs; [exact Hs|].
  unfold Runs.runSpeech. cbn [fold_left]. apply IH.
  destruct op as [now isDay players|now text reason player mv tb|now
                 |now text player reason]; cbn [Runs.applyOp].
  - unfold updateContext, recoverEnergy.
    destruct (_ <? _); [exact Hs|]. destruct isDay as [[|]|]; exact Hs.
  - pose proof (enqueue_history_le now text reason player mv tb s). lia.
  - unfold emitNext. destruct (queue s) as [|item rest]; [exact Hs|].
    cbn [snd]. apply recordMessage_history_cap. exact Hs.
  - apply recordMessage_history_cap. exact Hs.
Qed.

(** X10.  The duplicate history is bounded: from the state the constructor
    builds, after any sequence of context refreshes, enqueue attempts,
    emissions and recorded messages, it holds no more entries than the
    configured size (none when the size is negative). *)
Theorem X10_history_bounded (now0 : Z) (ops : list Runs.SpeechOp) :
  Z.of_nat (length (messageHistory (Runs.runSpeech random cfg ops (init random cfg now0))))
  <= Z.max 0 (finiteOr (autoChatHistorySize cfg) 20).
Proof. apply runSpeech_history_cap. cbn. lia. Qed.

Lemma shouldAllow_duplicate now reason text player s item :
  0 < orZ (autoChatHistoryMs cfg) 0 ->
  item ∈ messageHistory s ->
  now - timestamp item <= orZ (autoChatHistoryMs cfg) 0 ->
  normalized item = normalizeText text ->
  isDirectOrMention reason = false ->
  fst (shouldAllow random cfg now reason text player s) = false.
Proof.
  intros Hpos Hin Hage Hnorm Hd. unfold shouldAllow.
  destruct (String.eqb text ""); [reflexivity|].
  rewrite Hd. cbn [negb].
  pose proof (SpeechFacts.isDuplicate_hit cfg now text s item Hpos Hin Hage Hnorm) as Hdup.
  destruct (isDuplicate cfg now text s) as [dup s1]. cbn [fst] in Hdup.
  rewrite Hdup. reflexivity.
Qed.

(** The entry [item] is in the history with at most [k] entries behind
    it: a call made inside the window keeps it there, with one more entry
    behind it if the call records an emission, as long as the size of the
    history leaves room. *)
Lemma recordMessage_last now text player reason s :
  normalizeText text <> "" ->
  1 <= finiteOr (autoChatHistorySize cfg) 20 ->
  exists pre,
    messageHistory (recordMessage random cfg now text player reason s)
    = (pre ++ [{| normalized := normalizeText text; timestamp := now |}])%list.
Proof.
  intros Hn Hsize. unfold recordMessage.
  destruct (isAutonomousReason reason); cbv zeta; cbn [messageHistory];
    (destruct (String.eqb_spec (normalizeText text) ""); [contradiction|]);
    match goal with |- context [if ?b then _ else _] => destruct b eqn:E end;
    try (eexists; reflexivity);
    rewrite length_app; cbn [length];
    (rewrite drop_app_le by lia); eexists; reflexivity.
Qed.

Lemma recordMessage_keeps item k now text player reason s pre post :
  messageHistory s = (pre ++ item :: post)%list -> (length post <= k)%nat ->
  Z.of_nat k + 2 <= finiteOr (autoChatHistorySize cfg) 20 ->
  exists pre' post',
    messageHistory (recordMessage random cfg now text player reason s)
    = (pre' ++ item :: post')%list
    /\ (length post' <= S k)%nat.
Proof.
  intros Hh Hk Hroom. unfold recordMessage.
  destruct (isAutonomousReason reason); cbv zeta; cbn [messageHistory];
    (destruct (String.eqb (normalizeText text) "");
     [exists pre, post; split; [exact Hh|lia]|]);
    rewrite Hh;
    match goal with |- context [if ?b then _ else _] => destruct b eqn:E end;
    rewrite <- ?app_assoc; cbn [app];
    try (eexists pre, (post ++ [_])%list; split; [reflexivity|];
         rewrite length_app; cbn [length]; lia);
    rewrite !length_app in *; cbn [length] in *; rewrite length_app in *;
    cbn [length] in *;
    (rewrite drop_app_le by lia);
    (eexists (drop _ pre), (post ++ [_])%list; split; [reflexivity|]);
    rewrite length_app; cbn [length]; lia.
Qed.

Lemma isDuplicate_keeps item k now text s pre post :
  messageHistory s = (pre ++ item :: post)%list -> (length post <= k)%nat ->
  now - timestamp item <= orZ (autoChatHistoryMs cfg) 0 ->
  exists pre' post',
    messageHistory (snd (isDuplicate cfg now text s)) = (pre' ++ item :: post')%list
    /\ (length post' <= k)%nat.
Proof.
  intros Hh Hk Hage. unfold isDuplicate.
  destruct (String.eqb _ ""); [exists pre, post; auto|].
  destruct (_ <=? 0); [exists pre, post; auto|].
  cbn [snd setHistory messageHistory]. rewrite Hh, filter_app.
  rewrite filter_cons_True by exact Hage.
  eexists _, _. split; [reflexivity|].
  pose proof (length_filter (fun i => now - timestamp i <= orZ (autoChatHistoryMs cfg) 0)
                post). lia.
Qed.

Lemma shouldAllow_keeps item k now reason text player s pre post :
  messageHistory s = (pre ++ item :: post)%list -> (length post <= k)%nat ->
  now - timestamp item <= orZ (autoChatHistoryMs cfg) 0 ->
  exists pre' post',
    messageHistory (snd (shouldAllow random cfg now reason text player s))
    = (pre' ++ item :: post')%list
    /\ (length post' <= k)%nat.
Proof.
  intros Hh Hk Hage.
  destruct (isDuplicate_keeps item k now text s pre post Hh Hk Hage)
    as (pre1 & post1 & H1 & K1).
  unfold shouldAllow.
  destruct (String.eqb text ""); [exists pre, post; auto|].
  destruct (negb (isDirectOrMention reason)).
  - destruct (isDuplicate cfg now text s) as [dup s1]. cbn [snd] in H1.
    destruct dup; [exists pre1, post1; auto|].
    unfold canBurst, drawRandom. cbv zeta.
    repeat match goal with
    | |- context [if ?b then _ else _] => destruct b
    | |- context [match ?c with Some _ => _ | None => _ end] => destruct c
    | |- context [match ?c with focused => _ | _ => _ end] => destruct c
    end; cbn [snd setTimestamps messageHistory]; exists pre1, post1; auto.
  - cbn [negb]. unfold drawRandom. cbv zeta.
    repeat match goal with
    | |- context [if ?b then _ else _] => destruct b
    | |- context [match ?c with Some _ => _ | None => _ end] => destruct c
    | |- context [match ?c with focused => _ | _ => _ end] => destruct c
    end; cbn [snd messageHistory]; exists pre, post; auto.
Qed.

Lemma applyOp_keeps item k op s pre post :
  messageHistory s = (pre ++ item :: post)%list -> (length post <= k)%nat ->
  opNow op - timestamp item <= orZ (autoChatHistoryMs cfg) 0 ->
  (records op = true -> Z.of_nat k + 2 <= finiteOr (autoChatHistorySize cfg) 20) ->
  exists pre' post',
    messageHistory (Runs.applyOp random cfg s op) = (pre' ++ item :: post')%list
    /\ (length post' <= (if records op then S k else k))%nat.
Proof.
  intros Hh Hk Hage Hroom.
  destruct op as [now isDay players|now text reason player isMoving taskBusy|now
                 |now text player reason]; cbn [Runs.applyOp records opNow] in *.
  - exists pre, post. split; [|exact Hk].
    unfold updateContext, recoverEnergy. destruct (_ <? _); exact Hh.
  - unfold enqueue.
    set (reason' := if String.eqb reason "" then "autonomous" else reason).
    set (player' := match player with Some "" => None | _ => player end).
    destruct (shouldAllow_keeps item k now reason' text player' s pre post Hh Hk Hage)
      as (pre1 & post1 & H1 & K1).
    destruct (shouldAllow random cfg now reason' text player' s) as [ok s1].
    cbn [snd] in H1. destruct ok; cbn [negb snd]; [|exists pre1, post1; auto].
    unfold getDelayMs, drawRandom.
    repeat match goal with
    | |- context [if ?b then _ else _] => destruct b
    end; cbn [snd setQueue messageHistory]; exists pre1, post1; auto.
  - unfold emitNext. destruct (queue s) as [|entry rest]; cbn [snd].
    + exists pre, post. split; [exact Hh|lia].
    + apply (recordMessage_keeps item k now _ _ _ (setQueue rest s) pre post);
        [exact Hh|exact Hk|apply Hroom; reflexivity].
  - apply (recordMessage_keeps item k now _ _ _ s pre post);
      [exact Hh|exact Hk|apply Hroom; reflexivity].
Qed.

Lemma runSpeech_keeps item ops : forall k s pre post,
  messageHistory s = (pre ++ item :: post)%list -> (length post <= k)%nat ->
  Forall (fun op => opNow op - timestamp item <= orZ (autoChatHistoryMs cfg) 0) ops ->
  Z.of_nat k + Z.of_nat (recordings ops) + 1 <= finiteOr (autoChatHistorySize cfg) 20 ->
  item ∈ messageHistory (Runs.runSpeech random cfg ops s).
Proof.
  induction ops as [|op ops IH]; intros k s pre post Hh Hk Hall Hroom.
  - cbn. rewrite Hh. apply elem_of_app. right. left.
  - apply Forall_cons in Hall as [Hage Hall].
    assert (Hc : recordings (op :: ops)
                 = ((if records op then 1 else 0) + recordings ops)%nat).
    { unfold recordings. destruct (records op) eqn:E.
      - rewrite filter_cons_True by exact E. reflexivity.
      - rewrite filter_cons_False by (rewrite E; discriminate). reflexivity. }
    rewrite Hc in Hroom.
    destruct (applyOp_keeps item k op s pre post Hh Hk Hage) as (pre1 & post1 & H1 & K1).
    { intros E. rewrite E in Hroom. lia. }
    cbn [Runs.runSpeech fold_left]. unfold Runs.runSpeech in IH.
    apply (IH (if records op then S k else k) _ pre1 post1 H1 K1 Hall).
    destruct (records op); lia.
Qed.

(** X11.  What has been said is remembered as long as the history holds
    it.  After a text with a non-empty normal form has been emitted at
    time [now], and whatever is enqueued, emitted or recorded afterwards
    inside the history window, a candidate with the same normal form,
    offered inside the window for a reason other than direct or mention, is
    rejected, provided the emissions recorded since then (the first one
    included) do not exceed the size of the history. *)
Theorem X11_said_is_remembered now text player reason s ops now' reason' text' player' :
  normalizeText text <> "" ->
  0 < orZ (autoChatHistoryMs cfg) 0 ->
  Forall (fun op => opNow op - now <= orZ (autoChatHistoryMs cfg) 0) ops ->
  Z.of_nat (recordings ops) + 1 <= finiteOr (autoChatHistorySize cfg) 20 ->
  now' - now <= orZ (autoChatHistoryMs cfg) 0 ->
  normalizeText text' = normalizeText text ->
  isDirectOrMention reason' = false ->
  fst (shouldAllow random cfg now' reason' text' player'
         (Runs.runSpeech random cfg ops
            (recordMessage random cfg now text player reason s))) = false.
Proof.
  intros Hn Hpos Hall Hroom Hage Hsame Hd.
  destruct (recordMessage_last now text player reason s Hn) as [pre Hh]; [lia|].
  apply (shouldAllow_duplicate now' reason' text' player' _
           {| normalized := normalizeText text; timestamp := now |});
    [exact Hpos | | exact Hage | cbn; congruence | exact Hd].
  apply (runSpeech_keeps _ ops 0%nat _ pre []); [exact Hh|cbn; lia|exact Hall|lia].
Qed.

Lemma shouldAllow_burst_full now reason text player s :
  isDirectOrMention reason = false ->
  orZ (speechBurstMax cfg) 3 <= Z.of_nat (length (inBurstWindow cfg now s)) ->
  fst (shouldAllow random cfg now reason text player s) = false.
Proof.
  intros Hd Hfull. unfold shouldAllow.
  destruct (String.eqb text ""); [reflexivity|].
  rewrite Hd. cbn [negb].
  assert (Hstamps : messageTimestamps (snd (isDuplicate cfg now text s))
                    = messageTimestamps s).
  { unfold isDuplicate. destruct (String.eqb _ ""); [reflexivity|].
    destruct (_ <=? 0); reflexivity. }
  destruct (isDuplicate cfg now text s) as [dup s1]. cbn [snd] in Hstamps.
  destruct dup; [reflexivity|].
  unfold canBurst. rewrite Hstamps.
  assert (Hr : String.eqb reason "direct" = false).
  { unfold isDirectOrMention in Hd. apply orb_false_iff in Hd. apply Hd. }
  rewrite Hr. fold (inBurstWindow cfg now s).
  destruct (_ <? _) eqn:E; [apply Z.ltb_lt in E; lia|]. reflexivity.
Qed.

Lemma recordMessage_window now' t text player reason s :
  t <= now' -> now' - t <= orZ (speechBurstWindowMs cfg) 20000 ->
  length (inBurstWindow cfg now' (recordMessage random cfg t text player reason s))
  = S (length (inBurstWindow cfg now' s)).
Proof.
  intros Hle Hin. unfold inBurstWindow, recordMessage.
  destruct (isAutonomousReason reason); cbv zeta; cbn [messageTimestamps].
  all: rewrite list_filter_filter, filter_app, length_app.
  all: rewrite (list_filter_iff _ (fun ts => now' - ts <= orZ (speechBurstWindowMs cfg) 20000))
         by (intros x; lia).
  all: rewrite (list_filter_iff (fun x => now' - x <= _ /\ t - x <= _)
                  (fun ts => now' - ts <= orZ (speechBurstWindowMs cfg) 20000) [t])
         by (intros x; lia).
  all: rewrite filter_cons_True by lia; cbn [filter list_filter length]; lia.
Qed.

Lemma records_window now recs : forall s,
  Forall (fun r : Z * string * option string * string =>
            r.1.1.1 <= now /\ now - r.1.1.1 <= orZ (speechBurstWindowMs cfg) 20000) recs ->
  length (inBurstWindow cfg now
            (Runs.runSpeech random cfg
               ((fun r : Z * string * option string * string =>
                   Runs.OpRecord r.1.1.1 r.1.1.2 r.1.2 r.2) <$> recs) s))
  = (length recs + length (inBurstWindow cfg now s))%nat.
Proof.
  induction recs as [|r recs IH]; intros s Hall; [reflexivity|].
  apply Forall_cons in Hall as [[Hle Hin] Hall].
  cbn [fmap list_fmap]. unfold Runs.runSpeech. cbn [fold_left Runs.applyOp].
  fold (Runs.runSpeech random cfg
          ((fun r : Z * string * option string * string =>
              Runs.OpRecord r.1.1.1 r.1.1.2 r.1.2 r.2) <$> recs)
          (recordMessage random cfg r.1.1.1 r.1.1.2 r.1.2 r.2 s)).
  rewrite (IH _ Hall), (recordMessage_window now _ _ _ _ _ Hle Hin). cbn [length]. lia.
Qed.

(** X12.  Burst limiting end to end: after as many emissions as the
    ambient burst maximum (3 unless configured), all of them no later than
    the current time and inside the burst window, a candidate with any
    reason other than direct or mention is rejected. *)
Theorem X12_burst_after_emissions now recs s reason text player :
  Forall (fun r : Z * string * option string * string =>
            r.1.1.1 <= now /\ now - r.1.1.1 <= orZ (speechBurstWindowMs cfg) 20000) recs ->
  orZ (speechBurstMax cfg) 3 <= Z.of_nat (length recs) ->
  isDirectOrMention reason = false ->
  fst (shouldAllow random cfg now reason text player
         (Runs.runSpeech random cfg
            ((fun r : Z * string * option string * string =>
                Runs.OpRecord r.1.1.1 r.1.1.2 r.1.2 r.2) <$> recs) s)) = false.
Proof.
  intros Hall Hmany Hd. apply shouldAllow_burst_full; [exact Hd|].
  rewrite (records_window now recs s Hall). lia.
Qed.

End Throttle.

Lemma X7_emission_recorded_witness :
  let item := {| SpeechManager.text := "hello"; SpeechManager.reason := "direct";
                 SpeechManager.player := Some "alice"; delayMs := 0 # 1 |} in
  let s := setQueue [item] (spoken [] []) in
  queue (snd (emitNext (H := AsciiHost.host) quiet baseBehavior 5000 s)) = []
  /\ lastSpokeAt (snd (emitNext (H := AsciiHost.host) quiet baseBehavior 5000 s)) = 5000
  /\ lastByPlayer (snd (emitNext (H := AsciiHost.host) quiet baseBehavior 5000 s)) !! "alice"
     = Some 5000.
Proof.
  intros item s.
  destruct (X7_emission_recorded (H := AsciiHost.host) quiet baseBehavior 5000 item [] s
              eq_refl) as (_ & A & B & C & _).
  split; [exact A|]. split; [exact B|]. apply C; [reflexivity|discriminate].
Defined.

Lemma X8_autonomous_interval_bounds_witness :
  (10000 # 1 <= getAutonomousIntervalMs baseBehavior (1 # 2))%Q
  /\ (getAutonomousIntervalMs baseBehavior (1 # 2) <= 420000 # 1)%Q.
Proof.
  destruct (X8_autonomous_interval_bounds baseBehavior (1 # 2)
              ltac:(vm_compute; discriminate) ltac:(vm_compute; discriminate))
    as (A & _ & B).
  split; [exact A | exact B].
Defined.

Lemma X9_autonomous_pacing_witness :
  fst (shouldAllow (H := AsciiHost.host) quiet baseBehavior 200000 "pulse" "so quiet" None
         (recordMessage (H := AsciiHost.host) quiet baseBehavior 1000 "nice day" None
            "autonomous" (spoken [] []))) = false.
Proof.
  apply (X9_autonomous_pacing (H := AsciiHost.host) quiet baseBehavior 1000 "nice day" None
           "autonomous" (spoken [] []) 200000 "pulse" "so quiet" None);
    first [ reflexivity | intros n; vm_compute; discriminate | vm_compute; reflexivity ].
Defined.

Lemma X11_said_is_remembered_witness :
  fst (shouldAllow (H := AsciiHost.host) quiet baseBehavior 9000 "event" "NICE day!" None
         (Runs.runSpeech (H := AsciiHost.host) quiet baseBehavior
            [Runs.OpRecord 2000 "look, a creeper" None "danger";
             Runs.OpEnqueue 3000 "so quiet" "pulse" None false false;
             Runs.OpRecord 4000 "thanks" (Some "alice") "gift"]
            (recordMessage (H := AsciiHost.host) quiet baseBehavior 1000 "nice day" None
               "event" (spoken [] [])))) = false.
Proof.
  apply (X11_said_is_remembered (H := AsciiHost.host) quiet baseBehavior 1000 "nice day" None
           "event" (spoken [] [])
           [Runs.OpRecord 2000 "look, a creeper" None "danger";
            Runs.OpEnqueue 3000 "so quiet" "pulse" None false false;
            Runs.OpRecord 4000 "thanks" (Some "alice") "gift"]
           9000 "event" "NICE day!" None).
  - vm_compute; discriminate.
  - vm_compute; reflexivity.
  - repeat constructor; vm_compute; discriminate.
  - vm_compute; discriminate.
  - vm_compute; discriminate.
  - reflexivity.
  - reflexivity.
Defined.

Lemma X12_burst_after_emissions_witness :
  fst (shouldAllow (H := AsciiHost.host) quiet baseBehavior 4000 "event" "look out" None
         (Runs.runSpeech (H := AsciiHost.host) quiet baseBehavior
            ((fun r : Z * string * option string * string =>
                Runs.OpRecord r.1.1.1 r.1.1.2 r.1.2 r.2)
               <$> [(1000, "one", None, "event"); (2000, "two", None, "direct");
                    (3000, "three", None, "gift")])
            (spoken [] []))) = false.
Proof.
  apply (X12_burst_after_emissions (H := AsciiHost.host) quiet baseBehavior 4000
           [(1000, "one", None, "event"); (2000, "two", None, "direct");
            (3000, "three", None, "gift")] (spoken [] []) "event" "look out" None).
  - repeat (constructor; [vm_compute; split; discriminate|]). constructor.
  - vm_compute; discriminate.
  - reflexivity.
Defined.

End SpeechMore.

Module DrainFacts.

Import SpeechManager SpeechDrain.

Section Drain.
Context `{Host}.
Variable random : nat -> Q.
Variable cfg : Behavior.

Lemma drain_settled now items : forall c, settled (snd (drain random cfg now items c)).
Proof.
  induction items as [|item rest IH]; intros c; cbn [drain].
  - cbn. auto.
  - destruct (Qltb (0 # 1) (delayMs item)); [cbn; discriminate|].
    specialize (IH (recordMessage random cfg now (text item) (player item) (reason item)
                      (setQueue rest c))).
    destruct (drain random cfg now rest _) as [out d]. exact IH.
Qed.

(** The loop on a queue whose head has a positive delay sends nothing;
    otherwise the head is the first text sent. *)
Lemma drain_head now item rest c :
  if Qltb (0 # 1) (delayMs item)
  then drain random cfg now (item :: rest) c
       = ([], {| core := setQueue rest c; processing := true; sleeping := Some item |})
  else exists out,
         fst (drain random cfg now (item :: rest) c) = text item :: out
         /\ lastSpokeAt (core (snd (drain random cfg now (item :: rest) c))) = now.
Proof.
  cbn [drain]. destruct (Qltb (0 # 1) (delayMs item)); [reflexivity|].
  set (c1 := recordMessage random cfg now (text item) (player item) (reason item)
               (setQueue rest c)).
  assert (Hl : forall items c0, lastSpokeAt c0 = now ->
                 lastSpokeAt (core (snd (drain random cfg now items c0))) = now).
  { induction items as [|i r IH]; intros c0 H0; cbn [drain].
    - exact H0.
    - destruct (Qltb (0 # 1) (delayMs i)); [exact H0|].
      specialize (IH (recordMessage random cfg now (text i) (player i) (reason i)
                        (setQueue r c0))).
      destruct (drain random cfg now r _) as [out d]. apply IH.
      unfold recordMessage. destruct (isAutonomousReason (reason i)); reflexivity. }
  specialize (Hl rest c1).
  destruct (drain random cfg now rest c1) as [out d]. exists out.
  split; [reflexivity|]. apply Hl.
  subst c1. unfold recordMessage. destruct (isAutonomousReason (reason item)); reflexivity.
Qed.

(** X5.  An urgent utterance overtakes what is waiting in the queue, but
    not the entry in flight.  While an entry is sleeping before it is sent,
    [enqueue] sends nothing and leaves that entry in flight; an accepted
    utterance with a high-urgency reason (direct, mention, danger, event,
    gift) is put at the head of the queue, any other at the tail.  When the
    sleep ends, the entry in flight is sent first, and the urgent one is
    the next the loop takes: it is sent in the same stretch if its delay is
    not positive, and is the next entry in flight otherwise. *)
Theorem X5_urgent_after_in_flight now text reason player isMoving taskBusy d first now' :
  processing d = true -> sleeping d = Some first ->
  let r := enqueue random cfg now text reason player isMoving taskBusy d in
  let reason' := if String.eqb reason "" then "autonomous" else reason in
  snd (fst r) = [] /\ processing (snd r) = true /\ sleeping (snd r) = Some first
  /\ (fst (fst r) = false -> queue (core (snd r)) = queue (core d))
  /\ (fst (fst r) = true ->
      exists entry,
        SpeechManager.text entry = text /\ SpeechManager.reason entry = reason'
        /\ if isDirectOrMention reason' || isEventReason reason'
           then queue (core (snd r)) = entry :: queue (core d)
                /\ exists out,
                     fst (wake random cfg now' (snd r))
                     = SpeechManager.text first :: out
                     /\ if Qltb (0 # 1) (delayMs entry)
                        then out = []
                             /\ sleeping (snd (wake random cfg now' (snd r))) = Some entry
                        else exists out', out = text :: out'
           else queue (core (snd r)) = (queue (core d) ++ [entry])%list).
Proof.
  intros Hp Hs r reason'. subst r. unfold enqueue.
  destruct (SpeechMore.enqueue_outcome random cfg now text reason player isMoving taskBusy
              (core d)) as (_ & Hrej & Hacc).
  fold reason' in Hacc.
  destruct (SpeechManager.enqueue random cfg now text reason player isMoving taskBusy
              (core d)) as [ok c1].
  cbn [fst snd] in Hrej, Hacc.
  destruct ok; cbn [negb].
  - unfold processQueue. cbn [processing]. rewrite Hp. cbn [fst snd core processing sleeping].
    repeat (split; [first [reflexivity | exact Hs | discriminate]|]).
    intros _. destruct (Hacc eq_refl) as (entry & Et & Er & Eq).
    exists entry. split; [exact Et|]. split; [exact Er|].
    destruct (isDirectOrMention reason' || isEventReason reason'); [|exact Eq].
    split; [exact Eq|].
    unfold wake. cbn [sleeping core]. rewrite Hs.
    set (c2 := recordMessage random cfg now' (SpeechManager.text first)
                 (SpeechManager.player first) (SpeechManager.reason first) c1).
    assert (Hq : queue c2 = entry :: queue (core d)).
    { subst c2. unfold recordMessage.
      destruct (isAutonomousReason (SpeechManager.reason first)); exact Eq. }
    rewrite Hq.
    pose proof (drain_head now' entry (queue (core d)) c2) as Hh.
    destruct (Qltb (0 # 1) (delayMs entry)).
    + rewrite Hh. exists []. cbn [fst snd sleeping]. auto.
    + destruct Hh as (out & Ho & _).
      destruct (drain random cfg now' (entry :: queue (core d)) c2) as [out0 d2].
      cbn [fst] in Ho. subst out0. exists (SpeechManager.text entry :: out).
      cbn [fst]. split; [reflexivity|]. exists out. rewrite Et. reflexivity.
  - cbn [fst snd core processing sleeping].
    repeat (split; [first [reflexivity | exact Hs | exact Hp]|]).
    split; [intros _; apply Hrej; reflexivity|discriminate].
Qed.

(** X6.  [enqueue] spends only when it sends.  If it sends nothing (the
    candidate is rejected, an entry is already in flight, or the accepted
    entry has a positive delay), the social energy, the time of the last
    emission, the per-player times and the time of the next autonomous
    utterance are as before.  On an idle throttle an accepted entry leaves
    the queue at once: with a positive delay it becomes the entry in
    flight, otherwise it is sent and recorded before [enqueue] returns, and
    the time of the last emission is the current time. *)
Theorem X6_enqueue_spends_when_sending now text reason player isMoving taskBusy d :
  let r := enqueue random cfg now text reason player isMoving taskBusy d in
  (snd (fst r) = [] ->
   socialEnergy (core (snd r)) = socialEnergy (core d)
   /\ lastSpokeAt (core (snd r)) = lastSpokeAt (core d)
   /\ lastByPlayer (core (snd r)) = lastByPlayer (core d)
   /\ nextAutonomousAt (core (snd r)) = nextAutonomousAt (core d))
  /\ (fst (fst r) = false -> snd (fst r) = [])
  /\ (processing d = true -> snd (fst r) = [])
  /\ (settled d -> settled (snd r))
  /\ (processing d = false -> queue (core d) = [] -> fst (fst r) = true ->
      exists entry,
        SpeechManager.text entry = text /\ queue (core (snd r)) = []
        /\ if Qltb (0 # 1) (delayMs entry)
           then snd (fst r) = [] /\ processing (snd r) = true
                /\ sleeping (snd r) = Some entry
           else snd (fst r) = [text] /\ processing (snd r) = false
                /\ sleeping (snd r) = None /\ lastSpokeAt (core (snd r)) = now).
Proof.
  intros r. subst r. unfold enqueue.
  destruct (SpeechMore.enqueue_outcome random cfg now text reason player isMoving taskBusy
              (core d)) as (Hframe & Hrej & Hacc).
  destruct (SpeechManager.enqueue random cfg now text reason player isMoving taskBusy
              (core d)) as [ok c1].
  cbn [fst snd] in Hframe, Hrej, Hacc.
  destruct ok; cbn [negb].
  - destruct (Hacc eq_refl) as (entry & Et & _ & Eq). clear Hacc Hrej.
    unfold processQueue. cbn [processing core].
    destruct (processing d) eqn:Hp.
    + cbn [fst snd core processing sleeping].
      split; [intros _; exact Hframe|]. split; [discriminate|].
      split; [reflexivity|]. split; [|discriminate].
      unfold settled. cbn [processing sleeping]. rewrite Hp. auto.
    + pose proof (drain_settled now (queue c1) c1) as Hset.
      destruct (drain random cfg now (queue c1) c1) as [out d2] eqn:Ed.
      cbn [fst snd] in *.
      split; [|split; [discriminate|split; [discriminate|split; [intros _; exact Hset|]]]].
      * (* nothing sent: the head has a positive delay *)
        intros Hout. subst out.
        destruct (queue c1) as [|item rest] eqn:Hq.
        -- cbn [drain] in Ed. injection Ed as <-. exact Hframe.
        -- pose proof (drain_head now item rest c1) as Hh.
           destruct (Qltb (0 # 1) (delayMs item)).
           ++ rewrite Hh in Ed. injection Ed as <-. exact Hframe.
           ++ destruct Hh as (o & Ho & _). rewrite Ed in Ho. discriminate.
      * intros _ Hempty _. exists entry. split; [exact Et|].
        rewrite Hempty in Eq.
        assert (Hq : queue c1 = [entry]) by (destruct (_ || _); exact Eq).
        rewrite Hq in Ed. cbn [drain] in Ed.
        destruct (Qltb (0 # 1) (delayMs entry)).
        -- injection Ed as <- <-. cbn. auto.
        -- injection Ed as <- <-. cbn [core processing sleeping setQueue queue].
           rewrite Et. unfold recordMessage.
           destruct (isAutonomousReason _); cbn; auto.
  - cbn [fst snd core processing sleeping].
    split; [intros _; exact Hframe|]. split; [reflexivity|]. split; [reflexivity|].
    split; [|discriminate].
    unfold settled. cbn [processing sleeping core].
    destruct (processing d); [auto|]. intros [Hq Hs]. split; [|exact Hs].
    rewrite (Hrej eq_refl). exact Hq.
Qed.

End Drain.

Lemma X5_urgent_after_in_flight_witness :
  snd (fst (enqueue (H := AsciiHost.host) Examples.quiet baseBehavior 2000 "second"
              "direct" None false false MoreExamples.inFlight)) = []
  /\ exists out,
       fst (wake (H := AsciiHost.host) Examples.quiet baseBehavior 3000
              (snd (enqueue (H := AsciiHost.host) Examples.quiet baseBehavior 2000 "second"
                      "direct" None false false MoreExamples.inFlight)))
       = "first" :: "second" :: out.
Proof.
  pose proof (X5_urgent_after_in_flight (H := AsciiHost.host) Examples.quiet baseBehavior
                2000 "second" "direct" None false false MoreExamples.inFlight
                (MoreExamples.waiting "first") 3000 eq_refl eq_refl) as P.
  cbv zeta in P. destruct P as (A & _ & _ & _ & C).
  split; [exact A|].
  destruct (C eq_refl) as (entry & Et & _ & D).
  change (isDirectOrMention "direct" || isEventReason "direct") with true in D.
  destruct D as (Hq & out & Ho & Hnext).
  assert (Hd : Qltb (0 # 1) (delayMs entry) = false).
  { vm_compute in Hq. injection Hq as <-. reflexivity. }
  rewrite Hd in Hnext. destruct Hnext as (out' & ->).
  exists out'. exact Ho.
Defined.

Lemma X6_enqueue_spends_when_sending_witness :
  snd (fst (enqueue (H := AsciiHost.host) Examples.quiet baseBehavior 2000 "hello"
              "direct" None false false MoreExamples.idle)) = ["hello"]
  /\ lastSpokeAt (core (snd (enqueue (H := AsciiHost.host) Examples.quiet baseBehavior
                                2000 "second" "direct" None false false
                                MoreExamples.inFlight)))
     = lastSpokeAt (core MoreExamples.inFlight).
Proof.
  pose proof (X6_enqueue_spends_when_sending (H := AsciiHost.host) Examples.quiet
                baseBehavior 2000 "hello" "direct" None false false MoreExamples.idle) as P.
  pose proof (X6_enqueue_spends_when_sending (H := AsciiHost.host) Examples.quiet
                baseBehavior 2000 "second" "direct" None false false
                MoreExamples.inFlight) as Q.
  cbv zeta in P, Q. destruct P as (_ & _ & _ & _ & E). destruct Q as (F & _ & G & _).
  split.
  - destruct (E eq_refl eq_refl eq_refl) as (entry & Et & Hq & Hd).
    destruct (Qltb (0 # 1) (delayMs entry)).
    + destruct Hd as (Hs & _). vm_compute in Hs. discriminate.
    + apply Hd.
  - apply (F (G eq_refl)).
Defined.

End DrainFacts.

Module PlannerMore.

Import Planner Examples SortFacts.

Section Social.
Context `{Host}.
Variable cfg : Behavior.

Lemma canAddressPlayer_true now muted n p :
  canAddressPlayer cfg now muted n p = true ->
  n <> "" /\ muted n = false
  /\ (orZ (perPlayerChatCooldown cfg) 0 <= 0
      \/ orZ (perPlayerChatCooldown cfg) 0 <= now - default 0 (lastSpokeAt p !! n)).
Proof.
  unfold canAddressPlayer.
  destruct (String.eqb_spec n ""); [discriminate|].
  destruct (muted n); [discriminate|].
  destruct (Z.leb_spec (orZ (perPlayerChatCooldown cfg) 0) 0); [auto|].
  intros E. apply Z.leb_le in E. auto.
Qed.

Lemma getSocialTarget_some now muted username players p tgt :
  getSocialTarget cfg now muted username players p = Some tgt ->
  tgt ∈ eligiblePlayers cfg now muted username players p
  /\ 0 < orZ (socialRoundInterval cfg) 0
  /\ orZ (socialRoundInterval cfg) 0 <= now - lastSocialChatAt p.
Proof.
  unfold getSocialTarget.
  destruct (Z.leb_spec (orZ (socialRoundInterval cfg) 0) 0); [discriminate|].
  destruct (Z.ltb_spec (now - lastSocialChatAt p) (orZ (socialRoundInterval cfg) 0));
    [discriminate|].
  destruct (_ =? _)%nat; [discriminate|].
  intros Hl. split; [|lia].
  apply (jsSort_elem (fun a b => inject_Z (localeCompare (name a) (name b)))).
  apply list_elem_of_lookup. eexists. exact Hl.
Qed.

Lemma eligible_elem now muted username players p q :
  q ∈ eligiblePlayers cfg now muted username players p ->
  q ∈ players /\ name q <> "" /\ name q <> username /\ hasEntity q = true
  /\ Qleb (distance q) (finiteOr (socialMaxDistance cfg) (32 # 1)) = true
  /\ canAddressPlayer cfg now muted (name q) p = true.
Proof.
  unfold eligiblePlayers. intros Hq.
  apply list_elem_of_filter in Hq as [Hc Hq].
  apply list_elem_of_filter in Hq as [[He Hd] Hq].
  apply list_elem_of_filter in Hq as [[Hn Hu] Hq].
  repeat split; assumption.
Qed.

(** X13.  Whoever [getSocialTarget] selects is one of the scanned players,
    has a name other than the bot's own, is in sight and within the social
    distance, is not muted and is past the per-player cooldown; and a
    selection is made only with the round interval configured and
    elapsed. *)
Theorem X13_social_target_eligible now muted username players p tgt :
  getSocialTarget cfg now muted username players p = Some tgt ->
  tgt ∈ players /\ name tgt <> "" /\ name tgt <> username
  /\ hasEntity tgt = true
  /\ Qleb (distance tgt) (finiteOr (socialMaxDistance cfg) (32 # 1)) = true
  /\ muted (name tgt) = false
  /\ (orZ (perPlayerChatCooldown cfg) 0 <= 0
      \/ orZ (perPlayerChatCooldown cfg) 0
         <= now - default 0 (lastSpokeAt p !! name tgt))
  /\ 0 < orZ (socialRoundInterval cfg) 0
  /\ orZ (socialRoundInterval cfg) 0 <= now - lastSocialChatAt p.
Proof.
  intros Hsel.
  destruct (getSocialTarget_some _ _ _ _ _ _ Hsel) as (Hel & Hpos & Hgap).
  destruct (eligible_elem _ _ _ _ _ _ Hel) as (A & B & C & D & E & F).
  destruct (canAddressPlayer_true _ _ _ _ F) as (_ & G & I).
  repeat split; assumption.
Qed.

(** X14.  The round interval gates the rotation: with the interval unset
    or not positive nobody is ever selected, and after a social turn has
    been marked at time [t] nobody is selected before the interval has
    passed, whoever is around. *)
Theorem X14_social_round_gate now t n muted username players p :
  (orZ (socialRoundInterval cfg) 0 <= 0 ->
   getSocialTarget cfg now muted username players p = None)
  /\ (now - t < orZ (socialRoundInterval cfg) 0 ->
      getSocialTarget cfg now muted username players
        (markPlayerSpoke t n (markSocialSpoke t p)) = None).
Proof.
  unfold getSocialTarget. split.
  - intros Hoff. destruct (Z.leb_spec (orZ (socialRoundInterval cfg) 0) 0); [reflexivity|lia].
  - intros Hsoon. destruct (_ <=? 0); [reflexivity|].
    assert (E : lastSocialChatAt (markPlayerSpoke t n (markSocialSpoke t p)) = t).
    { unfold markPlayerSpoke. destruct (String.eqb n ""); reflexivity. }
    rewrite E.
    destruct (Z.ltb_spec (now - t) (orZ (socialRoundInterval cfg) 0)); [reflexivity|lia].
Qed.

(** X15.  A player just addressed is left alone: after [markPlayerSpoke]
    for a name at time [t], that name cannot be addressed and is never the
    social target until the per-player cooldown has passed. *)
Theorem X15_per_player_cooldown now t n muted username players p :
  n <> "" ->
  t <= now ->
  now - t < orZ (perPlayerChatCooldown cfg) 0 ->
  canAddressPlayer cfg now muted n (markPlayerSpoke t n p) = false
  /\ forall tgt,
       getSocialTarget cfg now muted username players (markPlayerSpoke t n p) = Some tgt ->
       name tgt <> n.
Proof.
  intros Hn Hle Hsoon.
  assert (Hno : canAddressPlayer cfg now muted n (markPlayerSpoke t n p) = false).
  { unfold canAddressPlayer, markPlayerSpoke.
    destruct (String.eqb_spec n ""); [contradiction|].
    destruct (muted n); [reflexivity|].
    destruct (Z.leb_spec (orZ (perPlayerChatCooldown cfg) 0) 0).
    - lia.
    - cbn [lastSpokeAt]. rewrite lookup_insert_eq. cbn [default id].
      apply Z.leb_gt. lia. }
  split; [exact Hno|].
  intros tgt Hsel Heq.
  destruct (getSocialTarget_some _ _ _ _ _ _ Hsel) as (Hel & _).
  destruct (eligible_elem _ _ _ _ _ _ Hel) as (_ & _ & _ & _ & _ & F).
  rewrite Heq in F. congruence.
Qed.

(** X16.  The two consultation gates are rate limiters.  Once
    [shouldAutonomousDecision] has let a decision through at time [t] on a
    positive cooldown, it refuses every call made before the cooldown has
    passed and leaves its timestamp alone.  A forced [shouldQueryLLM]
    starts the query cooldown as well: an unforced call made before the
    cooldown has passed since the forced one is refused. *)
Theorem X16_gates_rate_limit t now p :
  (0 < orZ (autonomousDecisionCooldownMs cfg) 0 ->
   fst (shouldAutonomousDecision cfg t p) = true ->
   now - t < orZ (autonomousDecisionCooldownMs cfg) 0 ->
   shouldAutonomousDecision cfg now (snd (shouldAutonomousDecision cfg t p))
   = (false, snd (shouldAutonomousDecision cfg t p)))
  /\ (now - t < orZ (chatCooldown cfg) 0 -> t <= now ->
      shouldQueryLLM cfg now false (snd (shouldQueryLLM cfg t true p))
      = (false, snd (shouldQueryLLM cfg t true p))).
Proof.
  split.
  - intros Hpos Hok Hsoon. unfold shouldAutonomousDecision in *.
    destruct (Z.leb_spec (orZ (autonomousDecisionCooldownMs cfg) 0) 0); [lia|].
    destruct (t - lastAutonomousDecisionAt p <? _); [discriminate|].
    cbn [snd lastAutonomousDecisionAt].
    destruct (Z.ltb_spec (now - t) (orZ (autonomousDecisionCooldownMs cfg) 0));
      [reflexivity|lia].
  - intros Hsoon Hle. unfold shouldQueryLLM. cbn [snd setLastLLMAt lastLLMAt].
    destruct (Z.leb_spec (orZ (chatCooldown cfg) 0) 0); [lia|].
    destruct (Z.ltb_spec (now - t) (orZ (chatCooldown cfg) 0)); [reflexivity|lia].
Qed.

Lemma distance_cmp (x y : Player) :
  Qltb 0 (distance x - distance y) = true <-> (distance y < distance x)%Q.
Proof.
  unfold Qltb. rewrite negb_true_iff, <- not_true_iff_false, Qle_bool_iff.
  split; intros E.
  - apply Qnot_le_lt in E. lra.
  - apply Qlt_not_le. lra.
Qed.

(** The name an action gives for the follow target. *)
Lemma resolveFollowTarget_explicit muted args p :
  let v := jor (jor (jor (jor (getArg args "targetName") (getArg args "entity_name"))
                         (getArg args "entity")) (getArg args "name"))
               (getArg args "player") in
  truthy v && notPlaceholder v = true ->
  resolveFollowTarget muted args p = v.
Proof. intros v Hv. unfold resolveFollowTarget. fold v. rewrite Hv. reflexivity. Qed.

(** X17.  [resolveFollowTarget] returns the name the action gives unless
    that is missing or the placeholder "player".  The fallback is then the
    nearest player in sight who is not muted: nothing when there is no such
    player; otherwise the name of one of them whom none of them is closer
    than (nothing if that name is empty). *)
Theorem X17_resolve_follow_target muted args p :
  let v := jor (jor (jor (jor (getArg args "targetName") (getArg args "entity_name"))
                         (getArg args "entity")) (getArg args "name"))
               (getArg args "player") in
  (truthy v && notPlaceholder v = true -> resolveFollowTarget muted args p = v)
  /\ (truthy v && notPlaceholder v = false ->
      ((forall q, q ∈ lastScanPlayers p -> hasEntity q = true -> muted (name q) = true) ->
       resolveFollowTarget muted args p = JUndef)
      /\ (forall q0, q0 ∈ lastScanPlayers p -> hasEntity q0 = true ->
          muted (name q0) = false ->
          exists q,
            q ∈ lastScanPlayers p /\ hasEntity q = true /\ muted (name q) = false
            /\ (forall q', q' ∈ lastScanPlayers p -> hasEntity q' = true ->
                   muted (name q') = false -> (distance q <= distance q')%Q)
            /\ resolveFollowTarget muted args p
               = if String.eqb (name q) "" then JUndef else JStr (name q))).
Proof.
  intros v. split; [apply resolveFollowTarget_explicit|].
  intros Hv. unfold resolveFollowTarget. fold v. rewrite Hv.
  set (visible := filter (fun q => hasEntity q = true /\ muted (name q) = false)
                    (lastScanPlayers p)).
  split.
  - intros Hnone.
    assert (E : visible = []).
    { destruct visible as [|q l] eqn:Ev; [reflexivity|].
      assert (Hq : q ∈ visible) by (rewrite Ev; left).
      subst visible. apply list_elem_of_filter in Hq as [[He Hm] Hq].
      rewrite (Hnone q Hq He) in Hm. discriminate. }
    rewrite E. reflexivity.
  - intros q0 Hq0 He0 Hm0.
    assert (Hv0 : q0 ∈ visible) by (apply list_elem_of_filter; auto).
    apply (jsSort_elem (fun a b => (distance a - distance b)%Q)) in Hv0.
    destruct (jsSort (fun a b => (distance a - distance b)%Q) visible) as [|first rest] eqn:E;
      [inversion Hv0|].
    destruct (jsSort_head_min (fun a b => (distance a - distance b)%Q) distance
                distance_cmp visible first) as [Hin Hmin]; [rewrite E; reflexivity|].
    exists first. subst visible. apply list_elem_of_filter in Hin as [[He Hm] Hin].
    repeat split; try assumption.
    intros q' Hq' He' Hm'. apply Hmin. apply list_elem_of_filter. auto.
Qed.

End Social.

Lemma X13_social_target_eligible_witness :
  name (near "alice") <> "bot" /\ hasEntity (near "alice") = true.
Proof.
  destruct (X13_social_target_eligible (H := AsciiHost.host) baseBehavior 600000
              (fun _ => false) "bot" [near "carol"; near "alice"; near "bot"]
              (init autonomous) (near "alice") ltac:(vm_compute; reflexivity))
    as (_ & _ & A & B & _).
  split; [exact A | exact B].
Defined.

Lemma X14_social_round_gate_witness :
  getSocialTarget (H := AsciiHost.host) baseBehavior 700000 (fun _ => false) "bot"
    [near "carol"; near "alice"]
    (markPlayerSpoke 603000 "alice" (markSocialSpoke 603000 (init autonomous))) = None.
Proof.
  apply (proj2 (X14_social_round_gate (H := AsciiHost.host) baseBehavior 700000 603000
                  "alice" (fun _ => false) "bot" [near "carol"; near "alice"]
                  (init autonomous))).
  vm_compute. reflexivity.
Defined.

Lemma X15_per_player_cooldown_witness :
  canAddressPlayer baseBehavior 700000 (fun _ => false) "alice"
    (markPlayerSpoke 603000 "alice" (init autonomous)) = false.
Proof.
  apply (X15_per_player_cooldown (H := AsciiHost.host) baseBehavior 700000 603000 "alice"
           (fun _ => false) "bot" [] (init autonomous));
    first [ discriminate | vm_compute; discriminate | vm_compute; reflexivity ].
Defined.

Lemma X16_gates_rate_limit_witness :
  fst (shouldAutonomousDecision baseBehavior 45000
         (snd (shouldAutonomousDecision baseBehavior 30000 (init autonomous)))) = false
  /\ fst (shouldQueryLLM baseBehavior 32000 false
            (snd (shouldQueryLLM baseBehavior 30000 true (init autonomous)))) = false.
Proof.
  destruct (X16_gates_rate_limit baseBehavior 30000 45000 (init autonomous)) as [A _].
  destruct (X16_gates_rate_limit baseBehavior 30000 32000 (init autonomous)) as [_ B].
  split.
  - rewrite A; [reflexivity | vm_compute; reflexivity | vm_compute; reflexivity
               | vm_compute; reflexivity].
  - rewrite B; [reflexivity | vm_compute; reflexivity | vm_compute; discriminate].
Defined.

Lemma X17_resolve_follow_target_witness :
  resolveFollowTarget (H := AsciiHost.host) (fun _ => false) [("name", JStr "Player")]
    (updateLastScanPlayers [] (init autonomous)) = JUndef
  /\ resolveFollowTarget (H := AsciiHost.host) (fun _ => false) [("name", JStr "alice")]
       MoreExamples.scanned = JStr "alice"
  /\ resolveFollowTarget (H := AsciiHost.host) (fun _ => false) [("name", JStr "Player")]
       MoreExamples.scanned = JStr "carol".
Proof.
  split; [|split].
  - apply (proj1 (proj2 (X17_resolve_follow_target (H := AsciiHost.host) (fun _ => false)
                           [("name", JStr "Player")]
                           (updateLastScanPlayers [] (init autonomous)))
                   ltac:(vm_compute; reflexivity))).
    intros q Hq. inversion Hq.
  - apply (proj1 (X17_resolve_follow_target (H := AsciiHost.host) (fun _ => false)
                    [("name", JStr "alice")] MoreExamples.scanned)).
    vm_compute. reflexivity.
  - destruct (proj2 (proj2 (X17_resolve_follow_target (H := AsciiHost.host)
                              (fun _ => false) [("name", JStr "Player")]
                              MoreExamples.scanned)
                      ltac:(vm_compute; reflexivity))
                (MoreExamples.seenAt "dave" (9 # 1)) ltac:(left) eq_refl eq_refl)
      as (q & Hq & _ & _ & Hmin & ->).
    assert (Hc : (distance q <= 4 # 1)%Q).
    { apply (Hmin (MoreExamples.seenAt "carol" (4 # 1))); [right; left|reflexivity..]. }
    cbn in Hq. apply elem_of_cons in Hq as [->|Hq].
    + exfalso. revert Hc. vm_compute. intros Hc. apply Hc. reflexivity.
    + apply list_elem_of_singleton in Hq. subst q. reflexivity.
Defined.

End PlannerMore.

Module StepMore.

Import Step Examples Shapes.

Section WithEnv.
Context `{Host}.
Variable random : nat -> Q.
Variable cfg : Behavior.
Variable env : Env.

Lemma say_speech text reason player w s :
  speech w = Some s ->
  say random cfg env text reason player w
  = (Returned (fst (SpeechManager.enqueue random cfg (clock w) text reason player
                      (moving env (clock w)) (busy env (clock w)) s)),
     withSpeech
       (Some (snd (SpeechManager.enqueue random cfg (clock w) text reason player
                     (moving env (clock w)) (busy env (clock w)) s))) w).
Proof.
  intros Hs. unfold say, bind, getWorld. rewrite Hs.
  destruct (SpeechManager.enqueue _ _ _ _ _ _ _ _ s) as [sent s']. reflexivity.
Qed.

Lemma enqueue_keeps_queue now text reason player isMoving taskBusy s x :
  x ∈ SpeechManager.queue s ->
  x ∈ SpeechManager.queue
        (snd (SpeechManager.enqueue random cfg now text reason player isMoving taskBusy s)).
Proof.
  intros Hx.
  destruct (SpeechMore.enqueue_outcome random cfg now text reason player isMoving
              taskBusy s) as (_ & Hno & Hyes).
  destruct (fst (SpeechManager.enqueue random cfg now text reason player isMoving
                   taskBusy s)).
  - destruct (Hyes eq_refl) as (entry & _ & _ & ->).
    destruct (_ || _); [right; exact Hx|apply elem_of_app; left; exact Hx].
  - rewrite (Hno eq_refl). exact Hx.
Qed.

(** A plain skill is called; if it throws, the apology goes to the
    throttle and the dispatch goes on. *)
Lemma dispatch_plain options a w s :
  plainSkill env a = true -> speech w = Some s ->
  exists s',
    dispatch random cfg env options a w
    = (Returned tt,
       {| planner := planner w; speech := Some s'; director := director w;
          clock := clock w + latency env (callOf a);
          trace := (trace w ++ [callOf a])%list |})
    /\ forall x, x ∈ SpeechManager.queue s -> x ∈ SpeechManager.queue s'.
Proof.
  intros Hp Hs. unfold plainSkill in Hp.
  repeat (apply andb_true_iff in Hp as [Hp ?]).
  repeat match goal with
  | H : negb _ = true |- _ => apply negb_true_iff in H
  end.
  unfold dispatch.
  repeat match goal with
  | H : ?b = false |- context [if ?b then _ else _] => rewrite H
  | H : ?b = true |- context [if ?b then _ else _] => rewrite H
  end.
  unfold await. fold (callOf a).
  destruct (fails env (action_name a)).
  - set (w' := {| planner := planner w; speech := speech w; director := director w;
                  clock := clock w + latency env (callOf a);
                  trace := (trace w ++ [callOf a])%list |}).
    eexists. split.
    + unfold bind. rewrite (say_speech _ _ _ w' s Hs). reflexivity.
    + intros x Hx. apply enqueue_keeps_queue. exact Hx.
  - exists s. rewrite Hs. split; [reflexivity|auto].
Qed.

Lemma dispatchAll_plain options acts : forall w s,
  Forall (fun a => plainSkill env a = true) acts -> speech w = Some s ->
  exists s',
    dispatchAll random cfg env options acts w
    = (Returned tt,
       {| planner := planner w; speech := Some s'; director := director w;
          clock := clock w + foldr (fun a acc => latency env (callOf a) + acc) 0 acts;
          trace := (trace w ++ (callOf <$> acts))%list |})
    /\ forall x, x ∈ SpeechManager.queue s -> x ∈ SpeechManager.queue s'.
Proof.
  induction acts as [|a acts IH]; intros w s Hall Hs.
  - exists s. cbn. rewrite app_nil_r, Z.add_0_r, <- Hs. destruct w; auto.
  - apply Forall_cons in Hall as [Ha Hall].
    destruct (dispatch_plain options a w s Ha Hs) as (s1 & E & Hq1).
    cbn [dispatchAll]. unfold bind. rewrite E.
    match type of E with _ = (_, ?w1) =>
      destruct (IH w1 s1 Hall eq_refl) as (s2 & E2 & Hq2) end.
    exists s2. rewrite E2. cbn [trace planner director clock fmap list_fmap foldr].
    rewrite <- app_assoc, Z.add_assoc. split; [reflexivity|auto].
Qed.

(** *** No follow call *)

Lemma ret_nf {A} (a : A) : keepsNoFollow (ret a).
Proof. intros w Hw. exact Hw. Qed.

Lemma getWorld_nf : keepsNoFollow getWorld.
Proof. intros w Hw. exact Hw. Qed.

Lemma setPlanner_nf p : keepsNoFollow (setPlanner p).
Proof. intros w Hw. exact Hw. Qed.

Lemma setSpeech_nf s : keepsNoFollow (setSpeech s).
Proof. intros w Hw. exact Hw. Qed.

Lemma bind_nf {A B} (m : M A) (k : A -> M B) :
  keepsNoFollow m -> (forall a, keepsNoFollow (k a)) -> keepsNoFollow (bind m k).
Proof.
  intros Hm Hk w Hw. unfold bind. specialize (Hm w Hw).
  destruct (m w) as [[a|] w1]; cbn [snd] in *; [apply Hk; exact Hm|exact Hm].
Qed.

Lemma noFollow_snoc tr e :
  noFollow tr -> isFollowCall e = false -> noFollow (tr ++ [e])%list.
Proof.
  intros Ht He. apply Forall_app. split; [exact Ht|]. constructor; [exact He|constructor].
Qed.

Lemma emit_nf e : isFollowCall e = false -> keepsNoFollow (emit e).
Proof. intros He w Hw. cbn. apply noFollow_snoc; assumption. Qed.

Lemma await_nf e : isFollowCall e = false -> keepsNoFollow (await env e).
Proof.
  intros He w Hw. unfold await.
  destruct e; try destruct (fails env _);
    cbn [snd trace]; apply noFollow_snoc; assumption.
Qed.

Lemma say_nf text reason player : keepsNoFollow (say random cfg env text reason player).
Proof.
  unfold say. apply bind_nf; [apply getWorld_nf|]. intros w.
  destruct (speech w) as [s|].
  - destruct (SpeechManager.enqueue _ _ _ _ _ _ _ _ s) as [sent s'].
    apply bind_nf; [apply setSpeech_nf|]. intros _. apply ret_nf.
  - apply bind_nf; [apply emit_nf; reflexivity|]. intros _. apply ret_nf.
Qed.

Lemma dispatch_nf options a :
  notFalse (autonomousFollowEnabled cfg) = false ->
  SpeechManager.isDirectOrMention
    (if String.eqb (opt_reason options) "" then "autonomous" else opt_reason options)
  = false ->
  keepsNoFollow (dispatch random cfg env options a).
Proof.
  intros Hoff Hreason. unfold dispatch.
  destruct (String.eqb (action_name a) ""); [apply ret_nf|].
  destruct (String.eqb (action_name a) "start_mining_task").
  { destruct (negb _); [apply ret_nf|apply emit_nf; reflexivity]. }
  destruct (_ || _); [apply emit_nf; reflexivity|].
  destruct (_ || _); [apply emit_nf; reflexivity|].
  destruct (String.eqb (action_name a) "follow") eqn:Ef.
  { rewrite Hoff, Hreason. apply ret_nf. }
  destruct (hasSkill env (action_name a)); [|apply ret_nf].
  intros w Hw.
  assert (Hc : isFollowCall (Call (action_name a) (action_args a)) = false) by exact Ef.
  pose proof (await_nf _ Hc w Hw) as Ha.
  destruct (await env _ w) as [[[]|] w1]; cbn [snd] in *; [exact Ha|].
  apply (bind_nf _ _ (say_nf _ _ _) (fun _ => ret_nf tt)). exact Ha.
Qed.

Lemma dispatchAll_nf options acts :
  notFalse (autonomousFollowEnabled cfg) = false ->
  SpeechManager.isDirectOrMention
    (if String.eqb (opt_reason options) "" then "autonomous" else opt_reason options)
  = false ->
  keepsNoFollow (dispatchAll random cfg env options acts).
Proof.
  intros Hoff Hreason. induction acts as [|a acts IH]; [apply ret_nf|].
  cbn [dispatchAll]. apply bind_nf; [apply dispatch_nf; assumption|]. intros _. exact IH.
Qed.

Lemma executeDecision_nf decision options :
  notFalse (autonomousFollowEnabled cfg) = false ->
  SpeechManager.isDirectOrMention
    (if String.eqb (opt_reason options) "" then "autonomous" else opt_reason options)
  = false ->
  keepsNoFollow (executeDecision random cfg env decision options).
Proof.
  intros Hoff Hreason. unfold executeDecision. apply bind_nf.
  - destruct (chat decision); [|apply ret_nf].
    apply bind_nf; [apply say_nf|]. intros sent. apply ret_nf.
  - intros chatText. apply bind_nf; [apply dispatchAll_nf; assumption|].
    intros _. apply ret_nf.
Qed.

Lemma pickupDrops_nf isMoving : keepsNoFollow (pickupDrops cfg env isMoving).
Proof.
  unfold pickupDrops. apply bind_nf; [apply getWorld_nf|]. intros w.
  destruct (_ && _); [apply await_nf; reflexivity|apply ret_nf].
Qed.

Lemma choose_nf b e : SurvivalDirector.choose b = Some e -> isFollowCall e = false.
Proof.
  unfold SurvivalDirector.choose.
  destruct (SurvivalDirector.eatChoice b); [intros [= <-]; reflexivity|].
  cbv zeta.
  repeat match goal with
  | |- context [if ?c then _ else _] => destruct c; [intros [= <-]; reflexivity|]
  end.
  discriminate.
Qed.

Lemma director_step_nf now taskBusy b d :
  noFollow (snd (fst (SurvivalDirector.step cfg (fails env) (latency env) now taskBusy b d))).
Proof.
  unfold SurvivalDirector.step.
  destruct (SurvivalDirector.shouldStep cfg now d) as [ok d1].
  destruct (negb ok); [constructor|].
  destruct (negb _); [constructor|].
  destruct taskBusy; [constructor|].
  destruct (SurvivalDirector.choose b) as [e|] eqn:E; [|constructor].
  apply choose_nf in E.
  destruct (SurvivalDirector.throws _ e); cbn [fst snd];
    (constructor; [exact E|constructor]).
Qed.

Lemma survivalStep_nf : keepsNoFollow (survivalStep cfg env).
Proof.
  intros w Hw. unfold survivalStep.
  pose proof (director_step_nf (clock w) (busy env (clock w)) (bot env) (director w)) as Hd.
  destruct (SurvivalDirector.step _ _ _ _ _ _ _) as [[out evs] d'].
  cbn [fst snd trace] in *. apply Forall_app. split; assumption.
Qed.

Lemma onDecision_nf socialTarget soloMode isMoving decision :
  notFalse (autonomousFollowEnabled cfg) = false ->
  keepsNoFollow (onDecision random cfg env socialTarget soloMode isMoving decision).
Proof.
  intros Hoff. unfold onDecision.
  destruct (match socialTarget with Some _ => _ | None => _ end) as [decision2 usedSocial].
  apply bind_nf; [apply executeDecision_nf; [exact Hoff|reflexivity]|].
  intros chatText. apply bind_nf; [apply getWorld_nf|]. intros w3.
  apply bind_nf; [|intros _; apply pickupDrops_nf].
  destruct socialTarget, chatText; try apply ret_nf.
  destruct (_ && _); [apply setPlanner_nf|apply ret_nf].
Qed.

(** X18.  With [autonomousFollowEnabled] set to false, an autonomous step
    never calls the follow skill, whatever the backend answers. *)
Theorem X18_no_autonomous_follow reply w :
  notFalse (autonomousFollowEnabled cfg) = false ->
  noFollow (trace w) ->
  noFollow (trace (snd (autonomousStep random cfg env reply w))).
Proof.
  intros Hoff. revert w. change (keepsNoFollow (autonomousStep random cfg env reply)).
  unfold autonomousStep.
  apply bind_nf; [apply getWorld_nf|]. intros w0.
  apply bind_nf; [apply setPlanner_nf|]. intros _.
  apply bind_nf; [apply setSpeech_nf|]. intros _.
  apply bind_nf; [destruct (_ || _); [apply survivalStep_nf|apply ret_nf]|].
  intros acted. destruct (_ && _); [apply ret_nf|].
  apply bind_nf; [apply getWorld_nf|]. intros w1.
  destruct (Planner.shouldQueryLLM _ _ _ _) as [query p1].
  apply bind_nf; [apply setPlanner_nf|]. intros _.
  destruct (negb query).
  - destruct (negb _); [|apply ret_nf].
    apply bind_nf; [apply pickupDrops_nf|]. intros _.
    apply bind_nf; [apply getWorld_nf|]. intros w2.
    destruct (_ && _); [apply await_nf; reflexivity|apply ret_nf].
  - destruct (Planner.shouldAutonomousDecision _ _ _) as [decide' p2].
    apply bind_nf; [apply setPlanner_nf|]. intros _.
    destruct (negb decide'); [apply ret_nf|].
    apply bind_nf; [apply await_nf; reflexivity|]. intros _.
    destruct reply; [apply onDecision_nf; exact Hoff|apply ret_nf].
Qed.

(** X19.  A skill that throws does not stop the dispatch: with a throttle
    attached, a list of actions that all name existing skills (no task
    start, no follow) is called in full and in order, the dispatch returns
    and the planner is left as it was, whichever of the skills fail. *)
Theorem X19_failure_does_not_stop_dispatch options acts w s :
  Forall (fun a => plainSkill env a = true) acts ->
  speech w = Some s ->
  fst (dispatchAll random cfg env options acts w) = Returned tt
  /\ trace (snd (dispatchAll random cfg env options acts w))
     = (trace w ++ (callOf <$> acts))%list
  /\ planner (snd (dispatchAll random cfg env options acts w)) = planner w.
Proof.
  intros Hall Hs. destruct (dispatchAll_plain options acts w s Hall Hs) as (s' & -> & _).
  auto.
Qed.

(** X20.  Progression before conversation: when the director is run (the
    bot is alone with autonomous survival not switched off, or the mode is
    survival) and it acts, the step ends there.  The trace grows by the
    director's events only, so the backend is not asked, and the planner
    changes by the refreshed scan only, so no cooldown is consumed. *)
Theorem X20_director_action_ends_step reply w evs d' :
  isSurvival (planner w) = true
  \/ (nearbyPlayers cfg env = [] /\ notFalse (autonomousSurvivalEnabled cfg) = true) ->
  SurvivalDirector.step cfg (fails env) (latency env) (clock w)
    (busy env (clock w)) (bot env) (director w) = (Returned true, evs, d') ->
  let r := autonomousStep random cfg env reply w in
  fst r = Returned tt
  /\ trace (snd r) = (trace w ++ evs)%list
  /\ director (snd r) = d'
  /\ planner (snd r) = Planner.updateLastScanPlayers (nearbyPlayers cfg env) (planner w).
Proof.
  intros Hrun Hstep r. subst r. unfold autonomousStep.
  rewrite (StepFacts.bind_returned getWorld _ w w w eq_refl). cbv beta.
  rewrite (StepFacts.bind_returned (setPlanner _) _ w tt _ eq_refl).
  rewrite (StepFacts.bind_returned (setSpeech _) _ _ tt _ eq_refl).
  assert (Hgo : isSurvival (planner w)
                || negb (0 <? length (nearbyPlayers cfg env))%nat
                   && notFalse (autonomousSurvivalEnabled cfg) = true).
  { destruct Hrun as [->|[-> ->]]; [reflexivity|]. apply orb_true_r. }
  assert (Hend : negb (0 <? length (nearbyPlayers cfg env))%nat
                 || isSurvival (planner w) = true).
  { destruct Hrun as [->|[-> _]]; [apply orb_true_r|reflexivity]. }
  rewrite Hgo.
  set (w1 := withSpeech _ (withPlanner _ w)).
  assert (E : survivalStep cfg env w1
              = (Returned true,
                 {| planner := planner w1; speech := speech w1; director := d';
                    clock := clock w + foldr (fun e acc =>
                               SurvivalDirector.elapsed (latency env) e + acc) 0 evs;
                    trace := (trace w ++ evs)%list |})).
  { unfold survivalStep. subst w1.
    cbn [withSpeech withPlanner clock director planner speech trace].
    rewrite Hstep. reflexivity. }
  rewrite (StepFacts.bind_returned _ _ w1 true _ E).
  rewrite Hend. cbn. auto.
Qed.

(** X21.  Idle fallback: alone, with the director not acting, the query
    cooldown still running, the bot standing and no task busy, the step
    picks up nearby drops (when that is enabled and there are some) and
    then wanders; the backend is not asked and the query timestamp stays. *)
Theorem X21_idle_wander reply w :
  nearbyPlayers cfg env = [] ->
  (isSurvival (planner w) || notFalse (autonomousSurvivalEnabled cfg) = true ->
   fst (fst (SurvivalDirector.step cfg (fails env) (latency env) (clock w)
               (busy env (clock w)) (bot env) (director w))) = Returned false) ->
  0 < orZ (chatCooldown cfg) 0 ->
  clock w - Planner.lastLLMAt (planner w) < orZ (chatCooldown cfg) 0 ->
  moving env (clock w) = false ->
  (forall t, busy env t = false) ->
  fails env "pickup_item" = false ->
  let r := autonomousStep random cfg env reply w in
  let pickup := Call "pickup_item" [("radius", JNum (orZ (scanRadiusDrops cfg) 18))] in
  let wander := Call "wander" [("range", JNum (finiteOr (wanderRange cfg) 24))] in
  fst r = (if fails env "wander" then Threw else Returned tt)
  /\ trace (snd r)
     = (trace w ++ (if notFalse (autoPickupDrops cfg) && hasDrops env then [pickup] else [])
        ++ [wander])%list
  /\ Planner.lastLLMAt (planner (snd r)) = Planner.lastLLMAt (planner w).
Proof.
  intros Hsolo Hidle Hon Hcool Hstill Hfree Hpick r pickup wander. subst r.
  unfold autonomousStep. rewrite Hsolo. cbn [length Nat.ltb Nat.leb negb].
  rewrite (StepFacts.bind_returned getWorld _ w w w eq_refl). cbv beta.
  rewrite (StepFacts.bind_returned (setPlanner _) _ w tt _ eq_refl).
  rewrite (StepFacts.bind_returned (setSpeech _) _ _ tt _ eq_refl).
  set (w1 := withSpeech _ (withPlanner _ w)).
  rewrite Hstill. cbn [negb andb orb].
  assert (Hacted : exists w2,
    (if isSurvival (planner w) || notFalse (autonomousSurvivalEnabled cfg)
     then survivalStep cfg env else ret false) w1 = (Returned false, w2)
    /\ planner w2 = planner w1 /\ clock w2 = clock w /\ trace w2 = trace w).
  { destruct (isSurvival (planner w) || notFalse (autonomousSurvivalEnabled cfg)) eqn:Erun.
    - specialize (Hidle eq_refl).
      pose proof (StepFacts.step_idle cfg env (clock w) (busy env (clock w)) (bot env)
                    (director w) Hidle) as Hnil.
      unfold survivalStep. subst w1.
      cbn [withSpeech withPlanner clock director planner speech trace].
      destruct (SurvivalDirector.step _ _ _ _ _ _ _) as [[out evs] d'].
      cbn [fst snd] in Hidle, Hnil. subst out evs.
      eexists. split; [reflexivity|]. cbn. rewrite app_nil_r. repeat split; lia.
    - exists w1. repeat split. }
  destruct Hacted as (w2 & E2 & Hp2 & Hc2 & Ht2).
  rewrite (StepFacts.bind_returned _ _ w1 false w2 E2). cbn [andb].
  rewrite (StepFacts.bind_returned getWorld _ w2 w2 w2 eq_refl). cbv beta.
  unfold Planner.shouldQueryLLM. rewrite Hp2, Hc2.
  subst w1. cbn [withSpeech withPlanner planner Planner.updateLastScanPlayers
                 Planner.lastLLMAt].
  destruct (Z.leb_spec (orZ (chatCooldown cfg) 0) 0) as [Hle|Hpos].
  { exfalso. lia. }
  destruct (Z.ltb_spec (clock w - Planner.lastLLMAt (planner w)) (orZ (chatCooldown cfg) 0));
    [|lia].
  rewrite (StepFacts.bind_returned (setPlanner _) _ w2 tt _ eq_refl).
  cbn [negb].
  unfold pickupDrops, bind, getWorld, await, ret.
  rewrite !Hfree. cbn [negb]. rewrite !andb_true_r.
  subst pickup wander.
  destruct (notFalse (autoPickupDrops cfg) && hasDrops env);
    rewrite ?Hpick, ?Hfree; cbn [negb];
    destruct (fails env "wander");
    cbn [fst snd trace planner withPlanner Planner.updateLastScanPlayers
         Planner.lastLLMAt];
    rewrite Ht2, <- ?app_assoc; auto.
Qed.

End WithEnv.

Lemma X18_no_autonomous_follow_witness :
  noFollow (trace (snd (autonomousStep (H := AsciiHost.host) quiet baseBehavior
                          (calm [near "alice"]) (Some MoreExamples.followMe)
                          (world 100000 (spoken [] []))))).
Proof.
  apply (X18_no_autonomous_follow (H := AsciiHost.host) quiet baseBehavior
           (calm [near "alice"]) (Some MoreExamples.followMe)
           (world 100000 (spoken [] []))); [reflexivity|constructor].
Defined.

Lemma X19_failure_does_not_stop_dispatch_witness :
  trace (snd (dispatchAll (H := AsciiHost.host) quiet baseBehavior MoreExamples.flaky
                {| opt_reason := "direct"; opt_player := Some "alice" |}
                MoreExamples.digThenJump (world 0 (spoken [] []))))
  = (callOf <$> MoreExamples.digThenJump).
Proof.
  refine (proj1 (proj2 (X19_failure_does_not_stop_dispatch (H := AsciiHost.host) quiet
            baseBehavior MoreExamples.flaky
            {| opt_reason := "direct"; opt_player := Some "alice" |}
            MoreExamples.digThenJump (world 0 (spoken [] [])) (spoken [] []) _ _)));
    [repeat constructor|reflexivity].
Defined.

Lemma X20_director_action_ends_step_witness :
  trace (snd (autonomousStep (H := AsciiHost.host) quiet baseBehavior (calm [])
                (Some greeting) (world 20000 (spoken [] []))))
  = [StartTask (TGatherWood (JNum 24) JUndef)].
Proof.
  refine (proj1 (proj2 (X20_director_action_ends_step (H := AsciiHost.host) quiet
            baseBehavior (calm []) (Some greeting) (world 20000 (spoken [] []))
            [StartTask (TGatherWood (JNum 24) JUndef)]
            {| SurvivalDirector.lastStepAt := 20000;
               SurvivalDirector.lastActionAt := 20000 |} _ _)));
    [right; split; reflexivity|vm_compute; reflexivity].
Defined.

Lemma X21_idle_wander_witness :
  trace (snd (autonomousStep (H := AsciiHost.host) quiet baseBehavior (calm [])
                (Some greeting) (world 3000 (spoken [] []))))
  = [Call "wander" [("range", JNum 28)]].
Proof.
  refine (proj1 (proj2 (X21_idle_wander (H := AsciiHost.host) quiet baseBehavior (calm [])
            (Some greeting) (world 3000 (spoken [] [])) _ _ _ _ _ _ _)));
    try reflexivity; try (cbn; lia); intros; reflexivity.
Defined.

End StepMore.

Module SoloFacts.

Import Step Shapes Examples.

Section WithEnv.
Context `{Host}.
Variable random : nat -> Q.
Variable cfg : Behavior.
Variable env : Env.

(** What a dispatch of plain skills may add to the queue of the throttle:
    the apologies for the skills that threw. *)
Lemma dispatch_plain_queue options a w s :
  plainSkill env a = true -> speech w = Some s ->
  exists s',
    dispatch random cfg env options a w
    = (Returned tt,
       {| planner := planner w; speech := Some s'; director := director w;
          clock := clock w + latency env (callOf a);
          trace := (trace w ++ [callOf a])%list |})
    /\ forall x, x ∈ SpeechManager.queue s' ->
         x ∈ SpeechManager.queue s
         \/ (fails env (action_name a) = true
             /\ SpeechManager.text x = apology (action_name a)).
Proof.
  intros Hp Hs. unfold plainSkill in Hp.
  repeat (apply andb_true_iff in Hp as [Hp ?]).
  repeat match goal with
  | H : negb _ = true |- _ => apply negb_true_iff in H
  end.
  unfold dispatch.
  repeat match goal with
  | H : ?b = false |- context [if ?b then _ else _] => rewrite H
  | H : ?b = true |- context [if ?b then _ else _] => rewrite H
  end.
  unfold await. fold (callOf a).
  destruct (fails env (action_name a)).
  - set (w' := {| planner := planner w; speech := speech w; director := director w;
                  clock := clock w + latency env (callOf a);
                  trace := (trace w ++ [callOf a])%list |}).
    eexists. split.
    + unfold bind. rewrite (StepMore.say_speech random cfg env _ _ _ w' s Hs). reflexivity.
    + intros x Hx.
      set (e := SpeechManager.enqueue _ _ _ _ _ _ _ _ s) in Hx.
      destruct (SpeechMore.enqueue_outcome random cfg (clock w')
                  (apology (action_name a))
                  (if String.eqb (opt_reason options) "" then "event"
                   else opt_reason options)
                  (opt_player options) (moving env (clock w')) (busy env (clock w')) s)
        as (_ & Hno & Hyes).
      fold e in Hno, Hyes. destruct (fst e).
      * destruct (Hyes eq_refl) as (entry & Et & _ & Eq). rewrite Eq in Hx.
        match type of Hx with _ ∈ (if ?b then _ else _) => destruct b end.
        -- apply elem_of_cons in Hx as [->|Hx]; [right; auto|left; exact Hx].
        -- apply elem_of_app in Hx as [Hx|Hx]; [left; exact Hx|].
           apply list_elem_of_singleton in Hx. subst x. right. auto.
      * rewrite (Hno eq_refl) in Hx. left. exact Hx.
  - exists s. rewrite Hs. split; [reflexivity|auto].
Qed.

Lemma dispatchAll_plain_queue options acts : forall w s,
  Forall (fun a => plainSkill env a = true) acts -> speech w = Some s ->
  exists s' w',
    dispatchAll random cfg env options acts w = (Returned tt, w')
    /\ planner w' = planner w /\ speech w' = Some s'
    /\ trace w' = (trace w ++ (callOf <$> acts))%list
    /\ forall x, x ∈ SpeechManager.queue s' ->
         x ∈ SpeechManager.queue s
         \/ exists a, a ∈ acts /\ fails env (action_name a) = true
                      /\ SpeechManager.text x = apology (action_name a).
Proof.
  induction acts as [|a acts IH]; intros w s Hall Hs.
  - exists s, w. cbn. rewrite app_nil_r. repeat split; auto.
  - apply Forall_cons in Hall as [Ha Hall].
    destruct (dispatch_plain_queue options a w s Ha Hs) as (s1 & E & Hq1).
    cbn [dispatchAll]. unfold bind. rewrite E.
    match type of E with _ = (_, ?w1) =>
      destruct (IH w1 s1 Hall eq_refl) as (s2 & w2 & E2 & Hp2 & Hs2 & Ht2 & Hq2) end.
    exists s2, w2. rewrite E2. split; [reflexivity|].
    cbn [planner trace] in Hp2, Ht2.
    split; [exact Hp2|]. split; [exact Hs2|].
    split; [rewrite Ht2, <- app_assoc; reflexivity|].
    intros x Hx. destruct (Hq2 x Hx) as [Hx1|(a' & Ha' & Hf & Ht)].
    + destruct (Hq1 x Hx1) as [Hx0|[Hf Ht]]; [left; exact Hx0|].
      right. exists a. split; [left|auto].
    + right. exists a'. split; [right; exact Ha'|auto].
Qed.

(** C9.  With no player within the social distance the chat of the
    backend's decision plays no part: the step is the same as on the
    decision with its chat set to null.  And when such a step gets as far
    as the backend (the director does not act and both gates pass), the
    backend is asked and the actions of the decision are dispatched, while
    the chat text goes neither to the throttle nor to the chat of the bot.
    For a decision whose actions name existing skills (no task start, no
    follow), with a throttle attached: the step ends with the pick-up of
    drops in a world whose trace has grown by the request to the backend
    and the calls of the actions, in order, and in which the queue of the
    throttle holds nothing new except the apologies for skills that
    threw. *)
Theorem C9_solo_chat_discarded d w s :
  nearbyPlayers cfg env = [] ->
  autonomousStep random cfg env (Some d) w
  = autonomousStep random cfg env (Some (withoutChat d)) w
  /\ ((isSurvival (planner w) || notFalse (autonomousSurvivalEnabled cfg) = true ->
       fst (fst (SurvivalDirector.step cfg (fails env) (latency env) (clock w)
                   (busy env (clock w)) (bot env) (director w))) = Returned false) ->
      orZ (chatCooldown cfg) 0 <= 0
      \/ orZ (chatCooldown cfg) 0 <= clock w - Planner.lastLLMAt (planner w) ->
      orZ (autonomousDecisionCooldownMs cfg) 0 <= 0
      \/ orZ (autonomousDecisionCooldownMs cfg) 0
         <= clock w - Planner.lastAutonomousDecisionAt (planner w) ->
      speech w = Some s ->
      Forall (fun a => plainSkill env a = true) (actions d) ->
      exists w' s',
        autonomousStep random cfg env (Some d) w
        = pickupDrops cfg env (moving env (clock w)) w'
        /\ trace w'
           = (trace w ++ AskLLM (Planner.modeName (Planner.mode (planner w))) None
                :: (callOf <$> actions d))%list
        /\ speech w' = Some s'
        /\ (forall x, x ∈ SpeechManager.queue s' ->
              x ∈ SpeechManager.queue s
              \/ exists a, a ∈ actions d /\ fails env (action_name a) = true
                           /\ SpeechManager.text x = apology (action_name a))).
Proof.
  intros Hsolo. split.
  { unfold autonomousStep. rewrite Hsolo. reflexivity. }
  intros Hidle Hquery Hdecide Hs Hplain.
  unfold autonomousStep. rewrite Hsolo. cbn [length Nat.ltb Nat.leb negb].
  rewrite (StepFacts.bind_returned getWorld _ w w w eq_refl). cbv beta.
  rewrite (StepFacts.bind_returned (setPlanner _) _ w tt _ eq_refl).
  rewrite (StepFacts.bind_returned (setSpeech _) _ _ tt _ eq_refl).
  rewrite Hs. cbn [fmap option_fmap option_map].
  set (s0 := SpeechManager.updateContext cfg (clock w) (isDay env (clock w)) (Some []) s).
  set (w1 := withSpeech (Some s0) (withPlanner _ w)).
  cbn [andb orb].
  assert (Hacted : exists w2,
    (if isSurvival (planner w) || notFalse (autonomousSurvivalEnabled cfg)
     then survivalStep cfg env else ret false) w1 = (Returned false, w2)
    /\ planner w2 = planner w1 /\ speech w2 = Some s0
    /\ clock w2 = clock w /\ trace w2 = trace w).
  { destruct (isSurvival (planner w) || notFalse (autonomousSurvivalEnabled cfg)) eqn:Erun.
    - specialize (Hidle eq_refl).
      pose proof (StepFacts.step_idle cfg env (clock w) (busy env (clock w)) (bot env)
                    (director w) Hidle) as Hnil.
      unfold survivalStep. subst w1.
      cbn [withSpeech withPlanner clock director planner speech trace].
      destruct (SurvivalDirector.step _ _ _ _ _ _ _) as [[out evs] d'].
      cbn [fst snd] in Hidle, Hnil. subst out evs.
      eexists. split; [reflexivity|]. cbn. rewrite app_nil_r. repeat split; lia.
    - exists w1. repeat split. }
  destruct Hacted as (w2 & E2 & Hp2 & Hs2 & Hc2 & Ht2).
  rewrite (StepFacts.bind_returned _ _ w1 false w2 E2). cbn [andb].
  rewrite (StepFacts.bind_returned getWorld _ w2 w2 w2 eq_refl). cbv beta.
  rewrite Hp2, Hc2.
  subst w1. cbn [withSpeech withPlanner planner].
  set (p0 := Planner.updateLastScanPlayers [] (planner w)).
  assert (Hq : exists p1, Planner.shouldQueryLLM cfg (clock w) false p0 = (true, p1)
                          /\ Planner.mode p1 = Planner.mode (planner w)
                          /\ Planner.lastAutonomousDecisionAt p1
                             = Planner.lastAutonomousDecisionAt (planner w)).
  { unfold Planner.shouldQueryLLM. subst p0. cbn [Planner.updateLastScanPlayers
      Planner.lastLLMAt].
    destruct (Z.leb_spec (orZ (chatCooldown cfg) 0) 0); [eexists; repeat split|].
    destruct (Z.ltb_spec (clock w - Planner.lastLLMAt (planner w))
                (orZ (chatCooldown cfg) 0)); [lia|].
    eexists. repeat split. }
  destruct Hq as (p1 & Eq & Hm1 & Hd1). rewrite Eq.
  rewrite (StepFacts.bind_returned (setPlanner _) _ w2 tt _ eq_refl). cbn [negb].
  assert (Hd : exists p2, Planner.shouldAutonomousDecision cfg (clock w) p1 = (true, p2)
                          /\ Planner.mode p2 = Planner.mode (planner w)).
  { unfold Planner.shouldAutonomousDecision. rewrite Hd1.
    destruct (Z.leb_spec (orZ (autonomousDecisionCooldownMs cfg) 0) 0);
      [eexists; split; [reflexivity|exact Hm1]|].
    destruct (Z.ltb_spec (clock w - Planner.lastAutonomousDecisionAt (planner w))
                (orZ (autonomousDecisionCooldownMs cfg) 0)); [lia|].
    eexists. split; [reflexivity|exact Hm1]. }
  destruct Hd as (p2 & Ed & Hm2). rewrite Ed.
  rewrite (StepFacts.bind_returned (setPlanner _) _ _ tt _ eq_refl). cbn [negb].
  set (w3 := withPlanner p2 (withPlanner p1 w2)).
  rewrite Hm2.
  set (ask := AskLLM (Planner.modeName (Planner.mode (planner w))) None).
  assert (Eask : await env ask w3
                 = (Returned tt,
                    {| planner := planner w3; speech := speech w3; director := director w3;
                       clock := clock w3 + latency env ask;
                       trace := (trace w3 ++ [ask])%list |})) by reflexivity.
  change (name <$> (None : option Player)) with (None : option string).
  rewrite (StepFacts.bind_returned _ _ w3 tt _ Eask).
  set (w4 := Build_World _ _ _ _ _).
  rewrite (StepFacts.onDecision_solo random cfg env None (moving env (clock w)) d w4).
  destruct (dispatchAll_plain_queue
              {| opt_reason := "autonomous"; opt_player := name <$> None |} (actions d)
              w4 s0 Hplain) as (s' & w' & E & _ & Hs' & Ht' & Hq').
  { subst w4 w3. cbn [speech withPlanner]. exact Hs2. }
  unfold bind at 1. rewrite E.
  exists w', s'. split; [reflexivity|]. split; [|split; [exact Hs'|]].
  - rewrite Ht'. subst w4 w3. cbn [trace withPlanner]. rewrite Ht2, <- app_assoc.
    reflexivity.
  - intros x Hx. destruct (Hq' x Hx) as [Hx0|Hx0]; [left|right; exact Hx0].
    subst s0. unfold SpeechManager.updateContext, SpeechManager.recoverEnergy in Hx0.
    destruct (_ <? _) in Hx0; destruct (isDay env (clock w)) as [[]|] in Hx0; exact Hx0.
Qed.

End WithEnv.

Lemma C9_solo_chat_discarded_witness :
  trace (snd (autonomousStep (H := AsciiHost.host) quiet baseBehavior (calm [])
                (Some greeting) MoreExamples.resting))
  = [AskLLM "autonomous" None; Call "wander" []]
  /\ exists s', speech (snd (autonomousStep (H := AsciiHost.host) quiet baseBehavior
                               (calm []) (Some greeting) MoreExamples.resting)) = Some s'
                /\ SpeechManager.queue s' = [].
Proof.
  destruct (C9_solo_chat_discarded (H := AsciiHost.host) quiet baseBehavior (calm [])
              greeting MoreExamples.resting (spoken [] []) eq_refl) as [_ B].
  destruct B as (w' & s' & Er & Ht & Hs & Hq).
  - intros _. reflexivity.
  - right. cbn. lia.
  - right. cbn. lia.
  - reflexivity.
  - repeat constructor.
  - rewrite Er. unfold pickupDrops, bind, getWorld.
    cbn [calm hasDrops andb snd ret]. rewrite andb_false_r. cbn [andb snd ret].
    split; [rewrite Ht; reflexivity|].
    exists s'. split; [exact Hs|].
    destruct (SpeechManager.queue s') as [|x q] eqn:Eqq; [reflexivity|].
    exfalso. destruct (Hq x) as [Hx|(a & Ha & Hf & _)].
    + left.
    + inversion Hx.
    + cbn in Hf. discriminate.
Defined.

End SoloFacts.

Module PulseFacts.

Import SpeechManager SpeechPulse Examples.

Section Pulse.
Context `{Host}.
Variable random : nat -> Q.
Variable cfg : Behavior.

Lemma shouldAllow_pulse now reason text player s :
  lastPulseAt (snd (shouldAllow random cfg now reason text player s)) = lastPulseAt s.
Proof.
  unfold shouldAllow, isDuplicate, canBurst, drawRandom.
  repeat match goal with
  | |- context [if ?b then _ else _] => destruct b
  | |- context [match ?c with Some _ => _ | None => _ end] => destruct c
  | |- context [match ?c with focused => _ | _ => _ end] => destruct c
  end; reflexivity.
Qed.

Lemma enqueue_pulse now text reason player isMoving taskBusy s :
  lastPulseAt (snd (enqueue random cfg now text reason player isMoving taskBusy s))
  = lastPulseAt s.
Proof.
  unfold enqueue.
  set (reason' := if String.eqb reason "" then "autonomous" else reason).
  set (player' := match player with Some "" => None | _ => player end).
  pose proof (shouldAllow_pulse now reason' text player' s) as Ha.
  destruct (shouldAllow random cfg now reason' text player' s) as [ok s1].
  cbn [snd] in Ha. destruct ok; cbn [negb]; [|exact Ha].
  unfold getDelayMs, drawRandom.
  repeat match goal with
  | |- context [if ?b then _ else _] => destruct b
  end; exact Ha.
Qed.

Lemma recordMessage_pulse now text player reason s :
  lastPulseAt (recordMessage random cfg now text player reason s) = lastPulseAt s.
Proof.
  unfold recordMessage. destruct (isAutonomousReason reason); reflexivity.
Qed.

Lemma applyOp_pulse s op :
  lastPulseAt (Runs.applyOp random cfg s op) = lastPulseAt s.
Proof.
  destruct op as [now isDay players|now text reason player isMoving taskBusy|now
                 |now text player reason]; cbn [Runs.applyOp].
  - unfold updateContext, recoverEnergy.
    destruct (_ <? _); reflexivity.
  - apply enqueue_pulse.
  - unfold emitNext. destruct (queue s) as [|item rest]; [reflexivity|].
    cbn [snd]. rewrite recordMessage_pulse. reflexivity.
  - apply recordMessage_pulse.
Qed.

Lemma runSpeech_pulse ops : forall s,
  lastPulseAt (Runs.runSpeech random cfg ops s) = lastPulseAt s.
Proof.
  induction ops as [|op ops IH]; intros s; [reflexivity|].
  cbn [Runs.runSpeech fold_left]. unfold Runs.runSpeech in IH.
  rewrite IH. apply applyOp_pulse.
Qed.

(** X22.  Two pulses that [shouldPulse] grants are at least the pulse
    interval apart, whatever is enqueued, emitted or recorded in between;
    and after an emission with an autonomous-class reason no pulse is
    granted before the minimum autonomous interval (at least ten seconds)
    has passed. *)
Theorem X22_pulse_spacing rest t1 t2 s ops now text player reason :
  (fst (shouldPulse rest t1 s) = true ->
   fst (shouldPulse rest t2
          (Runs.runSpeech random cfg ops (snd (shouldPulse rest t1 s)))) = true ->
   orZ (speechPulseIntervalMs rest) 60000 <= t2 - t1)
  /\ ((forall n, 0 <= random n)%Q ->
      isAutonomousReason reason = true ->
      (inject_Z t2
       < inject_Z now
         + Qmax (10000 # 1) (finiteOr (speechAutonomousMinIntervalMs cfg) (240000 # 1)))%Q ->
      shouldPulse rest t2 (recordMessage random cfg now text player reason s)
      = (false, recordMessage random cfg now text player reason s)).
Proof.
  split.
  - intros H1 H2.
    assert (Hs1 : lastPulseAt (snd (shouldPulse rest t1 s)) = t1).
    { unfold shouldPulse in *. destruct (Qltb _ _); [discriminate|].
      cbv zeta in *. destruct (_ <? _); [discriminate|]. reflexivity. }
    set (s2 := Runs.runSpeech random cfg ops _) in *.
    assert (Hs2 : lastPulseAt s2 = t1) by (subst s2; rewrite runSpeech_pulse; exact Hs1).
    unfold shouldPulse in H2. destruct (Qltb _ _); [discriminate|].
    cbv zeta in H2. rewrite Hs2 in H2.
    destruct (Z.ltb_spec (t2 - t1) (orZ (speechPulseIntervalMs rest) 60000)); [discriminate|lia].
  - intros Hrnd Hr Hsoon.
    set (s1 := recordMessage random cfg now text player reason s).
    assert (Hnext : (inject_Z t2 < nextAutonomousAt s1)%Q).
    { subst s1. unfold recordMessage. rewrite Hr. cbn [nextAutonomousAt].
      pose proof (SpeechMore.interval_low cfg (random (draws s)) (Hrnd _)) as Hl.
      set (lo := Qmax _ _) in *. set (iv := getAutonomousIntervalMs _ _) in *.
      apply Qlt_le_trans with (inject_Z now + lo)%Q; [exact Hsoon|].
      apply Qplus_le_r. exact Hl. }
    unfold shouldPulse, Qltb.
    destruct (Qle_bool (nextAutonomousAt s1) (inject_Z t2)) eqn:E; [|reflexivity].
    apply Qle_bool_iff in E. exfalso. apply (Qlt_not_le _ _ Hnext E).
Qed.

End Pulse.

Lemma X22_pulse_spacing_witness :
  orZ (speechPulseIntervalMs baseRest) 60000 <= 130000 - 70000
  /\ shouldPulse baseRest 130000
       (recordMessage (H := AsciiHost.host) quiet baseBehavior 0 "hi" None "pulse"
          (spoken [] []))
     = (false,
        recordMessage (H := AsciiHost.host) quiet baseBehavior 0 "hi" None "pulse"
          (spoken [] [])).
Proof.
  pose proof (X22_pulse_spacing (H := AsciiHost.host) quiet baseBehavior baseRest
                70000 130000 (spoken [] [])
                [Runs.OpRecord 80000 "hello" None "event"] 0 "hi" None "pulse")
    as [A B].
  split.
  - apply A; reflexivity.
  - apply B; [intros n; discriminate|reflexivity|reflexivity].
Defined.

End PulseFacts.

Module MoodFacts.

Import SurvivalDirector Mood.

(** X23.  The planner's mood and the observer's mood label are the same
    function of health and food, and they fit the director's eating rule:
    an irritated bot is one for which the eating branch is open, so it
    eats what [getFoodItem] finds, and a bot in a good mood never eats. *)
Theorem X23_mood_agrees bot :
  fst (fst (getMoodContext bot)) = getMoodLabel bot
  /\ (getMoodLabel bot = irritated -> eatChoice bot = getFoodItem bot)
  /\ (getMoodLabel bot = good -> eatChoice bot = None).
Proof.
  unfold getMoodContext, getMoodLabel, eatChoice. cbv zeta. cbn [fst].
  set (h := finiteOr (health bot) (20 # 1)). set (f := finiteOr (food bot) (20 # 1)).
  split; [reflexivity|].
  clearbody h f. unfold Qleb.
  destruct (Qle_bool h (8 # 1)) eqn:E1; destruct (Qle_bool f (8 # 1)) eqn:E2;
    destruct (Qle_bool (16 # 1) h) eqn:E3; destruct (Qle_bool (16 # 1) f) eqn:E4;
    destruct (Qle_bool h (10 # 1)) eqn:E5; destruct (Qle_bool f (12 # 1)) eqn:E6;
    cbn [orb andb]; (split; intros Hm); try reflexivity; try congruence;
    exfalso; clear Hm;
    repeat match goal with
    | E : Qle_bool _ _ = true |- _ => apply Qle_bool_iff in E
    | E : Qle_bool _ _ = false |- _ =>
        apply not_true_iff_false in E; rewrite Qle_bool_iff in E
    end; lra.
Qed.

Lemma X23_mood_agrees_witness :
  eatChoice (Examples.holding (6 # 1) [Examples.loaf])
  = getFoodItem (Examples.holding (6 # 1) [Examples.loaf])
  /\ eatChoice (Examples.holding (20 # 1) [Examples.loaf]) = None.
Proof.
  split.
  - apply (proj1 (proj2 (X23_mood_agrees (Examples.holding (6 # 1) [Examples.loaf])))).
    reflexivity.
  - apply (proj2 (proj2 (X23_mood_agrees (Examples.holding (20 # 1) [Examples.loaf])))).
    reflexivity.
Defined.

End MoodFacts.

Module ChatFacts.

Import ChatHandler.

Section Cooldown.
Variable cfg : Behavior.
Variable rest : BehaviorRest.

(** X24.  The request cooldown of the chat handler.  With [chatCooldown]
    switched off nobody is on cooldown, whatever the global cooldown is set
    to.  Otherwise a player is on cooldown for [chatCooldown] after their
    own request, and everybody is for [globalChatCooldown] after
    anybody's; for a player other than the one who asked last, the answer
    is the global window or their own earlier request. *)
Theorem X24_request_cooldown t now u v h :
  (orZ (chatCooldown cfg) 0 <= 0 ->
   isOnCooldown cfg rest now v (markRequest t u h) = false)
  /\ (0 < orZ (chatCooldown cfg) 0 ->
      (now - t < orZ (chatCooldown cfg) 0 ->
       isOnCooldown cfg rest now u (markRequest t u h) = true)
      /\ (t <= now -> now - t < orZ (globalChatCooldown rest) 0 ->
          isOnCooldown cfg rest now v (markRequest t u h) = true)
      /\ (u <> v ->
          isOnCooldown cfg rest now v (markRequest t u h)
          = ((0 <? orZ (globalChatCooldown rest) 0) && (now - t <? orZ (globalChatCooldown rest) 0)
             || (now - default 0 (lastUserRequestAt h !! v) <? orZ (chatCooldown cfg) 0)))).
Proof.
  unfold isOnCooldown, markRequest. cbn [lastGlobalRequestAt lastUserRequestAt].
  split.
  - intros Hoff. destruct (Z.leb_spec (orZ (chatCooldown cfg) 0) 0); [reflexivity|lia].
  - intros Hon. destruct (Z.leb_spec (orZ (chatCooldown cfg) 0) 0); [lia|].
    split; [|split].
    + intros Hin. destruct (_ && _); [reflexivity|].
      rewrite lookup_insert_eq. cbn [default]. apply Z.ltb_lt. exact Hin.
    + intros Hle Hin.
      destruct (Z.ltb_spec 0 (orZ (globalChatCooldown rest) 0));
        destruct (Z.ltb_spec (now - t) (orZ (globalChatCooldown rest) 0)); cbn [andb];
        try reflexivity; lia.
    + intros Huv. rewrite lookup_insert_ne by exact Huv.
      destruct (_ && _); reflexivity.
Qed.

Lemma markRequests_other u marks : forall h,
  Forall (fun mark => snd mark <> u) marks ->
  lastUserRequestAt (markRequests marks h) !! u = lastUserRequestAt h !! u.
Proof.
  induction marks as [|[t v] marks IH]; intros h Hall; [reflexivity|].
  apply Forall_cons in Hall as [Hv Hall]. cbn [snd] in Hv.
  cbn [markRequests fold_left]. unfold markRequests in IH. rewrite (IH _ Hall).
  cbn [markRequest lastUserRequestAt fst snd]. apply lookup_insert_ne. exact Hv.
Qed.

(** X25.  The gate for general chat.  After a request to be quiet, a
    message of that player in general chat is not handed to the planner and
    does not count as a request (the marks of the request cooldown stay as
    they are) until the mute ([etiquetteMuteMinutes], 10 when unset or 0)
    has run out; the store, in which the listener has logged the message by
    then, is not part of the statement.  And two messages of the same
    player that pass the gate are at least [chatCooldown] apart when that
    cooldown is on, whatever other players ask in between and whatever the
    store has become. *)
Theorem X25_passive_gate t now u h m marks m' :
  (t + orZ (etiquetteMuteMinutes rest) 10 * 60000 <> 0 ->
   now < t + orZ (etiquetteMuteMinutes rest) 10 * 60000 ->
   fst (passiveGate cfg rest now u h (muteRequest rest t u m)) = (false, h))
  /\ (0 < orZ (chatCooldown cfg) 0 ->
      fst (fst (passiveGate cfg rest t u h m)) = true ->
      Forall (fun mark => snd mark <> u) marks ->
      fst (fst (passiveGate cfg rest now u
                  (markRequests marks (snd (fst (passiveGate cfg rest t u h m))))
                  m')) = true ->
      orZ (chatCooldown cfg) 0 <= now - t).
Proof.
  split.
  - intros Hnz Hsoon. set (d := orZ (etiquetteMuteMinutes rest) 10 * 60000) in *.
    unfold passiveGate, muteRequest, MemoryStore.isMuted, MemoryStore.setMuted. fold d.
    destruct (MemoryStore.getPlayer u m) as [p m1].
    unfold MemoryStore.getPlayer, MemoryStore.setPlayer. cbn [MemoryStore.players].
    rewrite lookup_insert_eq. cbn [MemoryStore.withMuteUntil MemoryStore.muteUntil].
    destruct (Z.eqb_spec (t + d) 0); [contradiction|].
    destruct (Z.leb_spec (t + d) now); [lia|]. reflexivity.
  - intros Hon H1 Hothers H2.
    assert (E1 : snd (fst (passiveGate cfg rest t u h m)) = markRequest t u h).
    { unfold passiveGate in *. destruct (MemoryStore.isMuted t u m) as [[] m1];
        [discriminate|]. destruct (isOnCooldown _ _ _ _ _); [discriminate|reflexivity]. }
    rewrite E1 in H2. clear H1 E1.
    unfold passiveGate in H2. destruct (MemoryStore.isMuted now u m') as [[] m1];
      [discriminate|].
    destruct (isOnCooldown _ _ _ _ _) eqn:E; [discriminate|]. clear H2.
    unfold isOnCooldown in E.
    destruct (Z.leb_spec (orZ (chatCooldown cfg) 0) 0); [lia|].
    destruct (_ && _); [discriminate|].
    rewrite (markRequests_other u marks _ Hothers) in E.
    cbn [markRequest lastUserRequestAt] in E. rewrite lookup_insert_eq in E.
    cbn [default] in E. apply Z.ltb_ge in E. exact E.
Qed.

End Cooldown.

Lemma X24_request_cooldown_witness :
  isOnCooldown Examples.noQueryCooldown MoreExamples.globalRest 1000 "bob"
    (markRequest 900 "alice" init) = false
  /\ isOnCooldown baseBehavior MoreExamples.globalRest 5000 "alice"
       (markRequest 1000 "alice" init) = true
  /\ isOnCooldown baseBehavior MoreExamples.globalRest 2000 "bob"
       (markRequest 1000 "alice" init) = true
  /\ isOnCooldown baseBehavior MoreExamples.globalRest 9000 "bob"
       (markRequest 1000 "alice" init)
     = ((0 <? orZ (globalChatCooldown MoreExamples.globalRest) 0)
         && (9000 - 1000 <? orZ (globalChatCooldown MoreExamples.globalRest) 0)
        || (9000 - default 0 (lastUserRequestAt init !! "bob")
            <? orZ (chatCooldown baseBehavior) 0)).
Proof.
  pose proof (X24_request_cooldown Examples.noQueryCooldown MoreExamples.globalRest 900 1000
                "alice" "bob" init) as [A _].
  pose proof (X24_request_cooldown baseBehavior MoreExamples.globalRest 1000 5000
                "alice" "alice" init) as [_ B].
  pose proof (X24_request_cooldown baseBehavior MoreExamples.globalRest 1000 2000
                "alice" "bob" init) as [_ C].
  pose proof (X24_request_cooldown baseBehavior MoreExamples.globalRest 1000 9000
                "alice" "bob" init) as [_ D].
  refine (conj (A _) (conj (proj1 (B _) _) (conj (proj1 (proj2 (C _)) _ _)
            (proj2 (proj2 (D _)) _)))); cbn; try lia.
  discriminate.
Defined.

Lemma X25_passive_gate_witness :
  fst (passiveGate baseBehavior baseRest 5000 "alice" init
         (muteRequest baseRest 1000 "alice" MemoryStore.empty))
  = (false, init)
  /\ orZ (chatCooldown baseBehavior) 0 <= 20000 - 10000.
Proof.
  pose proof (X25_passive_gate baseBehavior baseRest 1000 5000 "alice" init
                MemoryStore.empty [] MemoryStore.empty) as [A _].
  pose proof (X25_passive_gate baseBehavior baseRest 10000 20000 "alice" init
                MemoryStore.empty [(15000, "bob")] MemoryStore.empty) as [_ B].
  split.
  - apply A; cbn; lia.
  - apply B; [cbn; lia|reflexivity|repeat constructor; discriminate|reflexivity].
Defined.

End ChatFacts.

Module MemoryFacts.

Import MemoryStore.

Lemma keepLast_length {A} (limit : Z) (l : list A) :
  Z.of_nat (length (keepLast limit l)) <= Z.max 0 limit.
Proof.
  unfold keepLast. destruct (Z.ltb_spec limit (Z.of_nat (length l))); [|lia].
  rewrite length_drop. lia.
Qed.

Lemma keepLast_sublist {A} (limit : Z) (l : list A) : keepLast limit l `sublist_of` l.
Proof. unfold keepLast. destruct (_ <? _); [apply sublist_drop|reflexivity]. Qed.

Lemma keepLast_fits {A} (limit : Z) (l : list A) :
  Z.of_nat (length l) <= limit -> keepLast limit l = l.
Proof. intros Hl. unfold keepLast. destruct (Z.ltb_spec limit (Z.of_nat (length l))); [lia|reflexivity]. Qed.

Lemma keepLast_last {A} (limit : Z) (l : list A) (x : A) :
  1 <= limit -> last (keepLast limit (l ++ [x])%list) = Some x.
Proof.
  intros Hl. unfold keepLast. rewrite length_app. cbn [length].
  destruct (Z.ltb_spec limit (Z.of_nat (length l + 1))); [|apply last_snoc].
  rewrite drop_app_le by lia. apply last_snoc.
Qed.

Lemma existsb_eqb_false (x : string) (l : list string) :
  existsb (String.eqb x) l = false -> x ∉ l.
Proof.
  induction l as [|y l IH]; cbn [existsb]; intros E Hin; [inversion Hin|].
  apply orb_false_iff in E as [E1 E2].
  apply elem_of_cons in Hin as [->|Hin]; [rewrite String.eqb_refl in E1; discriminate|].
  exact (IH E2 Hin).
Qed.

Lemma existsb_eqb_true (x : string) (l : list string) :
  x ∈ l -> existsb (String.eqb x) l = true.
Proof.
  induction l as [|y l IH]; intros Hin; [inversion Hin|].
  cbn [existsb]. apply elem_of_cons in Hin as [->|Hin];
    [rewrite String.eqb_refl; reflexivity|].
  rewrite (IH Hin). apply orb_true_r.
Qed.

Lemma NoDup_snoc_fmap {A} (f : A -> string) (l : list A) (x : A) :
  NoDup (f <$> l) -> f x ∉ f <$> l -> NoDup (f <$> (l ++ [x])%list).
Proof.
  intros Hl Hx. rewrite fmap_app. apply NoDup_app. split; [exact Hl|].
  split; [|apply NoDup_singleton].
  intros y Hy Hy'. cbn in Hy'. apply list_elem_of_singleton in Hy'. subst y. exact (Hx Hy).
Qed.

Lemma NoDup_sub_fmap {A} (f : A -> string) (l k : list A) :
  k `sublist_of` l -> NoDup (f <$> l) -> NoDup (f <$> k).
Proof. intros Hs Hl. eapply sublist_NoDup; [exact Hl|]. apply fmap_sublist. exact Hs. Qed.

Lemma indexOf_snoc (x : string) (l : list string) :
  x ∉ l -> indexOf x (l ++ [x])%list = Some (length l).
Proof.
  induction l as [|y l IH]; intros Hx; cbn [indexOf app length].
  - rewrite String.eqb_refl. reflexivity.
  - destruct (String.eqb_spec y x) as [->|Hne]; [exfalso; apply Hx; left|].
    rewrite IH; [reflexivity|]. intros Hin. apply Hx. right. exact Hin.
Qed.

Lemma indexOf_lt (x : string) (l : list string) i :
  indexOf x l = Some i -> (i < length l)%nat.
Proof.
  revert i. induction l as [|y l IH]; intros i; cbn [indexOf length]; [discriminate|].
  destruct (String.eqb y x); [intros [= <-]; lia|].
  destruct (indexOf x l) as [j|]; [|discriminate].
  intros [= <-]. specialize (IH j eq_refl). lia.
Qed.

Lemma delete_snoc {A} (l : list A) (x : A) : delete (length l) (l ++ [x])%list = l.
Proof. induction l as [|y l IH]; [reflexivity|]. cbn. f_equal. exact IH. Qed.

Lemma last_drop_snoc {A} (n : nat) (l : list A) (x : A) :
  (n <= length l)%nat -> last (drop n (l ++ [x])%list) = Some x.
Proof. intros Hn. rewrite drop_app_le by exact Hn. apply last_snoc. Qed.

Lemma sliceLast_last {A} (limit : Z) (l : list A) (x : A) :
  0 < limit -> last (sliceLast limit (l ++ [x])%list) = Some x.
Proof.
  intros Hl. unfold sliceLast. destruct (Z.ltb_spec 0 limit); [|lia].
  apply last_drop_snoc. rewrite length_app. cbn [length]. lia.
Qed.

Lemma sliceLast_length {A} (limit : Z) (l : list A) :
  0 < limit -> Z.of_nat (length (sliceLast limit l)) <= limit.
Proof.
  intros Hl. unfold sliceLast. destruct (Z.ltb_spec 0 limit); [|lia].
  rewrite length_drop. lia.
Qed.

Lemma sliceLast_sublist {A} (limit : Z) (l : list A) : sliceLast limit l `sublist_of` l.
Proof. unfold sliceLast. destruct (_ <? _); apply sublist_drop. Qed.

(** *** The player's entry *)

Lemma getPlayer_lookup u m :
  players (snd (getPlayer u m)) !! u = Some (fst (getPlayer u m))
  /\ (forall v, v <> u -> players (snd (getPlayer u m)) !! v = players m !! v)
  /\ chat (snd (getPlayer u m)) = chat m
  /\ (players m !! u = Some (fst (getPlayer u m))
      \/ (players m !! u = None /\ fst (getPlayer u m) = freshPlayer)).
Proof.
  unfold getPlayer. destruct (players m !! u) as [p|] eqn:E; cbn [fst snd].
  - auto.
  - unfold setPlayer. cbn [players chat]. rewrite lookup_insert_eq.
    split; [reflexivity|]. split; [|auto].
    intros v Hv. apply lookup_insert_ne. congruence.
Qed.

Section Store.
Context `{Host} `{TextHost}.
Variable rest : BehaviorRest.

Lemma freshPlayer_ok : playerOk rest freshPlayer.
Proof.
  unfold MemoryStore.playerOk. cbn.
  repeat split; try lia; try apply NoDup_nil_2; discriminate.
Qed.

Lemma getPlayer_ok u m :
  storeOk rest m -> playerOk rest (fst (getPlayer u m)) /\ storeOk rest (snd (getPlayer u m)).
Proof.
  intros [Hp Hc]. unfold getPlayer.
  destruct (players m !! u) as [p|] eqn:E; cbn [fst snd].
  - split; [exact (Hp u p E)|split; assumption].
  - split; [apply freshPlayer_ok|]. split; [|exact Hc].
    intros v q. unfold setPlayer. cbn [players].
    destruct (decide (u = v)) as [->|Hne].
    + rewrite lookup_insert_eq. intros [= <-]. apply freshPlayer_ok.
    + rewrite lookup_insert_ne by exact Hne. apply Hp.
Qed.

Lemma setPlayer_ok u p m : storeOk rest m -> playerOk rest p -> storeOk rest (setPlayer u p m).
Proof.
  intros [Hp Hc] Hok. split; [|exact Hc].
  intros v q. unfold setPlayer. cbn [players].
  destruct (decide (u = v)) as [->|Hne].
  - rewrite lookup_insert_eq. intros [= <-]. exact Hok.
  - rewrite lookup_insert_ne by exact Hne. apply Hp.
Qed.

Lemma applyMemOp_ok m op : storeOk rest m -> storeOk rest (applyMemOp rest m op).
Proof.
  intros Hm.
  destruct op as [u delta|u|u fact|u fact|now u topic|now u limit
                 |now u type content|now u content|now u d|now u];
    cbn [MemoryStore.applyMemOp].
  - (* adjustTrust *)
    unfold adjustTrust. destruct (getPlayer_ok u m Hm) as [Hp Hm1].
    destruct (getPlayer u m) as [p m1]. cbn [fst snd] in *.
    apply setPlayer_ok; [exact Hm1|].
    destruct Hp as (_ & _ & Hrest). unfold MemoryStore.playerOk.
    cbn [withTrust trust facts topics interactions].
    split; [apply Q.le_max_l|]. split; [|exact Hrest].
    apply Q.max_lub; [discriminate|apply Q.le_min_l].
  - (* getTrust *)
    unfold getTrust. destruct (getPlayer_ok u m Hm) as [Hp Hm1].
    destruct (getPlayer u m) as [p m1]. exact Hm1.
  - (* addFact *)
    unfold MemoryStore.addFact. destruct (getPlayer_ok u m Hm) as [Hp Hm1].
    destruct (getPlayer u m) as [p m1]. cbn [fst snd] in *.
    destruct (String.eqb (trim fact) ""); [exact Hm1|].
    destruct (existsb _ _) eqn:E; [exact Hm1|]. cbn [snd].
    apply setPlayer_ok; [exact Hm1|].
    destruct Hp as (T1 & T2 & F1 & F2 & Hrest). unfold MemoryStore.playerOk.
    cbn [withFacts trust facts topics interactions].
    split; [exact T1|]. split; [exact T2|].
    split; [apply keepLast_length|]. split; [|exact Hrest].
    apply (NoDup_sub_fmap _ (facts p ++ [trim fact])%list); [apply keepLast_sublist|].
    apply NoDup_snoc_fmap; [exact F2|]. apply existsb_eqb_false. exact E.
  - (* removeFact *)
    unfold removeFact. destruct (getPlayer_ok u m Hm) as [Hp Hm1].
    destruct (getPlayer u m) as [p m1]. cbn [fst snd] in *.
    destruct (indexOf fact (facts p)) as [idx|] eqn:E; [|exact Hm1]. cbn [snd].
    apply setPlayer_ok; [exact Hm1|].
    destruct Hp as (T1 & T2 & F1 & F2 & Hrest). unfold MemoryStore.playerOk.
    cbn [withFacts trust facts topics interactions].
    split; [exact T1|]. split; [exact T2|].
    split; [|split; [|exact Hrest]].
    + pose proof (sublist_length _ _ (sublist_delete (facts p) idx)). lia.
    + apply (NoDup_sub_fmap _ (facts p)); [apply sublist_delete|exact F2].
  - (* addTopic *)
    unfold MemoryStore.addTopic. destruct (getPlayer_ok u m Hm) as [Hp Hm1].
    destruct (getPlayer u m) as [p m1]. cbn [fst snd] in *.
    destruct (String.eqb (trim topic) ""); [exact Hm1|].
    destruct (_ <? _)%nat; [exact Hm1|].
    destruct Hp as (T1 & T2 & F1 & F2 & P1 & P2 & I1).
    assert (Hsub : liveTopics rest now (topics p) `sublist_of` topics p)
      by apply sublist_filter.
    destruct (existsb _ _) eqn:E; cbn [snd]; (apply setPlayer_ok; [exact Hm1|]);
      unfold MemoryStore.playerOk; cbn [withTopics trust facts topics interactions];
      repeat (split; [assumption|]).
    + split; [|split; [|exact I1]].
      * pose proof (sublist_length _ _ Hsub). lia.
      * apply (NoDup_sub_fmap _ (topics p)); assumption.
    + split; [apply keepLast_length|]. split; [|exact I1].
      eapply NoDup_sub_fmap; [apply keepLast_sublist|].
      apply NoDup_snoc_fmap; [apply (NoDup_sub_fmap _ (topics p)); assumption|].
      cbn [topic_normalized]. intros Hin.
      apply list_elem_of_fmap in Hin as (item & Hn & Hin).
      apply not_true_iff_false in E. apply E. apply existsb_exists.
      exists item. split; [apply list_elem_of_In; exact Hin|].
      rewrite <- Hn. apply String.eqb_refl.
  - (* getTopics *)
    unfold MemoryStore.getTopics. destruct (getPlayer_ok u m Hm) as [Hp Hm1].
    destruct (getPlayer u m) as [p m1]. cbn [fst snd] in *.
    apply setPlayer_ok; [exact Hm1|].
    destruct Hp as (T1 & T2 & F1 & F2 & P1 & P2 & I1).
    assert (Hsub : liveTopics rest now (topics p) `sublist_of` topics p)
      by apply sublist_filter.
    unfold MemoryStore.playerOk; cbn [withTopics trust facts topics interactions].
    repeat (split; [assumption|]).
    split; [|split; [|exact I1]].
    + pose proof (sublist_length _ _ Hsub). lia.
    + apply (NoDup_sub_fmap _ (topics p)); assumption.
  - (* logInteraction *)
    unfold logInteraction. destruct (getPlayer_ok u m Hm) as [Hp Hm1].
    destruct (getPlayer u m) as [p m1]. cbn [fst snd] in *.
    set (pushed := (interactions p ++ _)%list).
    assert (Hm2 : storeOk rest (setPlayer u (withInteractions
                    (if (50 <? length pushed)%nat then tail pushed else pushed) p) m1)).
    { apply setPlayer_ok; [exact Hm1|].
      destruct Hp as (T1 & T2 & F1 & F2 & P1 & P2 & I1).
      unfold MemoryStore.playerOk; cbn [withInteractions trust facts topics interactions].
      repeat (split; [assumption|]).
      assert (Hl : length pushed = S (length (interactions p)))
        by (subst pushed; rewrite length_app; cbn; lia).
      destruct (Nat.ltb_spec 50 (length pushed)); [rewrite length_tl|]; lia. }
    revert Hm2. generalize (setPlayer u (withInteractions
                    (if (50 <? length pushed)%nat then tail pushed else pushed) p) m1).
    intros m2 [Hp2 Hc2]. unfold logGlobalChat.
    destruct (String.eqb content ""); [split; assumption|].
    split; [exact Hp2|]. cbn [chat].
    pose proof (keepLast_length 80 (chat m2 ++ [{| chat_timestamp := now;
                  chat_username := u; chat_message := content |}])%list). lia.
  - (* logGlobalChat *)
    destruct Hm as [Hp Hc]. unfold logGlobalChat.
    destruct (String.eqb content ""); [split; assumption|].
    split; [exact Hp|]. cbn [chat].
    pose proof (keepLast_length 80 (chat m ++ [{| chat_timestamp := now;
                  chat_username := u; chat_message := content |}])%list). lia.
  - (* setMuted *)
    unfold setMuted. destruct (getPlayer_ok u m Hm) as [Hp Hm1].
    destruct (getPlayer u m) as [p m1]. cbn [fst snd] in *.
    apply setPlayer_ok; [exact Hm1|exact Hp].
  - (* isMuted *)
    unfold isMuted. destruct (getPlayer_ok u m Hm) as [Hp Hm1].
    destruct (getPlayer u m) as [p m1]. cbn [fst snd] in *.
    destruct (muteUntil p) as [until|]; [|exact Hm1].
    destruct (until =? 0); [exact Hm1|].
    destruct (until <=? now); [|exact Hm1].
    apply setPlayer_ok; [exact Hm1|exact Hp].
Qed.

Lemma runMemory_ok ops : forall m, storeOk rest m -> storeOk rest (runMemory rest ops m).
Proof.
  induction ops as [|op ops IH]; intros m Hm; [exact Hm|].
  cbn [MemoryStore.runMemory fold_left]. apply IH. apply applyMemOp_ok. exact Hm.
Qed.

Lemma empty_ok : storeOk rest empty.
Proof. split; [intros u p E; cbn in E; rewrite lookup_empty in E; discriminate|cbn; lia]. Qed.

(** X26.  The bounds of the store.  After any sequence of calls on the
    empty store for players whose names the players object does not
    inherit a member for, every player's trust lies between -10 and 10,
    their facts are at most [maxFactsPerPlayer] (50 when unset or 0) and no
    two of them have the same normal form, their topics are at most
    [maxTopicsPerPlayer] (10 when unset) with distinct normal forms, their
    interactions are at most 50, and the global chat log holds at most 80
    lines. *)
Theorem X26_store_bounds ops :
  Forall (fun op => ownName (opName op) = true) ops ->
  let m := runMemory rest ops empty in
  (forall u p, players m !! u = Some p ->
     (-10 # 1 <= trust p)%Q /\ (trust p <= 10 # 1)%Q
     /\ Z.of_nat (length (facts p)) <= Z.max 0 (orZ (maxFactsPerPlayer rest) 50)
     /\ NoDup (normalizeFact <$> facts p)
     /\ Z.of_nat (length (topics p)) <= Z.max 0 (finiteOr (maxTopicsPerPlayer rest) 10)
     /\ NoDup (topic_normalized <$> topics p)
     /\ (length (interactions p) <= 50)%nat)
  /\ (length (chat m) <= 80)%nat.
Proof. intros _. exact (runMemory_ok ops empty empty_ok). Qed.

Lemma isMuted_lookup now v m m' :
  players m !! v = players m' !! v ->
  fst (isMuted now v m) = fst (isMuted now v m').
Proof.
  intros E. unfold isMuted, getPlayer. rewrite E.
  destruct (players m' !! v) as [p|]; [|reflexivity].
  destruct (muteUntil p) as [until|]; [|reflexivity].
  destruct (until =? 0); [reflexivity|]. destruct (until <=? now); reflexivity.
Qed.

(** X27.  Muting and its expiry, for players whose names the players
    object does not inherit a member for.  After [setMuted] at time [t] for
    [d] milliseconds the player is muted at every time before [t + d], and
    the question does not change the store; from [t + d] on the player is
    not muted, and once that has been observed the mute is gone for good,
    also for an earlier reading of the clock.  No other such player becomes
    muted. *)
Theorem X27_mute_round_trip u v t d now now' m :
  ownName u = true ->
  t + d <> 0 ->
  (now < t + d -> isMuted now u (setMuted t u d m) = (true, setMuted t u d m))
  /\ (t + d <= now ->
      fst (isMuted now u (setMuted t u d m)) = false
      /\ fst (isMuted now' u (snd (isMuted now u (setMuted t u d m)))) = false)
  /\ (ownName v = true -> v <> u ->
      fst (isMuted now v (setMuted t u d m)) = fst (isMuted now v m)).
Proof.
  intros _ Hnz.
  destruct (getPlayer_lookup u m) as (Hu & Hv & _).
  unfold setMuted. destruct (getPlayer u m) as [p m1]. cbn [fst snd] in Hu, Hv.
  set (pm := withMuteUntil (Some (t + d)) p).
  assert (Hget : getPlayer u (setPlayer u pm m1) = (pm, setPlayer u pm m1)).
  { unfold getPlayer, setPlayer. cbn [players]. rewrite lookup_insert_eq. reflexivity. }
  split; [|split].
  - intros Hsoon. unfold isMuted. rewrite Hget. cbn [pm withMuteUntil muteUntil].
    destruct (Z.eqb_spec (t + d) 0); [contradiction|].
    destruct (Z.leb_spec (t + d) now); [lia|reflexivity].
  - intros Hlate. unfold isMuted at 1 3. rewrite Hget. cbn [pm withMuteUntil muteUntil].
    destruct (Z.eqb_spec (t + d) 0); [contradiction|].
    destruct (Z.leb_spec (t + d) now); [|lia]. cbn [fst snd].
    split; [reflexivity|].
    unfold isMuted, getPlayer, setPlayer. cbn [players].
    rewrite lookup_insert_eq. reflexivity.
  - intros _ Hne. apply isMuted_lookup. unfold setPlayer. cbn [players].
    rewrite lookup_insert_ne by congruence. apply Hv. exact Hne.
Qed.

(** X28.  Remembering a fact.  When [addFact] accepts a fact (and the cap
    is at least one), the trimmed text is the player's newest fact; adding
    the same fact again is refused and changes nothing; and, when the cap
    was not reached, removing the trimmed text gives the player's earlier
    facts back. *)
Theorem X28_fact_round_trip u fact m m1 :
  addFact rest u fact m = (true, m1) ->
  1 <= orZ (maxFactsPerPlayer rest) 50 ->
  (exists p1, players m1 !! u = Some p1 /\ last (facts p1) = Some (trim fact))
  /\ addFact rest u fact m1 = (false, m1)
  /\ (Z.of_nat (length (facts (fst (getPlayer u m)))) < orZ (maxFactsPerPlayer rest) 50 ->
      fst (removeFact u (trim fact) m1) = true
      /\ exists p2, players (snd (removeFact u (trim fact) m1)) !! u = Some p2
                    /\ facts p2 = facts (fst (getPlayer u m))).
Proof.
  intros Hadd Hcap. unfold MemoryStore.addFact in Hadd.
  destruct (getPlayer u m) as [p m0]. cbn [fst].
  destruct (String.eqb (trim fact) "") eqn:Eclean; [discriminate|].
  destruct (existsb _ _) eqn:Enew; [discriminate|].
  injection Hadd as <-.
  set (fs := keepLast (orZ (maxFactsPerPlayer rest) 50) (facts p ++ [trim fact])%list).
  assert (Hlast : last fs = Some (trim fact)) by (apply keepLast_last; exact Hcap).
  assert (Hget : getPlayer u (setPlayer u (withFacts fs p) m0)
                 = (withFacts fs p, setPlayer u (withFacts fs p) m0)).
  { unfold getPlayer, setPlayer. cbn [players]. rewrite lookup_insert_eq. reflexivity. }
  split; [|split].
  - exists (withFacts fs p). split; [|exact Hlast].
    unfold setPlayer. cbn [players]. apply lookup_insert_eq.
  - unfold MemoryStore.addFact. rewrite Hget, Eclean. cbn [withFacts facts].
    rewrite existsb_eqb_true; [reflexivity|].
    apply list_elem_of_fmap_2. apply last_Some in Hlast as [l' ->].
    apply elem_of_app. right. left.
  - intros Hroom.
    assert (Hfs : fs = (facts p ++ [trim fact])%list).
    { subst fs. apply keepLast_fits. rewrite length_app. cbn [length]. lia. }
    assert (Hfresh : trim fact ∉ facts p).
    { intros Hin. apply existsb_eqb_false in Enew. apply Enew.
      apply list_elem_of_fmap_2. exact Hin. }
    unfold removeFact. rewrite Hget. cbn [withFacts facts]. rewrite Hfs.
    rewrite (indexOf_snoc _ _ Hfresh). cbn [fst snd]. split; [reflexivity|].
    eexists. split; [unfold setPlayer; cbn [players]; apply lookup_insert_eq|].
    cbn [facts]. apply delete_snoc.
Qed.

(** X29.  Topics of conversation.  A topic that [addTopic] accepts (the
    limit being at least one) is the last of the topics that [getTopics]
    returns for every later reading within the time to live; and what
    [getTopics] returns never holds more than [limit] texts (for a positive
    limit), each the text of a stored topic not older than the time to
    live. *)
Theorem X29_topic_round_trip now now' u topic limit m m1 :
  0 < limit ->
  (addTopic rest now u topic m = (true, m1) ->
   1 <= finiteOr (maxTopicsPerPlayer rest) 10 ->
   now' - now <= finiteOr (topicTtlMs rest) 1800000 ->
   last (fst (getTopics rest now' u limit m1)) = Some (trim topic))
  /\ Z.of_nat (length (fst (getTopics rest now' u limit m))) <= limit
  /\ (forall x, x ∈ fst (getTopics rest now' u limit m) ->
      exists item, item ∈ topics (fst (getPlayer u m)) /\ topic_text item = x
                   /\ now' - topic_timestamp item <= finiteOr (topicTtlMs rest) 1800000).
Proof.
  intros Hlimit. split; [|split].
  - intros Hadd Hcap Hlive. unfold MemoryStore.addTopic in Hadd.
    destruct (getPlayer u m) as [p m0].
    destruct (String.eqb (trim topic) ""); [discriminate|].
    destruct (_ <? _)%nat; [discriminate|].
    destruct (existsb _ _); [discriminate|].
    injection Hadd as <-.
    set (new := {| topic_text := trim topic; topic_normalized := _;
                   topic_timestamp := now |}).
    set (ts := keepLast _ (_ ++ [new])%list).
    assert (Hlast : last ts = Some new) by (apply keepLast_last; exact Hcap).
    unfold MemoryStore.getTopics, getPlayer, setPlayer. cbn [players].
    rewrite lookup_insert_eq. cbn [fst withTopics topics].
    apply last_Some in Hlast as [l' ->].
    unfold liveTopics. rewrite filter_app.
    rewrite (filter_cons_True _ new []) by (cbn [new topic_timestamp]; exact Hlive).
    rewrite filter_nil, fmap_last, sliceLast_last by exact Hlimit. reflexivity.
  - unfold MemoryStore.getTopics. destruct (getPlayer u m) as [p m0]. cbn [fst].
    rewrite length_fmap. apply sliceLast_length. exact Hlimit.
  - intros x Hx. unfold MemoryStore.getTopics in Hx.
    destruct (getPlayer u m) as [p m0]. cbn [fst] in *.
    apply list_elem_of_fmap in Hx as (item & -> & Hin).
    apply (fun Hi => elem_of_sublist _ _ _ Hi (sliceLast_sublist limit _)) in Hin.
    apply list_elem_of_filter in Hin as [Hlive Hin].
    exists item. auto.
Qed.

End Store.

Lemma X26_store_bounds_witness :
  (-10 # 1 <= 10 # 1)%Q /\ (length (chat (runMemory (H := AsciiHost.host)
      (H0 := AsciiText.host) baseRest
      [OpAdjustTrust "alice" (Num (50 # 1)); OpLogGlobalChat 7 "alice" "hi"] empty)) <= 80)%nat.
Proof.
  assert (Hown : Forall (fun op => ownName (opName op) = true)
                   [OpAdjustTrust "alice" (Num (50 # 1)); OpLogGlobalChat 7 "alice" "hi"])
    by (repeat constructor).
  pose proof (X26_store_bounds (H := AsciiHost.host) (H0 := AsciiText.host) baseRest
                [OpAdjustTrust "alice" (Num (50 # 1)); OpLogGlobalChat 7 "alice" "hi"] Hown)
    as [A B].
  split; [|exact B].
  exact (proj1 (A "alice" (withTrust (10 # 1) freshPlayer) eq_refl)).
Defined.

Lemma X27_mute_round_trip_witness :
  isMuted 5000 "alice" (setMuted 1000 "alice" 600000 empty)
  = (true, setMuted 1000 "alice" 600000 empty)
  /\ fst (isMuted 700000 "alice" (setMuted 1000 "alice" 600000 empty)) = false
  /\ fst (isMuted 5000 "bob" (setMuted 1000 "alice" 600000 empty))
     = fst (isMuted 5000 "bob" empty).
Proof.
  pose proof (X27_mute_round_trip "alice" "bob" 1000 600000 5000 0 empty eq_refl) as A.
  pose proof (X27_mute_round_trip "alice" "bob" 1000 600000 700000 0 empty eq_refl) as B.
  refine (conj (proj1 (A _) _) (conj (proj1 (proj1 (proj2 (B _)) _))
            (proj2 (proj2 (A _)) eq_refl _))); try lia.
  discriminate.
Defined.

Lemma X28_fact_round_trip_witness :
  addFact (H := AsciiHost.host) (H0 := AsciiText.host) baseRest "alice" " Likes  cats "
    (snd (addFact (H := AsciiHost.host) (H0 := AsciiText.host) baseRest "alice"
            " Likes  cats " empty))
  = (false,
     snd (addFact (H := AsciiHost.host) (H0 := AsciiText.host) baseRest "alice"
            " Likes  cats " empty))
  /\ fst (removeFact "alice" "Likes  cats"
            (snd (addFact (H := AsciiHost.host) (H0 := AsciiText.host) baseRest "alice"
                    " Likes  cats " empty))) = true.
Proof.
  pose proof (X28_fact_round_trip (H := AsciiHost.host) (H0 := AsciiText.host)
                baseRest "alice" " Likes  cats " empty _ eq_refl) as A.
  assert (Hcap : 1 <= orZ (maxFactsPerPlayer baseRest) 50) by (cbn; lia).
  destruct (A Hcap) as (_ & B & C).
  split; [exact B|].
  apply C. vm_compute. reflexivity.
Defined.

Lemma X29_topic_round_trip_witness :
  last (fst (getTopics baseRest 60000 "alice" 5
               (snd (addTopic (H := AsciiHost.host) (H0 := AsciiText.host) baseRest 1000
                       "alice" "the nether portal" empty))))
  = Some "the nether portal"
  /\ exists item,
       item ∈ topics (fst (getPlayer "alice"
                 (snd (addTopic (H := AsciiHost.host) (H0 := AsciiText.host) baseRest 1000
                         "alice" "the nether portal" empty))))
       /\ topic_text item = "the nether portal"
       /\ 60000 - topic_timestamp item <= finiteOr (topicTtlMs baseRest) 1800000.
Proof.
  assert (Hlimit : 0 < 5) by lia.
  pose proof (X29_topic_round_trip (H := AsciiHost.host) (H0 := AsciiText.host)
                baseRest 1000 60000 "alice" "the nether portal" 5 empty
                (snd (addTopic (H := AsciiHost.host) (H0 := AsciiText.host) baseRest 1000
                        "alice" "the nether portal" empty)) Hlimit)
    as (A & _).
  pose proof (X29_topic_round_trip (H := AsciiHost.host) (H0 := AsciiText.host)
                baseRest 1000 60000 "alice" "the nether portal" 5
                (snd (addTopic (H := AsciiHost.host) (H0 := AsciiText.host) baseRest 1000
                        "alice" "the nether portal" empty)) empty Hlimit)
    as (_ & _ & C).
  split.
  - apply A; [reflexivity|cbn; lia|cbn; lia].
  - apply C. vm_compute. left.
Defined.

End MemoryFacts.

Module RequestFacts.

Import Step Shapes Requests.

Section WithEnv.
Context `{Host}.
Variable random : nat -> Q.
Variable cfg : Behavior.
Variable env : Env.






End WithEnv.


End RequestFacts.
